(** * houclip: the snippet repository and catalog

    A shallow embedding of [scripts/python/houclip] (snippets.py,
    config.py, broadcast.py, messages.py, clipboard.py) and the
    properties of its repository protocol.

    Modelling conventions.
    - A Python [str] is a [string]; one [ascii] stands for one character
      (a code point below 256).  A file holds a [string] of bytes.
    - The standard [csv] and [gzip] modules are parameters of the
      development ([environment]); of [csv.reader] it is assumed that
      an empty file has no rows, every other law is a hypothesis of the
      theorem that needs it.
    - The file system has four directories: the repository, one
      directory per category below it, [/dev/shm] and [$HOUDINI_TEMP].
      A regular file is named by its directory and its name in it.
      [/dev/shm] is always there; the others exist when they are in
      [dirs].  Below the repository there are no directories but those
      of the categories, and no regular file carries the name of one.
    - A [Path] built from a snippet's identifier is resolved as the
      kernel does ([locate]): an identifier can name a file of the
      category's directory, the directory itself, or, through [..], an
      entry of the repository's root.  Where an identifier leads
      elsewhere the model does not follow the program: the run ends
      [Beyond].
    - A command line handed to [/bin/sh] is scanned as the shell scans
      it ([Sh.plain]).  A line of words and double-quoted texts without
      expansions runs [notify-send] or [xclip] and leaves the files
      alone; what any other line does to the machine is the
      environment's [shell_effect].
    - Exceptions are values of [exn]; a method is a function from the
      world to an outcome and a new world. *)

From Stdlib Require Import String Ascii List Arith Lia DecimalString.
From stdpp Require Import base option list gmap strings.

(** ** Python string primitives *)

Module Py.

(** [str.isspace] on one character: TAB..CR, FS..US, space, NEL, NBSP. *)
Definition isspace (c : ascii) : bool :=
  let n := nat_of_ascii c in
  (((9 <=? n) && (n <=? 13)) || ((28 <=? n) && (n <=? 32))
   || (n =? 133) || (n =? 160))%nat.

(** [s.lstrip()] *)
Fixpoint lstrip (s : string) : string :=
  match s with
  | String c s' => if isspace c then lstrip s' else s
  | EmptyString => EmptyString
  end.

(** [s.rstrip()] *)
Fixpoint rstrip (s : string) : string :=
  match s with
  | String c s' =>
      match rstrip s' with
      | EmptyString => if isspace c then EmptyString else String c EmptyString
      | r => String c r
      end
  | EmptyString => EmptyString
  end.

(** [s.strip()] *)
Definition strip (s : string) : string := rstrip (lstrip s).

(** [s.split(sep)] for a one-character separator: never empty. *)
Fixpoint split (sep : ascii) (s : string) : list string :=
  match s with
  | String c s' =>
      if Ascii.eqb c sep then EmptyString :: split sep s'
      else match split sep s' with
           | w :: ws => String c w :: ws
           | [] => [String c EmptyString]
           end
  | EmptyString => [EmptyString]
  end.

(** [sep.join(l)] *)
Fixpoint join (sep : string) (l : list string) : string :=
  match l with
  | [] => EmptyString
  | [w] => w
  | w :: ws => w +:+ sep +:+ join sep ws
  end.

(** [s.partition(sep)[0]]: the text before the first separator, the
    whole string when there is none. *)
Fixpoint partition_head (sep : ascii) (s : string) : string :=
  match s with
  | String c s' =>
      if Ascii.eqb c sep then EmptyString else String c (partition_head sep s')
  | EmptyString => EmptyString
  end.

(** [s[0:n]] for [0 <= n] *)
Fixpoint slice_to (n : nat) (s : string) : string :=
  match n, s with
  | S n', String c s' => String c (slice_to n' s')
  | _, _ => EmptyString
  end.

(** [n] spaces *)
Fixpoint spaces (n : nat) : string :=
  match n with
  | O => EmptyString
  | S n' => String " " (spaces n')
  end.

(** [f'{s:<{w}}']: left-aligned in a field of width [w]. *)
Definition ljust (w : nat) (s : string) : string :=
  s +:+ spaces (w - String.length s).

(** [sorted(l)] on strings: order by code points, a prefix first. *)
Fixpoint insert_sorted (x : string) (l : list string) : list string :=
  match l with
  | [] => [x]
  | y :: l' => if String.leb x y then x :: l else y :: insert_sorted x l'
  end.

Definition sorted (l : list string) : list string :=
  foldr insert_sorted [] l.

(** the double-quote character and the line feed *)
Definition dq : string := String (ascii_of_nat 34) EmptyString.
Definition nl : string := String (ascii_of_nat 10) EmptyString.

(** [c in s] for a character *)
Fixpoint contains (c : ascii) (s : string) : bool :=
  match s with
  | String d s' => Ascii.eqb d c || contains c s'
  | EmptyString => false
  end.


(** [PurePath(s).parts] of a relative path: the text between the
    slashes, without the empty pieces and the [.] pieces. *)
Definition parts (s : string) : list string :=
  filter (λ x, negb (String.eqb x "") && negb (String.eqb x ".")) (split "/" s).

(** [PurePath(s).is_absolute()] *)
Definition is_absolute (s : string) : bool :=
  match s with
  | String c _ => Ascii.eqb c "/"
  | EmptyString => false
  end.

(** A name that is one file name and nothing else: not empty, not [.]
    or [..], and without a slash. *)
Definition plain_name (s : string) : bool :=
  negb (String.eqb s "") && negb (String.eqb s ".") && negb (String.eqb s "..")
  && negb (contains "/" s).

End Py.

(** ** The shell's reading of a command line *)

Module Sh.

(** Characters that start an expansion or an escape, between double
    quotes as well as outside them: [$], the backquote and the
    backslash. *)
Definition expands (c : ascii) : bool :=
  Ascii.eqb c "$" || Ascii.eqb c "`" || Ascii.eqb c "\".

(** Characters that, outside quotes, end a command, start another one,
    redirect output, open a quotation or a comment. *)
Definition operates (c : ascii) : bool :=
  Ascii.eqb c ";" || Ascii.eqb c "&" || Ascii.eqb c "|" || Ascii.eqb c "("
  || Ascii.eqb c ")" || Ascii.eqb c ">" || Ascii.eqb c "'" || Ascii.eqb c "#"
  || Ascii.eqb c (ascii_of_nat 10).

(** [scan quoted cmd]: the rest [cmd] of a line, read outside
    ([quoted = false]) or between double quotes, is plain text. *)
Fixpoint scan (quoted : bool) (cmd : string) : bool :=
  match cmd with
  | String c rest =>
      if Ascii.eqb c (ascii_of_nat 34) then scan (negb quoted) rest
      else if expands c then false
      else if negb quoted && operates c then false
      else scan quoted rest
  | EmptyString => negb quoted
  end.

(** One simple command: words and double-quoted texts, nothing the
    shell would expand or run on its own. *)
Definition plain (cmd : string) : bool := scan false cmd.

End Sh.

(** ** messages.py *)

Module messages.
Definition CAT := "Which category?".
Definition CAT_EMPTY := "No snippets in selected category.".
Definition CAT_INVALID := "Unsupported category: ".
Definition CMD_INVALID := "Invalid command.".
Definition CSV_EMPTY := "Category already empty:".
Definition CSV_MISSING := "Missing CSV file:".
Definition DESC := "Description:".
Definition DESC_REQ := "Snippet description is mandatory.".
Definition FILE_MISSING := "File not found:".
Definition HOU_MISSING :=
  "Module " +:+ Py.dq +:+ "hou" +:+ Py.dq +:+ " not found." +:+ Py.nl
  +:+ "This function must be run from Houdini.".
Definition MKDIR := "Creating directory:".
Definition PREFIX_INVALID := "Supplied prefix is invalid:".
Definition SEL_EMPTY := "Empty selection.".
Definition SEL_TIP := "Select at least one network item.".
Definition SNIPPET := "Which snippet?".
Definition SNIPPET_ADDED := "Snippet added to repository.".
Definition SNIPPET_DELETED := "Snippet removed from repository:".
Definition SNIPPET_FETCHED := "snippet fetched and is ready for pasting.".
Definition SOURCE_MISSING := "Source path not found. Nothing was exported.".
Definition TAGS := "Tags:".
Definition TOUCH := "Creating file:".
End messages.

(** ** config.py: the category registry *)

(** The dict [PREFIXES], in insertion order; [None] is Python's [None]. *)
Definition PREFIXES : list (string * option string) :=
  [ ("Chop", Some "CHOP"); ("ChopNet", Some "CHOPNET"); ("Cop2", Some "COP2");
    ("CopNet", Some "IMG"); ("Director", None); ("Dop", Some "DOP");
    ("Driver", Some "ROP"); ("Lop", Some "LOP"); ("Manager", None);
    ("Object", Some "OBJ"); ("Shop", Some "SHOP"); ("Sop", Some "SOP");
    ("Top", Some "TOP"); ("TopNet", Some "TOPNET"); ("Vop", Some "VOP");
    ("VopNet", None) ].

(** [CATEGORIES = tuple(PREFIXES)] *)
Definition CATEGORIES : list string := map fst PREFIXES.

Definition LANGUAGES : list string := ["HScript"; "Python"; "VEX"].

(** [PREFIXES[category]]: the outer [None] is a [KeyError]. *)
Fixpoint dict_get {V} (d : list (string * V)) (k : string) : option V :=
  match d with
  | (k', v) :: d' => if String.eqb k' k then Some v else dict_get d' k
  | [] => None
  end.

(** [x in PREFIXES.values()] *)
Definition in_values (x : option string) : bool :=
  bool_decide (x ∈ map snd PREFIXES).

(** [x in t] for a tuple of strings *)
Definition in_tuple (x : string) (t : list string) : bool :=
  bool_decide (x ∈ t).

(** [f'{x}'] of a value that is a string or [None] *)
Definition fstring (x : option string) : string :=
  match x with Some v => v | None => "None" end.

(** ** The world the program runs in *)

(** The directories files live in: [Config().repo], the directory of a
    category below it, [/dev/shm] and [Config.houdini_temp()]. *)
Inductive dir := Repo | Category (c : string) | Shm | HoudiniTemp.

#[global] Instance dir_eq_dec : EqDecision dir.
Proof. solve_decision. Defined.

#[global] Instance dir_countable : Countable dir.
Proof.
  refine (inj_countable'
            (λ d, match d with
                  | Repo => inl 0 | Shm => inl 1 | HoudiniTemp => inl 2
                  | Category c => inr c
                  end)
            (λ x, match x with
                  | inl 0 => Repo | inl 1 => Shm | inl _ => HoudiniTemp
                  | inr c => Category c
                  end) _).
  by intros [].
Defined.

(** A regular file: its directory and its name there. *)
Definition path : Type := dir * string.

(** What a [Path] leads to: a name in a directory, a directory, nothing
    at all, or a place the model does not describe. *)
Inductive location :=
| At (p : path)
| Dir_at (d : dir)
| Missing
| Elsewhere.

Inductive exn :=
| FileNotFoundError (what : string)
| IsADirectoryError (what : string)
| ValueError (msg : string)
| IndexError
| KeyError
| AttributeError
| ModuleNotFoundError
| TypeCategoryNotFoundError (category : string)
| CalledProcessError (returncode : nat)
| BadGzipFile.

(** How a run ends: it returns, it raises, or it leaves the part of the
    machine the model describes. *)
Inductive result (A : Type) :=
| Ok (a : A)
| Raise (e : exn)
| Beyond.
Arguments Ok {A} a.
Arguments Raise {A} e.
Arguments Beyond {A}.

Inductive variant := OpSnippet | CodeSnippet.

(** A [Snippet] object; [oid] is the object's identity. *)
Module Snippet.
Record object := {
  oid : nat;
  kind : variant;
  description : string;
  tags : list string;
  category : string;
  prefix : string;
  uuid : string
}.
End Snippet.
Abbreviation snippet := Snippet.object.

Inductive channel := Stdout | StatusMsg | NotifySend.

(** One item of the host's network-editor selection:
    [networkItemType() == hou.networkItemType.Node] and
    [type().category().name()]. *)
Record item := { is_node : bool; type_category : string }.

(** The [hou] module, as far as the program consults it. *)
Record host := {
  selectedItems : list item;
  (** the file [copyItemsToClipboard] leaves in [$HOUDINI_TEMP] *)
  clip_name : string;
  clip_payload : string
}.

Record world := {
  (** the regular files *)
  fs : gmap path string;
  (** the directories that exist *)
  dirs : gset dir;
  (** every state the regular files went through, oldest first: a run
      that is interrupted leaves one of them behind *)
  journal : list (gmap path string);
  (** [Snippet.__instances] *)
  instances : list snippet;
  next_oid : nat;
  (** number of [uuid1()] calls so far *)
  clock : nat;
  clipboard : string;
  (** what was broadcast, oldest first *)
  log : list (channel * string * nat)
}.

(** What the program takes from outside itself: the loaded configuration,
    the standard library's codecs, the menu, the clock and the shell. *)
Record environment := {
  repo_dir : string;
  houdini_temp_dir : string;
  max_desc_len : nat;
  max_tags_len : nat;
  (** [csv.writer(...).writerow(row)]: the text written *)
  csv_writerow : list string → string;
  (** [csv.reader(f)]: the rows of a file *)
  csv_reader : string → list (list string);
  (** an empty file has no rows *)
  csv_reader_empty : csv_reader "" = [];
  gzip_compress : string → string;
  gzip_decompress : string → option string;
  (** [config.menu.enter(prompt)] *)
  menu_enter : string → string;
  (** [config.menu.select(choices, prompt)] *)
  menu_select : list string → option string → string;
  (** [uuid1().hex] of the n-th call *)
  uuid_hex : nat → string;
  (** exit status of [subprocess.run(cmd, shell=True)] *)
  shell_status : string → nat;
  (** what a command line that is not [Sh.plain] does to the files, the
      directories and the clipboard *)
  shell_effect : string → world → world;
  (** [import hou]: [None] outside Houdini *)
  hou : option host
}.

Definition set_fs (f : gmap path string → gmap path string) (w : world) : world :=
  {| fs := f (fs w); dirs := dirs w; journal := journal w ++ [f (fs w)];
     instances := instances w; next_oid := next_oid w;
     clock := clock w; clipboard := clipboard w; log := log w |}.

Definition set_dirs (f : gset dir → gset dir) (w : world) : world :=
  {| fs := fs w; dirs := f (dirs w); journal := journal w;
     instances := instances w; next_oid := next_oid w;
     clock := clock w; clipboard := clipboard w; log := log w |}.

Definition set_instances (f : list snippet → list snippet) (w : world) : world :=
  {| fs := fs w; dirs := dirs w; journal := journal w;
     instances := f (instances w); next_oid := next_oid w;
     clock := clock w; clipboard := clipboard w; log := log w |}.

Definition set_log (f : list (channel * string * nat) → list (channel * string * nat))
    (w : world) : world :=
  {| fs := fs w; dirs := dirs w; journal := journal w;
     instances := instances w; next_oid := next_oid w;
     clock := clock w; clipboard := clipboard w; log := f (log w) |}.

Definition set_clipboard (data : string) (w : world) : world :=
  {| fs := fs w; dirs := dirs w; journal := journal w;
     instances := instances w; next_oid := next_oid w;
     clock := clock w; clipboard := data; log := log w |}.

(** A method: it returns or raises, and leaves a world behind. *)
Definition M (A : Type) : Type := world → result A * world.

Definition ret {A} (a : A) : M A := λ w, (Ok a, w).
Definition raise {A} (e : exn) : M A := λ w, (Raise e, w).
Definition bind {A B} (m : M A) (k : A → M B) : M B :=
  λ w, match m w with
       | (Ok a, w') => k a w'
       | (Raise e, w') => (Raise e, w')
       | (Beyond, w') => (Beyond, w')
       end.

Notation "x <- m ;; k" := (bind m (λ x, k))
  (at level 100, m at next level, right associativity).
Notation "m ;; k" := (bind m (λ _, k))
  (at level 100, right associativity).

Definition gets {A} (f : world → A) : M A := λ w, (Ok (f w), w).
Definition modify (f : world → world) : M unit := λ w, (Ok tt, f w).

(** [for x in l: body(x)] *)
Fixpoint for_each {A} (l : list A) (body : A → M unit) : M unit :=
  match l with
  | [] => ret tt
  | x :: l' => body x ;; for_each l' body
  end.

(** [row[i]] *)
Definition index {A} (l : list A) (i : nat) : M A :=
  match l !! i with
  | Some x => ret x
  | None => raise IndexError
  end.

(** *** Files and directories *)

(** [d.exists()] for a directory.  [/dev/shm] is part of the system;
    below the repository only the registry's names are directories. *)
Definition dir_exists (w : world) (d : dir) : bool :=
  match d with
  | Shm => true
  | Category c => in_tuple c (CATEGORIES ++ LANGUAGES) && bool_decide (d ∈ dirs w)
  | _ => bool_decide (d ∈ dirs w)
  end.

(** [d.mkdir()] of a directory that does not exist *)
Definition mkdir (d : dir) : M unit := modify (set_dirs (λ ds, {[d]} ∪ ds)).

(** [p.exists()] for the name of a regular file *)
Definition exists_ (p : path) : M bool := gets (λ w, bool_decide (is_Some (fs w !! p))).

(** [open(p, 'r').read()] *)
Definition read_file (p : path) (what : string) : M string :=
  λ w, match fs w !! p with
       | Some c => (Ok c, w)
       | None => (Raise (FileNotFoundError what), w)
       end.

(** [open(p, 'w')]: the file is truncated, or created in a directory
    that exists. *)
Definition open_w (p : path) (what : string) : M unit :=
  λ w, if bool_decide (is_Some (fs w !! p)) || dir_exists w p.1
       then (Ok tt, set_fs (insert p "") w)
       else (Raise (FileNotFoundError what), w).

(** writing to a file open for writing or appending *)
Definition write (p : path) (data : string) : M unit :=
  modify (set_fs (λ m, <[p := default "" (m !! p) +:+ data]> m)).

(** [p.unlink()] *)
Definition unlink (p : path) (what : string) : M unit :=
  λ w, match fs w !! p with
       | Some _ => (Ok tt, set_fs (delete p) w)
       | None => (Raise (FileNotFoundError what), w)
       end.

(** [shutil.copyfile(src, dst)] *)
Definition copyfile (src dst : path) (what : string) : M unit :=
  data <- read_file src what ;;
  open_w dst what ;;
  write dst data.

(** *** Paths built from an identifier *)

(** Where [Path(repo, category, uuid)] leads.  Empty and [.] pieces
    are dropped by [Path]; the kernel follows [..] out of the category's
    directory, which must be there for that.  An absolute identifier, a
    second [..] and a path through a name of the category's directory
    lead out of what the model describes. *)
Definition locate (w : world) (category uuid : string) : location :=
  if Py.is_absolute uuid then Elsewhere
  else match Py.parts uuid with
       | [] => Dir_at (Category category)
       | [n] =>
           if String.eqb n ".."
           then (if dir_exists w (Category category) then Dir_at Repo else Missing)
           else At (Category category, n)
       | [up; n] =>
           if String.eqb up ".." && negb (String.eqb n "..")
           then (if dir_exists w (Category category)
                 then (if dir_exists w (Category n) then Dir_at (Category n)
                       else At (Repo, n))
                 else Missing)
           else Elsewhere
       | _ => Elsewhere
       end.

(** [Path(repo, category, uuid).exists()] *)
Definition exists_at (category uuid : string) : M bool :=
  λ w, match locate w category uuid with
       | At p => exists_ p w
       | Dir_at d => (Ok (dir_exists w d), w)
       | Missing => (Ok false, w)
       | Elsewhere => (Beyond, w)
       end.

(** [open(Path(repo, category, uuid), 'rb').read()] *)
Definition read_at (category uuid what : string) : M string :=
  λ w, match locate w category uuid with
       | At p => read_file p what w
       | Dir_at d =>
           if dir_exists w d then (Raise (IsADirectoryError what), w)
           else (Raise (FileNotFoundError what), w)
       | Missing => (Raise (FileNotFoundError what), w)
       | Elsewhere => (Beyond, w)
       end.

(** [open(Path(repo, category, uuid), 'w')]: the regular file that is
    then open.  Opening the name of a category that has no directory
    would make a regular file of it. *)
Definition open_w_at (category uuid what : string) : M path :=
  λ w, match locate w category uuid with
       | At p => (open_w p what ;; ret p) w
       | Dir_at d =>
           if dir_exists w d then (Raise (IsADirectoryError what), w)
           else (Beyond, w)
       | Missing => (Raise (FileNotFoundError what), w)
       | Elsewhere => (Beyond, w)
       end.

(** [Path(repo, category, uuid).unlink()] *)
Definition unlink_at (category uuid what : string) : M unit :=
  λ w, match locate w category uuid with
       | At p => unlink p what w
       | Dir_at d =>
           if dir_exists w d then (Raise (IsADirectoryError what), w)
           else (Raise (FileNotFoundError what), w)
       | Missing => (Raise (FileNotFoundError what), w)
       | Elsewhere => (Beyond, w)
       end.

(** ** The program *)

Section Repository.

Variable E : environment.

(** The text of a directory and of a file's path, as messages and shell
    commands show them. *)
Definition dir_str (d : dir) : string :=
  match d with
  | Repo => repo_dir E
  | Category c => repo_dir E +:+ "/" +:+ c
  | Shm => "/dev/shm"
  | HoudiniTemp => houdini_temp_dir E
  end.

Definition path_str (p : path) : string := dir_str p.1 +:+ "/" +:+ p.2.

(** [str(Path(repo, category, uuid))] *)
Definition Path_str (category uuid : string) : string :=
  if Py.is_absolute uuid then "/" +:+ Py.join "/" (Py.parts uuid)
  else Py.join "/" (dir_str (Category category) :: Py.parts uuid).

(** [uuid1().hex] *)
Definition uuid1 : M string :=
  λ w, (Ok (uuid_hex E (clock w)),
        {| fs := fs w; dirs := dirs w; journal := journal w;
           instances := instances w; next_oid := next_oid w;
           clock := S (clock w); clipboard := clipboard w; log := log w |}).

(** *** broadcast.py *)

Definition Broadcast_severity_names : list string :=
  [""; "Important!"; "Warning!"; "Error!"; "Fatal!"].

Definition Broadcast_emit (c : channel) (msg : string) (severity : nat) : M unit :=
  modify (set_log (λ l, l ++ [(c, msg, severity)])).

Definition Broadcast_stdout (msg : string) (severity : nat) : M unit :=
  name <- index Broadcast_severity_names severity ;;
  Broadcast_emit Stdout ("houclip: " +:+ name +:+ " " +:+ msg) severity.

Definition Broadcast_params : list (nat * (string * string)) :=
  [ (0, ("low", "dialog-information")); (1, ("low", "dialog-information"));
    (2, ("normal", "dialog-warning")); (3, ("critical", "dialog-error"));
    (4, ("critical", "dialog-error")) ].

Definition Broadcast_notify_cmd (urgency icon summary msg : string) : string :=
  "notify-send -a " +:+ Py.dq +:+ "houclip" +:+ Py.dq +:+ " -u " +:+ urgency
  +:+ " -i " +:+ Py.dq +:+ icon +:+ Py.dq +:+ " " +:+ Py.dq +:+ summary +:+ Py.dq
  +:+ " " +:+ Py.dq +:+ msg +:+ Py.dq.

(** What the shell does to the machine when it runs [cmd]: nothing
    when the line is one plain command; else the files, directories
    and clipboard are what [shell_effect] leaves, the program's own
    memory being out of the shell's reach. *)
Definition shell_run (cmd : string) (w : world) : world :=
  if Sh.plain cmd then w
  else let w' := shell_effect E cmd w in
       {| fs := fs w'; dirs := dirs w'; journal := journal w ++ [fs w'];
          instances := instances w; next_oid := next_oid w;
          clock := clock w; clipboard := clipboard w'; log := log w |}.

(** [subprocess.run(cmd, check=True, shell=True, ...)] *)
Definition Broadcast_run_checked (cmd : string) : M unit :=
  λ w, match shell_status E cmd with
       | 0 => (Ok tt, shell_run cmd w)
       | S n => (Raise (CalledProcessError (S n)), shell_run cmd w)
       end.

Definition Broadcast_notify_send (msg : string) (severity : nat) (summary : string) : M unit :=
  match Broadcast_params !! severity with
  | Some (_, (urgency, icon)) =>
      Broadcast_run_checked (Broadcast_notify_cmd urgency icon summary msg) ;;
      Broadcast_emit NotifySend msg severity
  | None => raise KeyError
  end.

Definition Broadcast_status_msg (msg : string) (severity : nat) : M unit :=
  match hou E with
  | None => ret tt
  | Some _ =>
      if (severity <? 5)%nat then Broadcast_emit StatusMsg msg severity else raise IndexError
  end.

Definition Broadcast_all (msg : string) (severity : nat) : M unit :=
  Broadcast_stdout msg severity ;;
  Broadcast_status_msg msg severity ;;
  Broadcast_notify_send msg severity "Houclip".

(** *** config.py: [Config()] *)

(** The part of [Config.__init__] that acts on the repository,
    [__validate_hierarchy]: the repository's directory, every
    category's directory and every category's index file are created
    when they are missing.  It runs on every [Config()]. *)
Definition validate_category (category : string) : M unit :=
  let directory := Category category in
  there <- gets (λ w, dir_exists w directory) ;;
  (if there then ret tt
   else Broadcast_stdout (messages.MKDIR +:+ " " +:+ dir_str directory) 0 ;;
        mkdir directory) ;;
  let list_file := (Repo, category +:+ ".csv") in
  present <- exists_ list_file ;;
  if present then ret tt
  else Broadcast_stdout (messages.TOUCH +:+ " " +:+ path_str list_file) 0 ;;
       open_w list_file (path_str list_file).

Definition validate_hierarchy : M unit :=
  there <- gets (λ w, dir_exists w Repo) ;;
  (if there then ret tt else mkdir Repo) ;;
  for_each (CATEGORIES ++ LANGUAGES) validate_category.

Definition Config : M unit := validate_hierarchy.

(** *** snippets.py: class [Snippet] *)

(** The [description] setter *)
Definition set_description (description : string) : M string :=
  if String.eqb description "" then raise (ValueError messages.DESC_REQ)
  else ret description.

(** The [tags] setter *)
Definition set_tags (tags : string) : list string :=
  Py.sorted (map Py.strip (Py.split "," tags)).

(** The [category] setters of [OpSnippet] and [CodeSnippet] *)
Definition set_category (v : variant) (category : string) : M string :=
  match v with
  | OpSnippet =>
      if String.eqb category "" || negb (in_tuple category CATEGORIES)
      then raise (ValueError "Empty or unknown snippet category.")
      else ret category
  | CodeSnippet =>
      if String.eqb category "" || negb (in_tuple category LANGUAGES)
      then raise (ValueError "Empty or unknown language.")
      else ret category
  end.

(** The [prefix] setter *)
Definition set_prefix (prefix : option string) : M string :=
  match prefix with
  | None => ret ""
  | Some p =>
      if negb (in_values (Some p))
      then raise (ValueError (messages.PREFIX_INVALID +:+ " " +:+ Py.dq +:+ p
                              +:+ Py.dq +:+ "."))
      else ret p
  end.

(** [Snippet.__init__]: the setters in the order of the assignments,
    then the object joins [Snippet.__instances]. *)
Definition Snippet_init (v : variant) (description tags category : string)
    (prefix : option string) (uuid : string) : M snippet :=
  d <- set_description description ;;
  c <- set_category v category ;;
  p <- set_prefix prefix ;;
  λ w,
    let s := {| Snippet.oid := next_oid w; Snippet.kind := v;
                Snippet.description := d; Snippet.tags := set_tags tags;
                Snippet.category := c; Snippet.prefix := p;
                Snippet.uuid := uuid |} in
    (Ok s, {| fs := fs w; dirs := dirs w; journal := journal w;
              instances := instances w ++ [s];
              next_oid := S (next_oid w); clock := clock w;
              clipboard := clipboard w; log := log w |}).

Definition OpSnippet_new (description tags category : string)
    (prefix : option string) (uuid : string) : M snippet :=
  Snippet_init OpSnippet description tags category prefix uuid.

(** [CodeSnippet.__init__] overrides [kwargs['prefix']] with [None]. *)
Definition CodeSnippet_new (description tags category : string)
    (prefix : option string) (uuid : string) : M snippet :=
  Snippet_init CodeSnippet description tags category None uuid.

(** [Snippet.__str__], given the configuration it reads *)
Definition Snippet_str (s : snippet) : string :=
  let desc_len := max_desc_len E in
  let tags := Py.join "," (Snippet.tags s) in
  let space := desc_len + 2 in
  Py.ljust space (Py.slice_to desc_len (Snippet.description s)) +:+ "|" +:+ tags.

(** [str(instance)]: [__str__] constructs [Config()] first. *)
Definition str (s : snippet) : M string :=
  Config ;; ret (Snippet_str s).

(** The index row of a snippet *)
Definition row_of (s : snippet) : list string :=
  [Snippet.description s; Py.join "," (Snippet.tags s); Snippet.category s; Snippet.prefix s; Snippet.uuid s].

Definition list_file_of (category : string) : path := (Repo, category +:+ ".csv").

(** The content file of an identifier that is a plain file name *)
Definition snippet_file_of (category uuid : string) : path := (Category category, uuid).

(** [Snippet.add_to_list] *)
Definition add_to_list (s : snippet) : M unit :=
  Config ;; Config ;;
  write (list_file_of (Snippet.category s)) (csv_writerow E (row_of s)).

(** [Snippet.purge] *)
Definition purge : M unit := modify (set_instances (λ _, [])).

(** [Snippet.get_by_description] *)
Definition get_by_description (description : string) : M (option snippet) :=
  gets (λ w, find (λ i, String.eqb (Snippet.description i) description) (instances w)).

(** [l.remove(x)], objects compared by identity *)
Fixpoint remove_obj (x : snippet) (l : list snippet) : list snippet :=
  match l with
  | y :: l' => if (Snippet.oid y =? Snippet.oid x)%nat then l' else y :: remove_obj x l'
  | [] => []
  end.

(** The loop of [Snippet.delete] over the rows of the index *)
Definition delete_loop (s : snippet) (temp_file : path) (rows : list (list string)) : M unit :=
  for_each rows (λ row,
    id <- index row 4 ;;
    if negb (String.eqb id (Snippet.uuid s)) then
      r0 <- index row 0 ;; r1 <- index row 1 ;; r2 <- index row 2 ;;
      r3 <- index row 3 ;; r4 <- index row 4 ;;
      write temp_file (csv_writerow E [r0; r1; r2; r3; r4])
    else ret tt).

(** [Snippet.delete] *)
Definition delete (s : snippet) : M unit :=
  Config ;;
  let list_file_path := list_file_of (Snippet.category s) in
  (* os.stat(list_file_path).st_size *)
  contents <- read_file list_file_path (path_str list_file_path) ;;
  (if (String.length contents =? 0)%nat
   then Broadcast_all (messages.CSV_EMPTY +:+ " " +:+ path_str list_file_path) 4
   else ret tt) ;;
  hex <- uuid1 ;;
  let temp_file := (Shm, "houclip_" +:+ hex +:+ ".csv") in
  present <- exists_ list_file_path ;;
  (if present then ret tt else raise (FileNotFoundError messages.CSV_MISSING)) ;;
  input <- read_file list_file_path (path_str list_file_path) ;;
  open_w temp_file (path_str temp_file) ;;
  delete_loop s temp_file (csv_reader E input) ;;
  copyfile temp_file list_file_path (path_str temp_file) ;;
  unlink_at (Snippet.category s) (Snippet.uuid s)
    (Path_str (Snippet.category s) (Snippet.uuid s)) ;;
  unlink temp_file (path_str temp_file) ;;
  modify (set_instances (remove_obj s)).

(** *** clipboard.py *)

(** [Clipboard.get]: the text [xsel -b] prints *)
Definition Clipboard_get : M string := gets clipboard.

(** [Clipboard.fetch(str(Path(repo, category, uuid).absolute()))]: the
    shell opens the file for [xclip], which puts its text on the
    clipboard.  A run of [xclip] that succeeds on something that is not
    a regular file, or next to an expansion, is not described. *)
Definition Clipboard_cmd (category uuid : string) : string :=
  "xclip -sel clip < " +:+ Py.dq +:+ Path_str category uuid +:+ Py.dq.

Definition Clipboard_fetch (category uuid : string) : M unit :=
  Broadcast_run_checked (Clipboard_cmd category uuid) ;;
  λ w, if Sh.plain (Clipboard_cmd category uuid)
       then match locate w category uuid with
            | At p =>
                match fs w !! p with
                | Some data => (Ok tt, set_clipboard data w)
                | None => (Beyond, w)
                end
            | _ => (Beyond, w)
            end
       else (Beyond, w).

(** *** class [OpSnippet] *)

(** [import hou] inside a function that reports its absence *)
Definition import_hou : M host :=
  match hou E with
  | Some h => ret h
  | None => Broadcast_all messages.HOU_MISSING 4 ;; raise ModuleNotFoundError
  end.

(** [OpSnippet.determine_category] *)
Definition determine_category (selection : list item) : M (option string) :=
  _ <- import_hou ;;
  ret (type_category <$> find is_node selection).

(** [OpSnippet.is_selection_valid] *)
Definition is_selection_valid (selection : list item) : M bool :=
  if (length selection =? 0)%nat
  then Broadcast_all messages.SEL_EMPTY 2 ;; ret false
  else
    category <- determine_category selection ;;
    match category with
    | None => Broadcast_all messages.SEL_TIP 2 ;; ret false
    | Some c =>
        if negb (in_tuple c CATEGORIES)
        then Broadcast_all (messages.CAT_INVALID +:+ " " +:+ c +:+ ".") 4 ;;
             raise (TypeCategoryNotFoundError c)
        else ret true
    end.

Definition cpio_of (prefix : string) : path := (HoudiniTemp, prefix +:+ "_copy.cpio").

(** [OpSnippet.store_in_repo] *)
Definition OpSnippet_store_in_repo (s : snippet) : M unit :=
  let source_path := cpio_of (Snippet.prefix s) in
  present <- exists_ source_path ;;
  (if present then ret tt
   else Broadcast_all (messages.SOURCE_MISSING +:+ ": " +:+ path_str source_path) 3 ;;
        raise (FileNotFoundError (path_str source_path))) ;;
  Config ;;
  let target_path := Path_str (Snippet.category s) (Snippet.uuid s) in
  decompressed <- read_file source_path (path_str source_path) ;;
  compressed <- open_w_at (Snippet.category s) (Snippet.uuid s) target_path ;;
  write compressed (gzip_compress E decompressed).

(** [OpSnippet.get_from_repo] *)
Definition OpSnippet_get_from_repo (s : snippet) : M unit :=
  Config ;;
  let source_path := Path_str (Snippet.category s) (Snippet.uuid s) in
  let target_path := cpio_of (Snippet.prefix s) in
  present <- exists_at (Snippet.category s) (Snippet.uuid s) ;;
  (if present then ret tt
   else Broadcast_all (messages.SOURCE_MISSING +:+ ": " +:+ source_path) 3 ;;
        raise (FileNotFoundError source_path)) ;;
  compressed <- read_at (Snippet.category s) (Snippet.uuid s) source_path ;;
  open_w target_path (path_str target_path) ;;
  match gzip_decompress E compressed with
  | Some data => write target_path data
  | None => raise BadGzipFile
  end.

(** *** class [CodeSnippet] *)

(** [CodeSnippet.store_in_repo(code=...)] *)
Definition CodeSnippet_store_in_repo (s : snippet) (code : string) : M unit :=
  Config ;;
  let target_path := Path_str (Snippet.category s) (Snippet.uuid s) in
  target_file <- open_w_at (Snippet.category s) (Snippet.uuid s) target_path ;;
  write target_file code.

(** [CodeSnippet.get_from_repo] *)
Definition CodeSnippet_get_from_repo (s : snippet) : M unit :=
  Config ;;
  let source_path := Path_str (Snippet.category s) (Snippet.uuid s) in
  present <- exists_at (Snippet.category s) (Snippet.uuid s) ;;
  (if present then ret tt
   else Broadcast_stdout (messages.FILE_MISSING +:+ " " +:+ source_path) 3 ;;
        raise (FileNotFoundError source_path)) ;;
  Clipboard_fetch (Snippet.category s) (Snippet.uuid s).

(** [snippet.get_from_repo()], dispatched on the object's class *)
Definition get_from_repo (s : snippet) : M unit :=
  match Snippet.kind s with
  | OpSnippet => OpSnippet_get_from_repo s
  | CodeSnippet => CodeSnippet_get_from_repo s
  end.

(** *** The workflows *)

(** [[str(instance) for instance in Snippet.instances()]] *)
Fixpoint strs (l : list snippet) : M (list string) :=
  match l with
  | [] => ret []
  | s :: l' => x <- str s ;; xs <- strs l' ;; ret (x :: xs)
  end.

(** [hou.selectedItems()[0].parent().copyItemsToClipboard(selection)]:
    the host writes the selection into its temporary directory, which
    it makes when it is not there. *)
Definition copyItemsToClipboard (h : host) : M unit :=
  mkdir HoudiniTemp ;;
  open_w (HoudiniTemp, clip_name h) (path_str (HoudiniTemp, clip_name h)) ;;
  write (HoudiniTemp, clip_name h) (clip_payload h).

(** [add_op_snippet] *)
Definition add_op_snippet : M unit :=
  h <- import_hou ;;
  Config ;;
  let selection := selectedItems h in
  valid <- is_selection_valid selection ;;
  if negb valid then ret tt else
  category <- determine_category selection ;;
  match category ≫= dict_get PREFIXES with
  | None => raise KeyError
  | Some registered =>
      let category := default "" category in
      let prefix := fstring registered in
      copyItemsToClipboard h ;;
      let description := menu_enter E messages.DESC in
      if String.eqb description ""
      then Broadcast_all messages.DESC_REQ 2
      else
        let tags := menu_enter E messages.TAGS in
        uuid <- uuid1 ;;
        snippet <- OpSnippet_new description tags category (Some prefix) uuid ;;
        OpSnippet_store_in_repo snippet ;;
        add_to_list snippet ;;
        Broadcast_all messages.SNIPPET_ADDED 0
  end.

(** The loop of [get_snippet] that loads the rows of an index file *)
Definition load_rows (rows : list (list string)) : M unit :=
  for_each rows (λ item,
    d <- index item 0 ;; t <- index item 1 ;; c <- index item 2 ;;
    p <- index item 3 ;; u <- index item 4 ;;
    if in_tuple c CATEGORIES
    then _ <- OpSnippet_new d t c (Some p) u ;; ret tt
    else _ <- CodeSnippet_new d t c (Some p) u ;; ret tt).

(** What both [get_snippet] and [del_snippet] do once the catalog is
    loaded: list it, let the user pick a line, map the line back. *)
Definition pick_snippet (k : option snippet → M unit) : M unit :=
  loaded <- gets instances ;;
  snippets <- strs loaded ;;
  if (length snippets =? 0)%nat
  then Broadcast_all messages.CAT_EMPTY 0
  else
    let selected_snippet := menu_select E snippets (Some messages.SNIPPET) in
    if String.eqb selected_snippet "" then ret tt else
    let description := Py.rstrip (Py.partition_head "|" selected_snippet) in
    snippet <- get_by_description description ;;
    k snippet.

(** [get_snippet(categories)] *)
Definition get_snippet (categories : list string) : M unit :=
  Config ;;
  let category := Py.rstrip (menu_select E categories (Some "Which category?")) in
  if String.eqb category "" then ret tt else
  let csv_file := list_file_of category in
  present <- exists_ csv_file ;;
  if negb present then ret tt else
  purge ;;
  items <- read_file csv_file (path_str csv_file) ;;
  load_rows (csv_reader E items) ;;
  pick_snippet (λ snippet,
    match snippet with
    | None => raise AttributeError
    | Some s =>
        get_from_repo s ;;
        Broadcast_all (Snippet.category s +:+ " " +:+ messages.SNIPPET_FETCHED) 0
    end).

(** [add_code_snippet] *)
Definition add_code_snippet : M unit :=
  Config ;;
  let language := Py.rstrip (menu_select E LANGUAGES None) in
  if negb (in_tuple language LANGUAGES)
  then Broadcast_all (messages.CAT_INVALID +:+ " " +:+ language +:+ ".") 2
  else
    let description := menu_enter E messages.DESC in
    if String.eqb description "" then ret tt else
    let tags := menu_enter E messages.TAGS in
    uuid <- uuid1 ;;
    code <- Clipboard_get ;;
    snippet <- CodeSnippet_new description tags language None uuid ;;
    CodeSnippet_store_in_repo snippet code ;;
    add_to_list snippet ;;
    Broadcast_all messages.SNIPPET_ADDED 0.

(** [get_code_snippet] *)
Definition get_code_snippet : M unit := get_snippet LANGUAGES.

(** The loop of [del_snippet] that loads the rows of an index file *)
Definition load_rows_for (category : string) (rows : list (list string)) : M unit :=
  for_each rows (λ i,
    if in_tuple category CATEGORIES
    then
      d <- index i 0 ;; t <- index i 1 ;; c <- index i 2 ;;
      p <- index i 3 ;; u <- index i 4 ;;
      _ <- OpSnippet_new d t c (Some p) u ;; ret tt
    else
      d <- index i 0 ;; t <- index i 1 ;; c <- index i 2 ;;
      u <- index i 4 ;;
      _ <- CodeSnippet_new d t c None u ;; ret tt).

(** [del_snippet] after [config = Config()] *)
Definition del_snippet_body (code : bool) : M unit :=
  let category :=
    if code then Py.strip (menu_select E LANGUAGES (Some messages.CAT))
    else Py.strip (menu_select E CATEGORIES (Some messages.CAT)) in
  if String.eqb category "" then ret tt else
  if negb (in_tuple category (CATEGORIES ++ LANGUAGES)) then ret tt else
  purge ;;
  let list_file_path := list_file_of category in
  present <- exists_ list_file_path ;;
  if negb present then Broadcast_all messages.CSV_MISSING 4 else
  list_contents <- read_file list_file_path (path_str list_file_path) ;;
  load_rows_for category (csv_reader E list_contents) ;;
  pick_snippet (λ snippet,
    match snippet with
    | None => raise AttributeError
    | Some s =>
        delete s ;;
        Broadcast_all (messages.SNIPPET_DELETED +:+ Py.nl +:+ Snippet.description s) 0
    end).

(** [del_snippet(code)] *)
Definition del_snippet (code : bool) : M unit :=
  Config ;; del_snippet_body code.

(** [del_code_snippet] *)
Definition del_code_snippet : M unit := del_snippet true.

End Repository.

(** ** A concrete environment

    A small CSV dialect and a small container format that satisfy the
    laws assumed of the codecs, and a scripted menu: the inputs at which
    the properties below are exercised. *)

Module Demo.

(** Every character of a field is written after a backslash; [;] ends a
    field and a line feed ends a row. *)
Fixpoint escape (f : string) : string :=
  match f with
  | String c f' => String "\" (String c (escape f'))
  | EmptyString => EmptyString
  end.

Fixpoint writerow_fields (row : list string) : string :=
  match row with
  | f :: row' => escape f +:+ ";" +:+ writerow_fields row'
  | [] => EmptyString
  end.

Definition writerow (row : list string) : string :=
  writerow_fields row +:+ Py.nl.

(** The reader: [fld] and [row] are the field and the row being read,
    [acc] the rows read so far. *)
Fixpoint read_rows (s : string) (fld : string) (row : list string)
    (acc : list (list string)) : list (list string) :=
  match s with
  | String "\" (String c s') => read_rows s' (fld +:+ String c EmptyString) row acc
  | String ";" s' => read_rows s' EmptyString (row ++ [fld]) acc
  | String "010" s' => read_rows s' EmptyString [] (acc ++ [row])
  | String _ s' => read_rows s' fld row acc
  | EmptyString => acc
  end.

Definition reader (s : string) : list (list string) := read_rows s EmptyString [] [].

(** A two-byte magic number in front of the data. *)
Definition compress (data : string) : string := String "031" (String "139" data).

Definition decompress (data : string) : option string :=
  match data with
  | String "031" (String "139" d) => Some d
  | _ => None
  end.

Definition hex (n : nat) : string := "id" +:+ NilZero.string_of_uint (Nat.to_uint n).

(** The menu answers the category prompt with [category], the snippet
    prompt with [line], and the two text prompts with [desc] and
    [tags]. *)
Definition select_script (category line : string) (choices : list string)
    (prompt : option string) : string :=
  if bool_decide (prompt = Some messages.SNIPPET) then line else category.

Definition enter_script (desc tags : string) (prompt : string) : string :=
  if String.eqb prompt messages.DESC then desc else tags.

Definition houdini (selection : list item) (name payload : string) : host :=
  {| selectedItems := selection; clip_name := name; clip_payload := payload |}.

(** A command line with an expansion in it removes every regular
    file. *)
Definition wipe (cmd : string) (w : world) : world :=
  {| fs := ∅; dirs := dirs w; journal := journal w;
     instances := instances w; next_oid := next_oid w;
     clock := clock w; clipboard := clipboard w; log := log w |}.

Definition env (width : nat) (category line desc tags : string)
    (status : string → nat) (h : option host) : environment :=
  {| repo_dir := "/home/user/.local/share/houclip";
     houdini_temp_dir := "/tmp/houdini_temp";
     max_desc_len := width;
     max_tags_len := 32;
     csv_writerow := writerow;
     csv_reader := reader;
     csv_reader_empty := eq_refl;
     gzip_compress := compress;
     gzip_decompress := decompress;
     menu_enter := enter_script desc tags;
     menu_select := select_script category line;
     uuid_hex := hex;
     shell_status := status;
     shell_effect := wipe;
     hou := h |}.

(** The shell runs every command with success, or none. *)
Definition sh_ok (cmd : string) : nat := 0.
Definition sh_missing (cmd : string) : nat := 127.

(** A world with the given regular files and directories. *)
Definition world_in (ds : list dir) (files : list (path * string)) : world :=
  {| fs := list_to_map files; dirs := list_to_set ds; journal := [];
     instances := []; next_oid := 0; clock := 0;
     clipboard := ""; log := [] |}.

(** An empty world with the given files. *)
Definition world_of (files : list (path * string)) : world := world_in [] files.

(** A repository whose [Sop] index holds one snippet described by [d]. *)
Definition sop_row (d t u : string) : list string := [d; t; "Sop"; "SOP"; u].




Definition op (n : nat) (d : string) (t : list string) (u : string) : snippet :=
  {| Snippet.oid := n; Snippet.kind := OpSnippet; Snippet.description := d;
     Snippet.tags := t; Snippet.category := "Sop"; Snippet.prefix := "SOP";
     Snippet.uuid := u |}.

Definition code (n : nat) (d : string) (u : string) : snippet :=
  {| Snippet.oid := n; Snippet.kind := CodeSnippet; Snippet.description := d;
     Snippet.tags := []; Snippet.category := "Python"; Snippet.prefix := "";
     Snippet.uuid := u |}.

(** The text of an index file with the given rows *)
Definition lines (rows : list (list string)) : string :=
  foldr (λ row acc, writerow row +:+ acc) "" rows.

(** A repository with the given [Sop] index and content files *)
Definition sop_repo (rows : list (list string)) (contents : list (string * string)) : world :=
  world_of (((Repo, "Sop.csv"), lines rows)
            :: map (λ f, ((Category "Sop", f.1), f.2)) contents).

Definition plain : environment := env 8 "Sop" "" "" "" sh_ok None.

Definition catalog (l : list snippet) : world :=
  {| fs := ∅; dirs := ∅; journal := []; instances := l; next_oid := length l; clock := 0;
     clipboard := ""; log := [] |}.

(** The same world with another catalog *)
Definition with_catalog (l : list snippet) (w : world) : world :=
  set_instances (λ _, l) w.

End Demo.

(** ** What [Config()] leaves behind *)

(** [list_file.touch()] when the file is missing *)
Definition touch (p : path) (m : gmap path string) : gmap path string :=
  match m !! p with
  | Some _ => m
  | None => <[p := ""]> m
  end.

Definition touch_all (l : list string) (m : gmap path string) : gmap path string :=
  foldl (λ m category, touch (list_file_of category) m) m l.

(** The repository after [__validate_hierarchy] *)
Definition bootstrap (m : gmap path string) : gmap path string :=
  touch_all (CATEGORIES ++ LANGUAGES) m.

(** A repository in which every category has its index file *)
Definition indexed (m : gmap path string) : Prop :=
  ∀ c, c ∈ CATEGORIES ++ LANGUAGES → is_Some (m !! list_file_of c).

(** The directories of the categories [l] *)
Definition category_dirs (l : list string) : gset dir := list_to_set (Category <$> l).

(** The directories after [__validate_hierarchy] *)
Definition hierarchy (ds : gset dir) : gset dir :=
  category_dirs (CATEGORIES ++ LANGUAGES) ∪ ({[Repo]} ∪ ds).

(** Two worlds that differ in files, directories and messages only *)
Definition same_heap (w w' : world) : Prop :=
  instances w' = instances w ∧ next_oid w' = next_oid w
  ∧ clock w' = clock w ∧ clipboard w' = clipboard w.

(** The text of an index file that holds [rows] *)
Fixpoint csv_lines (E : environment) (rows : list (list string)) : string :=
  match rows with
  | r :: rows' => csv_writerow E r +:+ csv_lines E rows'
  | [] => ""
  end.

(** Two worlds that differ in the messages broadcast only *)
Definition log_only (w w' : world) : Prop :=
  fs w' = fs w ∧ dirs w' = dirs w ∧ journal w' = journal w ∧ same_heap w w'
  ∧ ∃ l, log w' = log w ++ l.

(** Nothing is lost from the file system: files keep their content
    and directories stay. *)
Definition grows (w w' : world) : Prop :=
  fs w ⊆ fs w' ∧ ∀ d, d ∈ dirs w → d ∈ dirs w'.

(** The command [Broadcast.notify_send(msg, severity)] hands to the shell *)
Definition notify_cmd_of (msg : string) (severity : nat) : string :=
  match Broadcast_params !! severity with
  | Some (_, (urgency, icon)) => Broadcast_notify_cmd urgency icon "Houclip" msg
  | None => ""
  end.

(** What [subprocess.run(cmd, check=True)] does with an exit status *)
Definition checked (status : nat) : result unit :=
  match status with
  | 0 => Ok tt
  | S n => Raise (CalledProcessError (S n))
  end.

(** A command that succeeds and is one plain command *)
Definition quiet (E : environment) (cmd : string) : Prop :=
  shell_status E cmd = 0 ∧ Sh.plain cmd = true.

(** The line [Broadcast.stdout] prints *)
Definition stdout_line (msg : string) (severity : nat) : string :=
  "houclip: " +:+ default "" (Broadcast_severity_names !! severity) +:+ " " +:+ msg.

(** The category [del_snippet(code)] works on *)
Definition chosen_category (E : environment) (code : bool) : string :=
  if code then Py.strip (menu_select E LANGUAGES (Some messages.CAT))
  else Py.strip (menu_select E CATEGORIES (Some messages.CAT)).

(** The rows [Snippet.delete] keeps: those whose fifth field is not the
    identifier, in the order of the file *)
Definition kept (id : string) (rows : list (list string)) : list (list string) :=
  filter (λ row, row !! 4 ≠ Some id) rows.

(** What the loop of [Snippet.delete] writes for the rows of an index:
    the first five fields of every row kept *)
Definition rewritten (E : environment) (id : string) (rows : list (list string)) : string :=
  csv_lines E (take 5 <$> kept id rows).


(** The temporary file of the [n]-th [uuid1()] *)
Definition temp_file_of (E : environment) (n : nat) : path :=
  (Shm, "houclip_" +:+ uuid_hex E n +:+ ".csv").

(** The warning of [Snippet.delete] about an empty index *)
Definition empty_warning (E : environment) (s : snippet) : string :=
  messages.CSV_EMPTY +:+ " " +:+ path_str E (list_file_of (Snippet.category s)).

(** What the loop of [get_snippet] makes of an index row: an operator
    snippet with the row's prefix when the row's category is a
    structural one, else a code snippet, which has no prefix *)
Definition loaded_from (item : list string) (s : snippet) : Prop :=
  item !! 0 = Some (Snippet.description s)
  ∧ item !! 2 = Some (Snippet.category s)
  ∧ item !! 4 = Some (Snippet.uuid s)
  ∧ (if in_tuple (Snippet.category s) CATEGORIES
     then Snippet.kind s = OpSnippet ∧ item !! 3 = Some (Snippet.prefix s)
     else Snippet.kind s = CodeSnippet ∧ Snippet.prefix s = "").

(** The message of [get_snippet] after a fetch *)
Definition fetched_msg (category : string) : string :=
  category +:+ " " +:+ messages.SNIPPET_FETCHED.

(** ** Strings *)

Lemma string_app_cons (c : ascii) (s t : string) :
  String c s +:+ t = String c (s +:+ t).
Proof. reflexivity. Qed.

Lemma string_app_nil_l (t : string) : "" +:+ t = t.
Proof. reflexivity. Qed.

Ltac sapp := rewrite ?string_app_cons, ?string_app_nil_l.

(** Reading a field of a world that was just updated *)
Ltac wsimpl :=
  cbn [fs dirs journal instances next_oid clock clipboard log
       set_fs set_dirs set_instances set_log set_clipboard fst snd].

(** One goal for each member of the list literal [H : x ∈ [a; b; ...]] *)
Ltac each_member H :=
  let rec go :=
    first
      [ apply elem_of_nil in H; destruct H
      | let Heq := fresh in
        apply elem_of_cons in H; destruct H as [Heq | H];
        [rewrite Heq in *; clear Heq | go] ]
  in go.

Lemma string_app_nil_r (s : string) : s +:+ "" = s.
Proof. induction s as [|c s IH]; sapp; [done | by rewrite IH]. Qed.

Lemma string_app_assoc (s t u : string) : (s +:+ t) +:+ u = s +:+ t +:+ u.
Proof. induction s as [|c s IH]; sapp; [done | by rewrite IH]. Qed.

Lemma string_length_app (s t : string) :
  String.length (s +:+ t) = String.length s + String.length t.
Proof. induction s as [|c s IH]; sapp; simpl; [done | by rewrite IH]. Qed.


Lemma slice_to_length (n : nat) (s : string) :
  String.length (Py.slice_to n s) = n `min` String.length s.
Proof.
  revert n; induction s as [|c s IH]; intros [|n]; simpl; try done.
  by rewrite IH.
Qed.







Lemma elem_of_snoc {A} (l : list A) (x : A) : x ∈ l ++ [x].
Proof. apply elem_of_app. right. by apply list_elem_of_singleton. Qed.

(** ** The monad *)

Lemma bind_ok {A B} (m : M A) (k : A → M B) w a w' :
  m w = (Ok a, w') → bind m k w = k a w'.
Proof. unfold bind. by intros ->. Qed.

Lemma bind_raise {A B} (m : M A) (k : A → M B) w e w' :
  m w = (Raise e, w') → bind m k w = (Raise e, w').
Proof. unfold bind. by intros ->. Qed.

Lemma bind_beyond {A B} (m : M A) (k : A → M B) w w' :
  m w = (Beyond, w') → bind m k w = (Beyond, w').
Proof. unfold bind. by intros ->. Qed.

Lemma bind_assoc {A B C} (m : M A) (k : A → M B) (k' : B → M C) (w : world) :
  bind (bind m k) k' w = bind m (λ x, bind (k x) k') w.
Proof. unfold bind. by destruct (m w) as [[a|e|] w']. Qed.

Lemma bind_ret {A B} (a : A) (k : A → M B) (w : world) : bind (ret a) k w = k a w.
Proof. reflexivity. Qed.

Lemma bind_ret_fn {A B} (a : A) (k : A → M B) : bind (ret a) k = k a.
Proof. reflexivity. Qed.

Lemma same_heap_refl w : same_heap w w.
Proof. by repeat split. Qed.

Lemma same_heap_trans w1 w2 w3 : same_heap w1 w2 → same_heap w2 w3 → same_heap w1 w3.
Proof. intros (?&?&?&?) (?&?&?&?). repeat split; congruence. Qed.

(** ** [Config()] *)

Lemma touch_subseteq p m : m ⊆ touch p m.
Proof.
  unfold touch. destruct (m !! p) eqn:H; [done |]. by apply insert_subseteq.
Qed.

Lemma touch_all_subseteq l m : m ⊆ touch_all l m.
Proof.
  revert m; induction l as [|c l IH]; intros m; simpl; [done |].
  etrans; [apply touch_subseteq | apply IH].
Qed.

Lemma touch_all_lookup_Some l m p c :
  m !! p = Some c → touch_all l m !! p = Some c.
Proof. intros H. eapply lookup_weaken; [exact H | apply touch_all_subseteq]. Qed.

Lemma touch_all_present l m :
  (∀ c, c ∈ l → is_Some (m !! list_file_of c)) → touch_all l m = m.
Proof.
  revert m; induction l as [|c l IH]; intros m H; simpl; [done |].
  assert (touch (list_file_of c) m = m) as ->.
  { unfold touch. destruct (H c) as [x ->]; [left | done]. }
  apply IH. intros c' Hc'. apply H. by right.
Qed.

Lemma touch_all_listed l m c :
  c ∈ l → is_Some (touch_all l m !! list_file_of c).
Proof.
  revert m; induction l as [|c' l IH]; intros m Hc; simpl.
  - by apply elem_of_nil in Hc.
  - apply elem_of_cons in Hc as [-> | Hc]; [| by apply IH].
    assert (is_Some (touch (list_file_of c') m !! list_file_of c')) as [x Hx].
    { unfold touch. destruct (m !! list_file_of c') eqn:H; [by rewrite H |].
      rewrite lookup_insert_eq. by eexists. }
    exists x. by apply touch_all_lookup_Some.
Qed.

Lemma touch_lookup p m q :
  touch p m !! q = m !! q ∨ (m !! q = None ∧ touch p m !! q = Some "").
Proof.
  unfold touch. destruct (m !! p) eqn:Hp; [by left |].
  destruct (decide (p = q)) as [<- | Hne].
  - right. by rewrite lookup_insert_eq.
  - left. by rewrite lookup_insert_ne.
Qed.

Lemma touch_all_lookup l m p :
  touch_all l m !! p = m !! p ∨ (m !! p = None ∧ touch_all l m !! p = Some "").
Proof.
  revert m; induction l as [|c l IH]; intros m; simpl; [by left |].
  destruct (IH (touch (list_file_of c) m)) as [H | [H1 H2]];
    destruct (touch_lookup (list_file_of c) m p) as [T | [T1 T2]].
  - left. congruence.
  - right. split; [done | congruence].
  - right. split; [congruence | done].
  - congruence.
Qed.

Lemma bootstrap_lookup_Some m p c : m !! p = Some c → bootstrap m !! p = Some c.
Proof. apply touch_all_lookup_Some. Qed.

Lemma bootstrap_index m c :
  c ∈ CATEGORIES ++ LANGUAGES →
  bootstrap m !! list_file_of c = Some (default "" (m !! list_file_of c)).
Proof.
  intros Hc. destruct (touch_all_listed _ m c Hc) as [x Hx].
  destruct (touch_all_lookup (CATEGORIES ++ LANGUAGES) m (list_file_of c)) as [H | [H1 H2]].
  - unfold bootstrap. rewrite H in *. by rewrite Hx.
  - unfold bootstrap. by rewrite H2, H1.
Qed.

Lemma bootstrap_idem m : bootstrap (bootstrap m) = bootstrap m.
Proof. apply touch_all_present. intros c Hc. by apply touch_all_listed. Qed.

Lemma bootstrap_lookup_other m p :
  bootstrap m !! p = m !! p ∨ (m !! p = None ∧ bootstrap m !! p = Some "").
Proof. apply touch_all_lookup. Qed.

Lemma insert_create (m : gmap path string) p data :
  <[p := default "" (<[p := ""]> m !! p) +:+ data]> (<[p := ""]> m) = <[p := data]> m.
Proof. rewrite lookup_insert_eq. simpl. by rewrite insert_insert_eq. Qed.

Lemma snippet_file_ne_list_file (c u c' : string) :
  snippet_file_of c u ≠ list_file_of c'.
Proof. discriminate. Qed.

Lemma valid_category_nonempty (c : string) :
  c ∈ CATEGORIES ++ LANGUAGES → String.eqb c "" = false.
Proof.
  intros Hc. unfold CATEGORIES, LANGUAGES in Hc. simpl in Hc.
  each_member Hc; reflexivity.
Qed.

(** ** Broadcasting *)

Section Properties.

Variable E : environment.

Lemma log_only_refl w : log_only w w.
Proof. repeat split. exists []. by rewrite app_nil_r. Qed.

Lemma log_only_trans w1 w2 w3 : log_only w1 w2 → log_only w2 w3 → log_only w1 w3.
Proof.
  intros (F1 & D1 & J1 & (I1 & O1 & C1 & B1) & l1 & L1)
         (F2 & D2 & J2 & (I2 & O2 & C2 & B2) & l2 & L2).
  repeat split; try congruence.
  exists (l1 ++ l2). rewrite L2, L1. by rewrite app_assoc.
Qed.

Lemma log_only_dir_exists w w' d : log_only w w' → dir_exists w' d = dir_exists w d.
Proof. intros (_ & D & _). unfold dir_exists. by rewrite D. Qed.

Lemma Broadcast_stdout_run msg severity w :
  severity ≤ 4 →
  ∃ w', Broadcast_stdout msg severity w = (Ok tt, w') ∧ log_only w w'
        ∧ log w' = log w ++ [(Stdout, stdout_line msg severity, severity)].
Proof.
  intros Hs. unfold Broadcast_stdout, stdout_line.
  do 5 (destruct severity as [|severity]; [eexists; repeat split; by eexists |]).
  lia.
Qed.

Lemma Broadcast_status_msg_run msg severity w :
  severity ≤ 4 →
  ∃ w', Broadcast_status_msg E msg severity w = (Ok tt, w') ∧ log_only w w'.
Proof.
  intros Hs. unfold Broadcast_status_msg.
  destruct (hou E); [| eexists; split; [done | apply log_only_refl]].
  destruct (Nat.ltb_spec severity 5); [| lia].
  eexists; split; [done |]. repeat split. by eexists.
Qed.

Lemma shell_run_plain cmd w : Sh.plain cmd = true → shell_run E cmd w = w.
Proof. unfold shell_run. by intros ->. Qed.

Lemma shell_run_memory cmd w :
  instances (shell_run E cmd w) = instances w ∧ log (shell_run E cmd w) = log w
  ∧ clock (shell_run E cmd w) = clock w ∧ next_oid (shell_run E cmd w) = next_oid w.
Proof. unfold shell_run. by destruct (Sh.plain cmd). Qed.

Lemma Broadcast_run_checked_run cmd w :
  Broadcast_run_checked E cmd w = (checked (shell_status E cmd), shell_run E cmd w).
Proof. unfold Broadcast_run_checked, checked. by destruct (shell_status E cmd). Qed.

Lemma Broadcast_notify_send_run msg severity w :
  severity ≤ 4 →
  ∃ w', Broadcast_notify_send E msg severity "Houclip" w
        = (checked (shell_status E (notify_cmd_of msg severity)), w')
        ∧ instances w' = instances w
        ∧ (∃ l, log w' = log w ++ l)
        ∧ (Sh.plain (notify_cmd_of msg severity) = true → log_only w w').
Proof.
  intros Hs. unfold Broadcast_notify_send, notify_cmd_of.
  assert (∃ u i, Broadcast_params !! severity = Some (severity, (u, i)))
    as (u & i & ->).
  { do 5 (destruct severity as [|severity]; [by do 2 eexists |]). lia. }
  unfold bind. rewrite Broadcast_run_checked_run.
  destruct (shell_run_memory (Broadcast_notify_cmd u i "Houclip" msg) w) as (I & L & _).
  destruct (shell_status E _); simpl.
  - eexists; split; [done |]. wsimpl. split; [exact I |]. split.
    + rewrite L. by eexists.
    + intros Hp. rewrite (shell_run_plain _ _ Hp). repeat split. by eexists.
  - eexists; split; [done |]. split; [exact I |]. split.
    + rewrite L. exists []. by rewrite app_nil_r.
    + intros Hp. rewrite (shell_run_plain _ _ Hp). apply log_only_refl.
Qed.

Lemma Broadcast_all_run msg severity w :
  severity ≤ 4 →
  ∃ w', Broadcast_all E msg severity w
        = (checked (shell_status E (notify_cmd_of msg severity)), w')
        ∧ instances w' = instances w
        ∧ (Stdout, stdout_line msg severity, severity) ∈ log w'
        ∧ (Sh.plain (notify_cmd_of msg severity) = true → log_only w w').
Proof.
  intros Hs. unfold Broadcast_all.
  destruct (Broadcast_stdout_run msg severity w Hs) as (w1 & R1 & L1 & G1).
  rewrite (bind_ok _ _ _ _ _ R1).
  destruct (Broadcast_status_msg_run msg severity w1 Hs) as (w2 & R2 & L2).
  rewrite (bind_ok _ _ _ _ _ R2).
  destruct (Broadcast_notify_send_run msg severity w2 Hs) as (w3 & R3 & I3 & (l3 & E3) & L3).
  exists w3. split; [exact R3 |]. split.
  { destruct L1 as (_ & _ & _ & (I1 & _) & _), L2 as (_ & _ & _ & (I2 & _) & _). congruence. }
  split.
  - destruct L2 as (_ & _ & _ & _ & l2 & E2).
    rewrite E3, E2, G1. apply elem_of_app; left. apply elem_of_app; left. apply elem_of_snoc.
  - intros Hp. eapply log_only_trans; [exact L1 |].
    eapply log_only_trans; [exact L2 | by apply L3].
Qed.

(** A message that reaches the shell as plain text *)
Lemma Broadcast_all_plain msg severity w :
  severity ≤ 4 →
  Sh.plain (notify_cmd_of msg severity) = true →
  ∃ w', Broadcast_all E msg severity w
        = (checked (shell_status E (notify_cmd_of msg severity)), w')
        ∧ log_only w w'
        ∧ (Stdout, stdout_line msg severity, severity) ∈ log w'.
Proof.
  intros Hs Hp. destruct (Broadcast_all_run msg severity w Hs) as (w' & R & _ & G & L).
  exists w'. split; [exact R |]. split; [by apply L | exact G].
Qed.

(** ** [Config()] never fails and only adds what is missing *)

Lemma dir_exists_Repo w : dir_exists w Repo = true ↔ Repo ∈ dirs w.
Proof. unfold dir_exists. apply bool_decide_eq_true. Qed.

Lemma dir_exists_Category w c :
  dir_exists w (Category c) = true
  ↔ c ∈ CATEGORIES ++ LANGUAGES ∧ Category c ∈ dirs w.
Proof.
  unfold dir_exists, in_tuple. rewrite andb_true_iff, !bool_decide_eq_true. done.
Qed.

Lemma validate_category_run c w :
  Repo ∈ dirs w →
  ∃ w' J, validate_category E c w = (Ok tt, w')
    ∧ fs w' = touch (list_file_of c) (fs w)
    ∧ dirs w' = {[Category c]} ∪ dirs w
    ∧ journal w' = journal w ++ J
    ∧ Forall (λ m, fs w ⊆ m) J
    ∧ same_heap w w'.
Proof.
  intros HR. unfold validate_category.
  change (Repo, c +:+ ".csv") with (list_file_of c).
  assert (∃ w1, (if dir_exists w (Category c) then ret tt
                 else bind (Broadcast_stdout
                              (messages.MKDIR +:+ " " +:+ dir_str E (Category c)) 0)
                        (λ _, mkdir (Category c))) w = (Ok tt, w1)
               ∧ fs w1 = fs w ∧ dirs w1 = {[Category c]} ∪ dirs w
               ∧ journal w1 = journal w ∧ same_heap w w1)
    as (w1 & R1 & F1 & D1 & J1 & SH1).
  { destruct (dir_exists w (Category c)) eqn:Hd.
    - exists w. split; [done |]. split; [done |]. split; [| by repeat split].
      apply dir_exists_Category in Hd as [_ Hd].
      symmetry. apply subseteq_union_1_L. by apply singleton_subseteq_l.
    - destruct (Broadcast_stdout_run (messages.MKDIR +:+ " " +:+ dir_str E (Category c)) 0 w)
        as (w0 & R0 & (F0 & D0 & J0 & SH0 & _) & _); [lia |].
      rewrite (bind_ok _ _ _ _ _ R0). unfold mkdir, modify.
      eexists. split; [reflexivity |]. wsimpl. rewrite F0, D0, J0.
      split; [done |]. split; [done |]. split; [done |].
      destruct SH0 as (? & ? & ? & ?). by repeat split. }
  unfold bind at 1. unfold gets at 1.
  rewrite (bind_ok _ _ _ _ _ R1).
  unfold bind at 1. unfold exists_, gets. rewrite F1.
  unfold touch. destruct (fs w !! list_file_of c) as [x|] eqn:Hc.
  - rewrite bool_decide_eq_true_2 by (by eexists).
    exists w1, []. rewrite app_nil_r. split; [done |]. split; [done |].
    split; [done |]. split; [done |]. split; [constructor | done].
  - rewrite bool_decide_eq_false_2 by (by intros [? ?]).
    destruct (Broadcast_stdout_run (messages.TOUCH +:+ " " +:+ path_str E (list_file_of c)) 0 w1)
      as (w2 & R2 & (F2 & D2 & J2 & SH2 & _) & _); [lia |].
    rewrite (bind_ok _ _ _ _ _ R2). unfold open_w.
    assert (dir_exists w2 (list_file_of c).1 = true) as ->.
    { apply dir_exists_Repo. rewrite D2, D1. apply elem_of_union. by right. }
    rewrite orb_true_r.
    eexists _, [<[list_file_of c := ""]> (fs w)].
    split; [reflexivity |]. wsimpl. rewrite F2, F1, D2, D1, J2, J1.
    split; [done |]. split; [done |]. split; [done |]. split.
    + constructor; [by apply insert_subseteq | constructor].
    + destruct SH1 as (? & ? & ? & ?), SH2 as (? & ? & ? & ?).
      repeat split; simpl; congruence.
Qed.

Lemma validate_loop_run l w :
  Repo ∈ dirs w →
  ∃ w' J, for_each l (validate_category E) w = (Ok tt, w')
    ∧ fs w' = touch_all l (fs w)
    ∧ dirs w' = category_dirs l ∪ dirs w
    ∧ journal w' = journal w ++ J
    ∧ Forall (λ m, fs w ⊆ m) J
    ∧ same_heap w w'.
Proof.
  revert w; induction l as [|c l IH]; intros w HR; cbn [for_each].
  { exists w, []. rewrite app_nil_r. unfold category_dirs. cbn [fmap list_fmap list_to_set].
    rewrite (left_id_L ∅ (∪)). by repeat split. }
  destruct (validate_category_run c w HR) as (w1 & J1 & R1 & F1 & D1 & Jn1 & HJ1 & SH1).
  rewrite (bind_ok _ _ _ _ _ R1).
  destruct (IH w1) as (w' & J & R & F & D & Jn & HJ & SH).
  { rewrite D1. apply elem_of_union. by right. }
  exists w', (J1 ++ J). split; [exact R |].
  split; [by rewrite F, F1 |]. split.
  { rewrite D, D1. unfold category_dirs. cbn [fmap list_fmap list_to_set].
    rewrite (assoc_L (∪)), (comm_L (∪) (list_to_set _) {[Category c]}). done. }
  split; [by rewrite Jn, Jn1, app_assoc |]. split.
  - apply Forall_app. split; [exact HJ1 |].
    eapply Forall_impl; [exact HJ |]. simpl. intros m Hm.
    etrans; [| exact Hm]. rewrite F1. apply touch_subseteq.
  - by eapply same_heap_trans.
Qed.

Lemma Config_run w :
  ∃ w' J, Config E w = (Ok tt, w')
    ∧ fs w' = bootstrap (fs w)
    ∧ dirs w' = hierarchy (dirs w)
    ∧ journal w' = journal w ++ J
    ∧ Forall (λ m, fs w ⊆ m) J
    ∧ same_heap w w'.
Proof.
  unfold Config, validate_hierarchy.
  assert (∃ w1, (if dir_exists w Repo then ret tt else mkdir Repo) w = (Ok tt, w1)
               ∧ fs w1 = fs w ∧ dirs w1 = {[Repo]} ∪ dirs w
               ∧ journal w1 = journal w ∧ same_heap w w1)
    as (w1 & R1 & F1 & D1 & J1 & SH1).
  { destruct (dir_exists w Repo) eqn:Hd.
    - exists w. split; [done |]. split; [done |]. split; [| by repeat split].
      apply dir_exists_Repo in Hd.
      symmetry. apply subseteq_union_1_L. by apply singleton_subseteq_l.
    - eexists. split; [reflexivity |]. by repeat split. }
  unfold bind at 1. unfold gets at 1.
  rewrite (bind_ok _ _ _ _ _ R1).
  destruct (validate_loop_run (CATEGORIES ++ LANGUAGES) w1) as (w' & J & R & F & D & Jn & HJ & SH).
  { rewrite D1. apply elem_of_union. left. by apply elem_of_singleton. }
  exists w', J. split; [exact R |].
  split; [unfold bootstrap; rewrite <- F1; exact F |].
  split; [unfold hierarchy; rewrite <- D1; exact D |].
  split; [rewrite <- J1; exact Jn |]. split.
  - eapply Forall_impl; [exact HJ |]. cbv beta. intros m Hm. rewrite <- F1. exact Hm.
  - by eapply same_heap_trans.
Qed.

Lemma hierarchy_Repo ds : Repo ∈ hierarchy ds.
Proof.
  unfold hierarchy. apply elem_of_union. right. apply elem_of_union. left.
  by apply elem_of_singleton.
Qed.

Lemma hierarchy_Category ds c : c ∈ CATEGORIES ++ LANGUAGES → Category c ∈ hierarchy ds.
Proof.
  intros Hc. unfold hierarchy, category_dirs. apply elem_of_union. left.
  apply elem_of_list_to_set, list_elem_of_fmap. by exists c.
Qed.

Lemma hierarchy_mono ds d : d ∈ ds → d ∈ hierarchy ds.
Proof. intros Hd. unfold hierarchy. apply elem_of_union. right. apply elem_of_union. by right. Qed.

Lemma hierarchy_idem ds : hierarchy (hierarchy ds) = hierarchy ds.
Proof.
  apply set_eq. intros d. split; [| apply hierarchy_mono].
  unfold hierarchy at 1. rewrite !elem_of_union, elem_of_singleton.
  intros [Hd | [-> | Hd]]; [| apply hierarchy_Repo | exact Hd].
  unfold hierarchy. apply elem_of_union. by left.
Qed.

(** ** The notification sink *)

End Properties.

(** C5, where the code departs from it.  [Broadcast.all] prints the
    message and then runs [notify-send] with [check=True]: for every
    message and severity 0-4 its outcome is the one of the exit status,
    so it returns normally only when [notify-send] exits with 0, and any
    other status is raised into the caller as [CalledProcessError]
    although the line was printed.  Where [notify-send] is not installed
    the shell exits with 127: [add_code_snippet] stores the snippet,
    appends its row and then ends with that exception instead of
    returning.  A message that reaches the shell as plain text changes
    nothing but the record of messages. *)
Theorem broadcast_all_outcome :
  (∀ (E : environment) (msg : string) (severity : nat) (w : world),
     severity ≤ 4 →
     fst (Broadcast_all E msg severity w)
       = checked (shell_status E (notify_cmd_of msg severity))
     ∧ (Stdout, stdout_line msg severity, severity)
         ∈ log (snd (Broadcast_all E msg severity w))
     ∧ (∀ n, shell_status E (notify_cmd_of msg severity) = S n →
          fst (Broadcast_all E msg severity w) = Raise (CalledProcessError (S n)))
     ∧ (Sh.plain (notify_cmd_of msg severity) = true →
          log_only w (snd (Broadcast_all E msg severity w))))
  ∧ let E := Demo.env 8 "Python" "" "loop" "util" Demo.sh_missing None in
    let r := add_code_snippet E (Demo.world_of []) in
    shell_status E (notify_cmd_of messages.SNIPPET_ADDED 0) = 127
    ∧ fst (Broadcast_all E messages.SNIPPET_ADDED 0 (Demo.world_of []))
      = Raise (CalledProcessError 127)
    ∧ fst r = Raise (CalledProcessError 127)
    ∧ fs (snd r) !! (Category "Python", "id0") = Some ""
    ∧ fs (snd r) !! (Repo, "Python.csv")
      = Some (Demo.writerow ["loop"; "util"; "Python"; ""; "id0"])
    ∧ last (log (snd r)) = Some (Stdout, stdout_line messages.SNIPPET_ADDED 0, 0).
Proof.
  split.
  - intros E msg severity w Hs.
    destruct (Broadcast_all_run E msg severity w Hs) as (w' & R & _ & G & L).
    rewrite R. cbn [fst snd]. split; [done |]. split; [exact G |]. split; [| exact L].
    intros n ->. reflexivity.
  - vm_compute. done.
Qed.

Section Display.

Variable E : environment.

(** ** The display line *)





(** Listing the catalog runs [Config()] once for every snippet. *)
Lemma strs_run (l : list snippet) (w : world) :
  ∃ w', strs E l w = (Ok (map (Snippet_str E) l), w')
    ∧ same_heap w w' ∧ grows w w'
    ∧ (l ≠ [] → fs w' = bootstrap (fs w) ∧ dirs w' = hierarchy (dirs w)).
Proof.
  revert w; induction l as [|s l IH]; intros w; cbn [strs map].
  { exists w. split; [done |]. split; [apply same_heap_refl |]. split; [| done].
    split; [done | by intros ?]. }
  unfold str. rewrite bind_assoc.
  destruct (Config_run E w) as (w1 & J1 & R1 & F1 & D1 & _ & HJ1 & SH1).
  rewrite (bind_ok _ _ _ _ _ R1), bind_ret.
  destruct (IH w1) as (w' & R & SH & (Hsub & Hd) & Hne).
  rewrite (bind_ok _ _ _ _ _ R).
  exists w'. split; [reflexivity |]. split; [by eapply same_heap_trans |].
  assert (fs w' = bootstrap (fs w) ∧ dirs w' = hierarchy (dirs w)) as [F D].
  { destruct l as [|s2 l].
    - cbn [strs] in R. injection R as <-. done.
    - destruct Hne as [F D]; [done |].
      rewrite F, D, F1, D1. by rewrite bootstrap_idem, hierarchy_idem. }
  split; [| done]. split.
  - rewrite F. apply touch_all_subseteq.
  - intros d Hd'. rewrite D. by apply hierarchy_mono.
Qed.

End Display.

(** ** From the chosen line back to the snippet *)

Section Pick.

Variable E : environment.


(** List+Fetch up to the point where the catalog is loaded *)
Lemma get_snippet_loaded (categories : list string) (w0 w : world) (items : string) :
  let c := Py.rstrip (menu_select E categories (Some "Which category?")) in
  c ≠ "" →
  bootstrap (fs w0) !! list_file_of c = Some items →
  load_rows (csv_reader E items) (set_instances (λ _, []) (snd (Config E w0))) = (Ok tt, w) →
  get_snippet E categories w0
  = pick_snippet E (λ snippet,
      match snippet with
      | None => raise AttributeError
      | Some s =>
          get_from_repo E s ;;
          Broadcast_all E (Snippet.category s +:+ " " +:+ messages.SNIPPET_FETCHED) 0
      end) w.
Proof.
  intros c Hc Hidx Hload. unfold get_snippet. fold c.
  destruct (Config_run E w0) as (w1 & J1 & R1 & F1 & _).
  rewrite R1 in Hload. cbn [snd] in Hload.
  rewrite (bind_ok _ _ _ _ _ R1).
  destruct (String.eqb_spec c "") as [|_]; [done |].
  unfold bind at 1. unfold exists_, gets. rewrite F1, Hidx.
  rewrite bool_decide_eq_true_2 by (by eexists). cbn [negb].
  unfold bind at 1. unfold purge, modify.
  unfold bind at 1. unfold read_file. wsimpl. rewrite F1, Hidx.
  by rewrite (bind_ok _ _ _ _ _ Hload).
Qed.


End Pick.



(** C9, where the code departs from it: [__str__] cuts the description
    at [max_desc_len] and pads it on the right to [max_desc_len + 2]
    columns, but it never consults [max_tags_len]: the tags follow the
    [|] in full.  With [max_tags_len = 32], tags of 45 characters are
    displayed whole. *)
Theorem str_does_not_truncate_tags :
  (∀ (E : environment) (s : snippet),
     ∃ head, Snippet_str E s = head +:+ "|" +:+ Py.join "," (Snippet.tags s)
             ∧ String.length head = max_desc_len E + 2)
  ∧ let E := Demo.env 8 "Sop" "" "" "" Demo.sh_ok None in
    let s := Demo.op 0 "blur setup"
               ["alembic"; "animation"; "geometry"; "simulation"; "volumes"] "id0" in
    max_tags_len E = 32
    ∧ Snippet_str E s
      = "blur set  |alembic,animation,geometry,simulation,volumes"
    ∧ String.length (Py.join "," (Snippet.tags s)) = 45.
Proof.
  split.
  - intros E s. eexists. split; [reflexivity |].
    unfold Py.ljust. rewrite string_length_app, slice_to_length.
    assert (∀ n, String.length (Py.spaces n) = n) as ->.
    { induction n; simpl; [done | by f_equal]. }
    lia.
  - vm_compute. done.
Qed.

(** ** The category registry *)

Lemma Snippet_init_ok (v : variant) (d t c : string) (p : option string)
    (u : string) (w : world) :
  d ≠ "" →
  set_category v c w = (Ok c, w) →
  in_values p = true →
  ∃ s w', Snippet_init v d t c p u w = (Ok s, w')
    ∧ s = {| Snippet.oid := next_oid w; Snippet.kind := v;
             Snippet.description := d; Snippet.tags := set_tags t;
             Snippet.category := c; Snippet.prefix := default "" p;
             Snippet.uuid := u |}
    ∧ instances w' = instances w ++ [s]
    ∧ fs w' = fs w ∧ dirs w' = dirs w ∧ journal w' = journal w ∧ log w' = log w
    ∧ clock w' = clock w ∧ clipboard w' = clipboard w
    ∧ next_oid w' = S (next_oid w).
Proof.
  intros Hd Hc Hp. unfold Snippet_init.
  assert (set_description d w = (Ok d, w)) as R1.
  { unfold set_description. by destruct (String.eqb_spec d ""). }
  rewrite (bind_ok _ _ _ _ _ R1), (bind_ok _ _ _ _ _ Hc).
  assert (set_prefix p w = (Ok (default "" p), w)) as R3.
  { unfold set_prefix. destruct p as [p|]; [| done]. by rewrite Hp. }
  rewrite (bind_ok _ _ _ _ _ R3).
  do 2 eexists. split; [reflexivity |]. by repeat split.
Qed.

(** A prefix the registry does not hold stops the constructor before
    the object joins the catalog. *)
Lemma Snippet_init_foreign (v : variant) (d t c p u : string) (w : world) :
  d ≠ "" →
  set_category v c w = (Ok c, w) →
  in_values (Some p) = false →
  Snippet_init v d t c (Some p) u w
  = (Raise (ValueError (messages.PREFIX_INVALID +:+ " " +:+ Py.dq +:+ p +:+ Py.dq +:+ ".")), w).
Proof.
  intros Hd Hc Hp. unfold Snippet_init.
  assert (set_description d w = (Ok d, w)) as R1.
  { unfold set_description. by destruct (String.eqb_spec d ""). }
  rewrite (bind_ok _ _ _ _ _ R1), (bind_ok _ _ _ _ _ Hc).
  unfold bind, set_prefix. by rewrite Hp.
Qed.

Lemma registry_table (c : string) :
  c ∈ CATEGORIES →
  ∃ v, dict_get PREFIXES c = Some v
    ∧ in_values v = true
    ∧ bool_decide (v = None) = bool_decide (c ∈ ["Director"; "Manager"; "VopNet"])
    ∧ (c, v) ∈ [ ("Chop", Some "CHOP"); ("ChopNet", Some "CHOPNET"); ("Cop2", Some "COP2");
                 ("CopNet", Some "IMG"); ("Director", None); ("Dop", Some "DOP");
                 ("Driver", Some "ROP"); ("Lop", Some "LOP"); ("Manager", None);
                 ("Object", Some "OBJ"); ("Shop", Some "SHOP"); ("Sop", Some "SOP");
                 ("Top", Some "TOP"); ("TopNet", Some "TOPNET"); ("Vop", Some "VOP");
                 ("VopNet", None) ]
    ∧ ∀ w, set_category OpSnippet c w = (Ok c, w).
Proof.
  intros Hc. unfold CATEGORIES in Hc. simpl in Hc.
  each_member Hc; eexists; (split; [reflexivity |]); (split; [reflexivity |]);
    (split; [reflexivity |]); (split; [| intros w; reflexivity]);
    apply (bool_decide_unpack _); vm_compute; exact I.
Qed.

Lemma language_category (l : string) (w : world) :
  l ∈ LANGUAGES → set_category CodeSnippet l w = (Ok l, w).
Proof. intros Hl. unfold LANGUAGES in Hl. each_member Hl; reflexivity. Qed.

Lemma category_is_valid (c : string) : c ∈ CATEGORIES → c ∈ CATEGORIES ++ LANGUAGES.
Proof. intros H. apply elem_of_app. by left. Qed.

Lemma language_is_valid (c : string) : c ∈ LANGUAGES → c ∈ CATEGORIES ++ LANGUAGES.
Proof. intros H. apply elem_of_app. by right. Qed.

(** ** Files *)

Lemma contains_split (sep : ascii) (s : string) :
  Py.contains sep s = false → Py.split sep s = [s].
Proof.
  induction s as [|c s IH]; [done |]. cbn [Py.contains Py.split].
  rewrite (Ascii.eqb_sym c sep) at 1.
  destruct (Ascii.eqb sep c) eqn:Hc; [done |]. cbn [orb]. intros H.
  rewrite Ascii.eqb_sym, Hc. by rewrite (IH H).
Qed.

(** An identifier that is a plain name leads to the file of that name
    in the category's directory. *)
Lemma locate_plain (w : world) (c u : string) :
  Py.plain_name u = true → locate w c u = At (snippet_file_of c u).
Proof.
  unfold Py.plain_name. rewrite !andb_true_iff, !negb_true_iff.
  intros [[[H0 H1] H2] H3]. unfold locate, Py.parts.
  assert (Py.is_absolute u = false) as ->.
  { destruct u as [|a u]; [done |]. cbn [Py.contains] in H3. cbn [Py.is_absolute].
    by apply orb_false_iff in H3 as [-> _]. }
  rewrite (contains_split _ _ H3). cbn [filter list_filter].
  rewrite decide_True by (by rewrite H0, H1). by rewrite H2.
Qed.

Lemma Path_str_plain (E : environment) (c u : string) :
  Py.plain_name u = true → Path_str E c u = path_str E (snippet_file_of c u).
Proof.
  unfold Py.plain_name. rewrite !andb_true_iff, !negb_true_iff.
  intros [[[H0 H1] H2] H3]. unfold Path_str, Py.parts.
  assert (Py.is_absolute u = false) as ->.
  { destruct u as [|a u]; [done |]. cbn [Py.contains] in H3. cbn [Py.is_absolute].
    by apply orb_false_iff in H3 as [-> _]. }
  rewrite (contains_split _ _ H3). cbn [filter list_filter].
  rewrite decide_True by (by rewrite H0, H1). reflexivity.
Qed.

Lemma bootstrap_insert (m : gmap path string) (p : path) (v : string) :
  bootstrap (<[p := v]> (bootstrap m)) = <[p := v]> (bootstrap m).
Proof.
  apply touch_all_present. intros c Hc.
  destruct (touch_all_listed (CATEGORIES ++ LANGUAGES) m c Hc) as [x Hx].
  destruct (decide (p = list_file_of c)) as [-> | Hne].
  - rewrite lookup_insert_eq. by eexists.
  - rewrite lookup_insert_ne by done. by exists x.
Qed.

Section Stores.

Variable E : environment.

(** [open(p, 'w')] and one write leave exactly the data in the file. *)
Lemma create_run (p : path) (what data : string) (w : world) :
  is_Some (fs w !! p) ∨ dir_exists w p.1 = true →
  ∃ w', (open_w p what ;; write p data) w = (Ok tt, w')
    ∧ fs w' = <[p := data]> (fs w)
    ∧ dirs w' = dirs w
    ∧ journal w' = journal w ++ [<[p := ""]> (fs w); <[p := data]> (fs w)]
    ∧ same_heap w w' ∧ log w' = log w.
Proof.
  intros Hp. unfold bind, open_w.
  assert (bool_decide (is_Some (fs w !! p)) || dir_exists w p.1 = true) as ->.
  { destruct Hp as [Hp | ->]; [| apply orb_true_r].
    by rewrite bool_decide_eq_true_2. }
  eexists. split; [reflexivity |]. wsimpl.
  rewrite insert_create. split; [done |]. split; [done |]. split; [| by repeat split].
  by rewrite <- app_assoc.
Qed.

Lemma open_w_missing (p : path) (what : string) (w : world) :
  fs w !! p = None → dir_exists w p.1 = false →
  open_w p what w = (Raise (FileNotFoundError what), w).
Proof.
  intros Hp Hd. unfold open_w. rewrite Hd, orb_false_r.
  by rewrite bool_decide_eq_false_2 by (rewrite Hp; by intros [? ?]).
Qed.

Lemma hierarchy_dir_exists (w : world) (ds : gset dir) (c : string) :
  dirs w = hierarchy ds → c ∈ CATEGORIES ++ LANGUAGES →
  dir_exists w (Category c) = true.
Proof.
  intros Hd Hc. apply dir_exists_Category. split; [done |].
  rewrite Hd. by apply hierarchy_Category.
Qed.

(** Writing the content file of a snippet whose identifier is a plain
    name and whose category has its directory. *)
Lemma create_at_run (c u what data : string) (w : world) :
  Py.plain_name u = true →
  dir_exists w (Category c) = true →
  ∃ w', (target <- open_w_at c u what ;; write target data) w = (Ok tt, w')
    ∧ fs w' = <[snippet_file_of c u := data]> (fs w)
    ∧ dirs w' = dirs w
    ∧ journal w' = journal w
                   ++ [<[snippet_file_of c u := ""]> (fs w); <[snippet_file_of c u := data]> (fs w)]
    ∧ same_heap w w' ∧ log w' = log w.
Proof.
  intros Hu Hd.
  destruct (create_run (snippet_file_of c u) what data w) as (w' & R & H); [by right |].
  exists w'. split; [| exact H].
  revert R. unfold bind, open_w_at. rewrite (locate_plain _ _ _ Hu). unfold bind, ret.
  by destruct (open_w (snippet_file_of c u) what w) as [[[]|e|] w1].
Qed.

Lemma OpSnippet_store_in_repo_run (s : snippet) (w : world) (payload : string) :
  fs w !! cpio_of (Snippet.prefix s) = Some payload →
  Snippet.category s ∈ CATEGORIES ++ LANGUAGES →
  Py.plain_name (Snippet.uuid s) = true →
  ∃ w', OpSnippet_store_in_repo E s w = (Ok tt, w')
    ∧ fs w' = <[snippet_file_of (Snippet.category s) (Snippet.uuid s)
                := gzip_compress E payload]> (bootstrap (fs w))
    ∧ dirs w' = hierarchy (dirs w)
    ∧ same_heap w w'.
Proof.
  intros Hsrc Hc Hu. unfold OpSnippet_store_in_repo.
  unfold bind at 1. unfold exists_, gets. rewrite Hsrc.
  rewrite bool_decide_eq_true_2 by (by eexists).
  unfold bind at 1. unfold ret at 1.
  destruct (Config_run E w) as (w1 & J & R1 & F1 & D1 & _ & _ & SH1).
  rewrite (bind_ok _ _ _ _ _ R1).
  unfold bind at 1. unfold read_file.
  rewrite F1, (bootstrap_lookup_Some _ _ _ Hsrc).
  destruct (create_at_run (Snippet.category s) (Snippet.uuid s)
              (Path_str E (Snippet.category s) (Snippet.uuid s))
              (gzip_compress E payload) w1 Hu) as (w2 & R2 & F2 & D2 & _ & SH2 & L2).
  { by eapply hierarchy_dir_exists. }
  exists w2. split; [exact R2 |]. split; [by rewrite F2, F1 |].
  split; [by rewrite D2 |]. by eapply same_heap_trans.
Qed.

Lemma add_to_list_run (s : snippet) (w : world) :
  ∃ w', add_to_list E s w = (Ok tt, w')
    ∧ fs w' = <[list_file_of (Snippet.category s)
                := default "" (bootstrap (fs w) !! list_file_of (Snippet.category s))
                   +:+ csv_writerow E (row_of s)]> (bootstrap (fs w))
    ∧ dirs w' = hierarchy (dirs w)
    ∧ same_heap w w'.
Proof.
  unfold add_to_list.
  destruct (Config_run E w) as (w1 & J1 & R1 & F1 & D1 & _ & _ & SH1).
  rewrite (bind_ok _ _ _ _ _ R1).
  destruct (Config_run E w1) as (w2 & J2 & R2 & F2 & D2 & _ & _ & SH2).
  rewrite (bind_ok _ _ _ _ _ R2).
  rewrite F1, bootstrap_idem in F2. rewrite D1, hierarchy_idem in D2.
  eexists. split; [reflexivity |]. wsimpl. rewrite F2. split; [done |].
  split; [exact D2 |].
  eapply same_heap_trans; [exact SH1 |].
  eapply same_heap_trans; [exact SH2 |]. by repeat split.
Qed.

End Stores.

(** ** Creating a structural snippet *)

Lemma indexed_bootstrap (m : gmap path string) : indexed (bootstrap m).
Proof. intros c Hc. by apply touch_all_listed. Qed.

Lemma indexed_insert (m : gmap path string) (p : path) (v : string) :
  indexed m → indexed (<[p := v]> m).
Proof.
  intros Hm c Hc. destruct (decide (p = list_file_of c)) as [-> | Hne].
  - rewrite lookup_insert_eq. by eexists.
  - rewrite lookup_insert_ne by done. by apply Hm.
Qed.

Lemma indexed_fixed (m : gmap path string) : indexed m → bootstrap m = m.
Proof. apply touch_all_present. Qed.

(** [Config()] makes index files and nothing else. *)
Lemma bootstrap_only_indexes (m : gmap path string) (p : path) :
  p.1 ≠ Repo → bootstrap m !! p = m !! p.
Proof.
  intros Hp. unfold bootstrap. generalize (CATEGORIES ++ LANGUAGES). intros l.
  revert m; induction l as [|c l IH]; intros m; [done |]. cbn [touch_all foldl].
  fold (touch_all l (touch (list_file_of c) m)). rewrite IH.
  unfold touch. destruct (m !! list_file_of c); [done |].
  apply lookup_insert_ne. intros <-. by apply Hp.
Qed.

Lemma dict_get_elem {V} (d : list (string * V)) (k : string) (v : V) :
  dict_get d k = Some v → (k, v) ∈ d.
Proof.
  induction d as [|[k' v'] d IH]; [done |]. cbn [dict_get].
  destruct (String.eqb_spec k' k) as [-> | _].
  - intros [= ->]. left.
  - intros H. right. by apply IH.
Qed.

Lemma registered (c : string) (v : option string) :
  dict_get PREFIXES c = Some v → c ∈ CATEGORIES ∧ in_values v = true.
Proof.
  intros H. apply dict_get_elem in H. split.
  - unfold CATEGORIES. apply list_elem_of_fmap. by exists (c, v).
  - unfold in_values. apply bool_decide_eq_true. apply list_elem_of_fmap. by exists (c, v).
Qed.

Section Create.

Variable E : environment.

Lemma uuid1_run (w : world) :
  ∃ w', uuid1 E w = (Ok (uuid_hex E (clock w)), w')
    ∧ fs w' = fs w ∧ dirs w' = dirs w ∧ journal w' = journal w
    ∧ instances w' = instances w
    ∧ next_oid w' = next_oid w ∧ clipboard w' = clipboard w ∧ log w' = log w
    ∧ clock w' = S (clock w).
Proof. eexists. split; [reflexivity |]. by repeat split. Qed.

Lemma determine_category_run (h : host) (selection : list item) (w : world) :
  hou E = Some h →
  determine_category E selection w = (Ok (type_category <$> find is_node selection), w).
Proof. intros Hh. unfold determine_category, import_hou. by rewrite Hh. Qed.

Lemma is_selection_valid_run (h : host) (selection : list item) (c : string) (w : world) :
  hou E = Some h →
  type_category <$> find is_node selection = Some c →
  c ∈ CATEGORIES →
  is_selection_valid E selection w = (Ok true, w).
Proof.
  intros Hh Hc Hin. unfold is_selection_valid.
  destruct selection as [|i selection]; [done |]. cbn [length Nat.eqb].
  rewrite (bind_ok _ _ _ _ _ (determine_category_run h _ w Hh)). rewrite Hc.
  unfold in_tuple. by rewrite bool_decide_eq_true_2.
Qed.

Lemma copyItemsToClipboard_run (h : host) (w : world) :
  ∃ w', copyItemsToClipboard E h w = (Ok tt, w')
    ∧ fs w' = <[(HoudiniTemp, clip_name h) := clip_payload h]> (fs w)
    ∧ dirs w' = {[HoudiniTemp]} ∪ dirs w
    ∧ same_heap w w' ∧ log w' = log w.
Proof.
  unfold copyItemsToClipboard. unfold bind at 1. unfold mkdir, modify.
  destruct (create_run (HoudiniTemp, clip_name h) (path_str E (HoudiniTemp, clip_name h))
              (clip_payload h) (set_dirs (λ ds, {[HoudiniTemp]} ∪ ds) w))
    as (w' & R & F & D & _ & SH & L).
  { right. unfold dir_exists. apply bool_decide_eq_true. wsimpl.
    apply elem_of_union. left. by apply elem_of_singleton. }
  exists w'. by rewrite R.
Qed.

(** The run of [add_op_snippet] up to the construction of the
    snippet *)
Lemma add_op_snippet_enters (h : host) (w : world) (c : string) (v : option string) :
  hou E = Some h →
  type_category <$> find is_node (selectedItems h) = Some c →
  dict_get PREFIXES c = Some v →
  menu_enter E messages.DESC ≠ "" →
  ∃ w1, fs w1 = <[(HoudiniTemp, clip_name h) := clip_payload h]> (bootstrap (fs w))
    ∧ instances w1 = instances w ∧ next_oid w1 = next_oid w
    ∧ add_op_snippet E w
      = (snippet <- OpSnippet_new (menu_enter E messages.DESC) (menu_enter E messages.TAGS)
                      c (Some (fstring v)) (uuid_hex E (clock w)) ;;
         OpSnippet_store_in_repo E snippet ;;
         add_to_list E snippet ;;
         Broadcast_all E messages.SNIPPET_ADDED 0) w1.
Proof.
  intros Hh Hsel Hv Hdesc. destruct (registered c v Hv) as [Hc _].
  unfold add_op_snippet, import_hou. rewrite Hh, bind_ret.
  destruct (Config_run E w) as (w1 & J1 & R1 & F1 & D1 & _ & _ & SH1).
  rewrite (bind_ok _ _ _ _ _ R1).
  rewrite (bind_ok _ _ _ _ _ (is_selection_valid_run h _ c w1 Hh Hsel Hc)).
  cbn [negb].
  rewrite (bind_ok _ _ _ _ _ (determine_category_run h _ w1 Hh)), Hsel.
  cbn [mbind option_bind]. rewrite Hv. cbn [default from_option].
  destruct (copyItemsToClipboard_run h w1) as (w2 & R2 & F2 & D2 & SH2 & L2).
  rewrite (bind_ok _ _ _ _ _ R2).
  destruct (String.eqb_spec (menu_enter E messages.DESC) "") as [|_]; [done |].
  destruct (uuid1_run w2) as (w3 & R3 & F3 & D3 & _ & I3 & O3 & B3 & _ & C3).
  rewrite (bind_ok _ _ _ _ _ R3).
  destruct SH1 as (I1 & O1 & C1 & _), SH2 as (I2 & O2 & C2 & _).
  assert (clock w2 = clock w) as -> by congruence.
  exists w3. split; [by rewrite F3, F2, F1 |].
  split; [congruence |]. split; [congruence | done].
Qed.

(** [add_op_snippet] on a category that has a prefix *)
Lemma add_op_snippet_mapped (h : host) (w : world) (c v : string) :
  hou E = Some h →
  type_category <$> find is_node (selectedItems h) = Some c →
  dict_get PREFIXES c = Some (Some v) →
  clip_name h = v +:+ "_copy.cpio" →
  menu_enter E messages.DESC ≠ "" →
  Py.plain_name (uuid_hex E (clock w)) = true →
  let s := {| Snippet.oid := next_oid w; Snippet.kind := OpSnippet;
              Snippet.description := menu_enter E messages.DESC;
              Snippet.tags := set_tags (menu_enter E messages.TAGS);
              Snippet.category := c; Snippet.prefix := v;
              Snippet.uuid := uuid_hex E (clock w) |} in
  ∃ w', add_op_snippet E w
        = (checked (shell_status E (notify_cmd_of messages.SNIPPET_ADDED 0)), w')
    ∧ instances w' = instances w ++ [s]
    ∧ fs w' = <[list_file_of c
                := default "" (fs w !! list_file_of c) +:+ csv_writerow E (row_of s)]>
               (<[snippet_file_of c (uuid_hex E (clock w)) := gzip_compress E (clip_payload h)]>
                  (<[cpio_of v := clip_payload h]> (bootstrap (fs w)))).
Proof.
  intros Hh Hsel Hv Hclip Hdesc Hid s.
  destruct (registered c _ Hv) as [Hc Hin].
  destruct (registry_table c Hc) as (v' & _ & _ & _ & _ & Hcat).
  destruct (add_op_snippet_enters h w c (Some v) Hh Hsel Hv Hdesc)
    as (w1 & F1 & I1 & O1 & ->).
  cbn [fstring]. unfold OpSnippet_new.
  destruct (Snippet_init_ok OpSnippet (menu_enter E messages.DESC) (menu_enter E messages.TAGS)
              c (Some v) (uuid_hex E (clock w)) w1 Hdesc (Hcat w1) Hin)
    as (s' & w2 & R2 & Hs & I2 & F2 & D2 & _).
  rewrite O1 in Hs. change (default "" (Some v)) with v in Hs. fold s in Hs. subst s'.
  rewrite (bind_ok _ _ _ _ _ R2).
  destruct (OpSnippet_store_in_repo_run E s w2 (clip_payload h)) as (w3 & R3 & F3 & D3 & SH3).
  { rewrite F2, F1. cbn [Snippet.prefix s]. unfold cpio_of. rewrite <- Hclip.
    apply lookup_insert_eq. }
  { by apply category_is_valid. }
  { exact Hid. }
  rewrite (bind_ok _ _ _ _ _ R3).
  destruct (add_to_list_run E s w3) as (w4 & R4 & F4 & D4 & SH4).
  rewrite (bind_ok _ _ _ _ _ R4).
  destruct (Broadcast_all_plain E messages.SNIPPET_ADDED 0 w4) as (w5 & R5 & (F5 & _ & _ & SH5 & _) & _);
    [lia | reflexivity |].
  exists w5. split; [exact R5 |]. split.
  { destruct SH5 as (-> & _), SH4 as (-> & _), SH3 as (-> & _). by rewrite I2, I1. }
  rewrite F5, F4, F3, F2, F1. cbn [Snippet.category Snippet.uuid s].
  unfold cpio_of. rewrite <- Hclip.
  set (m1 := <[(HoudiniTemp, clip_name h) := clip_payload h]> (bootstrap (fs w))).
  assert (indexed m1) as Hm1 by apply indexed_insert, indexed_bootstrap.
  rewrite (indexed_fixed m1 Hm1).
  set (m2 := <[snippet_file_of c (uuid_hex E (clock w)) := gzip_compress E (clip_payload h)]> m1).
  assert (indexed m2) as Hm2 by by apply indexed_insert.
  rewrite (indexed_fixed m2 Hm2).
  assert (m2 !! list_file_of c = Some (default "" (fs w !! list_file_of c))) as ->.
  { unfold m2, m1. rewrite !lookup_insert_ne by done.
    by apply bootstrap_index, category_is_valid. }
  reflexivity.
Qed.

(** [add_op_snippet] on a category that has no prefix: the f-string
    turns [None] into the text [None], which the prefix setter
    refuses. *)
Lemma add_op_snippet_unmapped (h : host) (w : world) (c : string) :
  hou E = Some h →
  type_category <$> find is_node (selectedItems h) = Some c →
  dict_get PREFIXES c = Some None →
  menu_enter E messages.DESC ≠ "" →
  ∃ w', add_op_snippet E w
        = (Raise (ValueError (messages.PREFIX_INVALID +:+ " " +:+ Py.dq +:+ "None"
                              +:+ Py.dq +:+ ".")), w')
    ∧ instances w' = instances w
    ∧ fs w' = <[(HoudiniTemp, clip_name h) := clip_payload h]> (bootstrap (fs w)).
Proof.
  intros Hh Hsel Hv Hdesc.
  destruct (registered c _ Hv) as [Hc _].
  destruct (registry_table c Hc) as (v' & _ & _ & _ & _ & Hcat).
  destruct (add_op_snippet_enters h w c None Hh Hsel Hv Hdesc)
    as (w1 & F1 & I1 & O1 & ->).
  cbn [fstring]. unfold OpSnippet_new.
  rewrite (bind_raise _ _ _ _ _
             (Snippet_init_foreign OpSnippet _ (menu_enter E messages.TAGS) c "None"
                (uuid_hex E (clock w)) w1 Hdesc (Hcat w1) eq_refl)).
  exists w1. by repeat split.
Qed.

End Create.

(** C6 (scenario A): with a node of category [Sop] selected, the
    description [blur setup] and the tags [util, blur], [add_op_snippet]
    appends the one row [blur setup; blur,util; Sop; SOP; id] to the
    [Sop] index, leaves every other index as the bootstrap has it, and
    creates [Sop/id] holding the gzip stream of the host's payload; the
    snippet joins the catalog.  The identifier is the one [uuid1] gives,
    a plain file name. *)
Theorem add_op_snippet_scenario (E : environment) (h : host) (w : world) :
  hou E = Some h →
  type_category <$> find is_node (selectedItems h) = Some "Sop" →
  clip_name h = "SOP_copy.cpio" →
  menu_enter E messages.DESC = "blur setup" →
  menu_enter E messages.TAGS = "util, blur" →
  Py.plain_name (uuid_hex E (clock w)) = true →
  let id := uuid_hex E (clock w) in
  let w' := snd (add_op_snippet E w) in
  dict_get PREFIXES "Sop" = Some (Some "SOP")
  ∧ fs w' !! (Repo, "Sop.csv")
    = Some (default "" (fs w !! (Repo, "Sop.csv"))
            +:+ csv_writerow E ["blur setup"; "blur,util"; "Sop"; "SOP"; id])
  ∧ fs w' !! (Category "Sop", id) = Some (gzip_compress E (clip_payload h))
  ∧ (∀ c, c ∈ CATEGORIES ++ LANGUAGES → c ≠ "Sop" →
       fs w' !! list_file_of c = Some (default "" (fs w !! list_file_of c)))
  ∧ (∀ c u, (c, u) ≠ ("Sop", id) → fs w' !! (Category c, u) = fs w !! (Category c, u))
  ∧ (∃ s, instances w' = instances w ++ [s]
          ∧ row_of s = ["blur setup"; "blur,util"; "Sop"; "SOP"; id])
  ∧ fst (add_op_snippet E w)
    = checked (shell_status E (notify_cmd_of messages.SNIPPET_ADDED 0)).
Proof.
  intros Hh Hsel Hclip Hdesc Htags Hid id w'.
  split; [reflexivity |].
  destruct (add_op_snippet_mapped E h w "Sop" "SOP" Hh Hsel eq_refl Hclip) as (wf & R & I & F).
  { by rewrite Hdesc. }
  { exact Hid. }
  unfold w'. rewrite R. cbn [fst snd]. rewrite F, Hdesc, Htags. fold id.
  change (set_tags "util, blur") with ["blur"; "util"].
  split; [apply lookup_insert_eq |]. split.
  { rewrite lookup_insert_ne by done. apply lookup_insert_eq. }
  split.
  { intros c Hc Hne. rewrite lookup_insert_ne.
    2:{ unfold list_file_of. intros H. injection H as H.
        apply Hne. unfold CATEGORIES, LANGUAGES in Hc. simpl in Hc.
        each_member Hc; try done; discriminate H. }
    rewrite !lookup_insert_ne by done. by apply bootstrap_index. }
  split.
  { intros c u Hu. rewrite lookup_insert_ne by done.
    rewrite lookup_insert_ne by (unfold snippet_file_of; congruence).
    rewrite lookup_insert_ne by done.
    by apply bootstrap_only_indexes. }
  split; [| done].
  eexists. split; [exact I |]. rewrite Hdesc, Htags. reflexivity.
Qed.

(** Scenario A on an empty repository, the clock at its first tick. *)
Lemma add_op_snippet_scenario_witness :
  let h := Demo.houdini [{| is_node := true; type_category := "Sop" |}]
             "SOP_copy.cpio" "PAYLOAD" in
  let E := Demo.env 8 "Sop" "" "blur setup" "util, blur" Demo.sh_ok (Some h) in
  let w' := snd (add_op_snippet E (Demo.world_of [])) in
  fs w' !! (Repo, "Sop.csv")
    = Some (Demo.writerow ["blur setup"; "blur,util"; "Sop"; "SOP"; "id0"])
  ∧ fs w' !! (Category "Sop", "id0") = Some (Demo.compress "PAYLOAD").
Proof.
  intros h E w'.
  destruct (add_op_snippet_scenario E h (Demo.world_of [])
              eq_refl eq_refl eq_refl eq_refl eq_refl eq_refl) as (_ & H1 & H2 & _).
  split; [exact H1 | exact H2].
Defined.

(** ** The prefix of a category *)

(** C7, as the code has it.  For every structural category the
    registry holds one fixed value, no prefix exactly for Director,
    Manager and VopNet.  Create builds the snippet of a category that
    has a prefix with exactly that prefix.  For the three categories
    without one it hands the text [None] to the constructor, which
    raises [ValueError]: no snippet is made.  The constructor itself
    accepts every prefix the registry holds for any category, and takes
    [None] for the empty prefix; a textual snippet carries the empty
    prefix whatever it is given. *)
Theorem prefix_of_category (c : string) :
  c ∈ CATEGORIES →
  ∃ v, dict_get PREFIXES c = Some v
    ∧ (c, v) ∈ [ ("Chop", Some "CHOP"); ("ChopNet", Some "CHOPNET"); ("Cop2", Some "COP2");
                 ("CopNet", Some "IMG"); ("Director", None); ("Dop", Some "DOP");
                 ("Driver", Some "ROP"); ("Lop", Some "LOP"); ("Manager", None);
                 ("Object", Some "OBJ"); ("Shop", Some "SHOP"); ("Sop", Some "SOP");
                 ("Top", Some "TOP"); ("TopNet", Some "TOPNET"); ("Vop", Some "VOP");
                 ("VopNet", None) ]
    ∧ (v = None ↔ c ∈ ["Director"; "Manager"; "VopNet"])
    ∧ (∀ E h w p,
         v = Some p →
         hou E = Some h →
         type_category <$> find is_node (selectedItems h) = Some c →
         clip_name h = p +:+ "_copy.cpio" →
         menu_enter E messages.DESC ≠ "" →
         Py.plain_name (uuid_hex E (clock w)) = true →
         ∃ s, instances (snd (add_op_snippet E w)) = instances w ++ [s]
              ∧ Snippet.category s = c ∧ Snippet.prefix s = p)
    ∧ (∀ E h w,
         v = None →
         hou E = Some h →
         type_category <$> find is_node (selectedItems h) = Some c →
         menu_enter E messages.DESC ≠ "" →
         fst (add_op_snippet E w)
           = Raise (ValueError (messages.PREFIX_INVALID +:+ " " +:+ Py.dq +:+ "None"
                                +:+ Py.dq +:+ "."))
         ∧ instances (snd (add_op_snippet E w)) = instances w)
    ∧ (∀ q d t u w, d ≠ "" →
         (in_values (Some q) = true →
            ∃ s w', OpSnippet_new d t c (Some q) u w = (Ok s, w')
                    ∧ instances w' = instances w ++ [s]
                    ∧ Snippet.category s = c ∧ Snippet.prefix s = q)
         ∧ (in_values (Some q) = false →
              ∃ msg, OpSnippet_new d t c (Some q) u w = (Raise (ValueError msg), w)))
    ∧ (∀ d t u w, d ≠ "" →
         ∃ s w', OpSnippet_new d t c None u w = (Ok s, w')
                 ∧ instances w' = instances w ++ [s]
                 ∧ Snippet.category s = c ∧ Snippet.prefix s = "")
    ∧ (∀ l p d t u w, l ∈ LANGUAGES → d ≠ "" →
         ∃ s w', CodeSnippet_new d t l p u w = (Ok s, w')
                 ∧ instances w' = instances w ++ [s]
                 ∧ Snippet.category s = l ∧ Snippet.prefix s = "").
Proof.
  intros Hc. destruct (registry_table c Hc) as (v & Hv & Hin & Hnone & Htab & Hcat).
  exists v. split; [exact Hv |]. split; [exact Htab |]. split.
  { rewrite <- (bool_decide_spec (v = None)), Hnone. apply bool_decide_spec. }
  split.
  { intros E h w p -> Hh Hsel Hclip Hdesc Hid.
    destruct (add_op_snippet_mapped E h w c p Hh Hsel Hv Hclip Hdesc Hid) as (w' & R & I & _).
    rewrite R. cbn [snd]. eexists. split; [exact I |]. by split. }
  split.
  { intros E h w -> Hh Hsel Hdesc.
    destruct (add_op_snippet_unmapped E h w c Hh Hsel Hv Hdesc) as (w' & R & I & _).
    rewrite R. by split. }
  split.
  { intros q d t u w Hd. split.
    - intros Hq. unfold OpSnippet_new.
      destruct (Snippet_init_ok OpSnippet d t c (Some q) u w Hd (Hcat w) Hq)
        as (s & w' & R & -> & I & _).
      eexists; exists w'. split; [exact R |]. split; [exact I | by split].
    - intros Hq. eexists. unfold OpSnippet_new.
      apply (Snippet_init_foreign OpSnippet d t c q u w Hd (Hcat w) Hq). }
  split.
  - intros d t u w Hd. unfold OpSnippet_new.
    destruct (Snippet_init_ok OpSnippet d t c None u w Hd (Hcat w) eq_refl)
      as (s & w' & R & -> & I & _).
    eexists; exists w'. split; [exact R |]. split; [exact I | by split].
  - intros l p d t u w Hl Hd. unfold CodeSnippet_new.
    destruct (Snippet_init_ok CodeSnippet d t l None u w Hd (language_category l w Hl) eq_refl)
      as (s & w' & R & -> & I & _).
    eexists; exists w'. split; [exact R |]. split; [exact I | by split].
Qed.

(** A category without a prefix, and one with. *)
Lemma prefix_of_category_witness :
  (∃ s w', OpSnippet_new "crowd" "sim" "Director" None "id0" (Demo.catalog []) = (Ok s, w')
           ∧ Snippet.prefix s = "")
  ∧ dict_get PREFIXES "Driver" = Some (Some "ROP").
Proof.
  split; [| reflexivity].
  destruct (prefix_of_category "Director") as (v & Hv & _ & _ & _ & _ & _ & Hnew & _).
  - by apply (bool_decide_unpack _).
  - destruct (Hnew "crowd" "sim" "id0" (Demo.catalog [])) as (s & w' & R & _ & _ & P);
      [done |].
    by exists s, w'.
Defined.

(** C7 fails on the code as it is worded: a [Sop] snippet constructed
    with the prefix of [Driver] is accepted and carries [ROP], and
    List+Fetch builds such a snippet from an index row; Create on a
    [Director] node constructs nothing. *)
Lemma foreign_prefix_accepted :
  dict_get PREFIXES "Sop" = Some (Some "SOP")
  ∧ (let r := OpSnippet_new "blur" "x" "Sop" (Some "ROP") "id0" (Demo.catalog []) in
     fst r = Ok {| Snippet.oid := 0; Snippet.kind := OpSnippet;
                   Snippet.description := "blur"; Snippet.tags := ["x"];
                   Snippet.category := "Sop"; Snippet.prefix := "ROP";
                   Snippet.uuid := "id0" |})
  ∧ (let E := Demo.env 8 "Sop" "" "" "" Demo.sh_ok None in
     let w := Demo.world_of [((Repo, "Sop.csv"), Demo.writerow ["blur"; "x"; "Sop"; "ROP"; "id0"])] in
     map (λ s, (Snippet.category s, Snippet.prefix s)) (instances (snd (get_snippet E CATEGORIES w)))
     = [("Sop", "ROP")])
  ∧ (let h := Demo.houdini [{| is_node := true; type_category := "Director" |}]
                "_copy.cpio" "PAYLOAD" in
     let E := Demo.env 8 "" "" "crowd" "sim" Demo.sh_ok (Some h) in
     let r := add_op_snippet E (Demo.world_of []) in
     fst r = Raise (ValueError ("Supplied prefix is invalid: " +:+ Py.dq +:+ "None" +:+ Py.dq +:+ "."))
     ∧ instances (snd r) = []).
Proof. vm_compute. done. Qed.

(** ** Storing and fetching the content *)

Lemma hierarchy_HoudiniTemp (ds : gset dir) : HoudiniTemp ∈ hierarchy ds ↔ HoudiniTemp ∈ ds.
Proof.
  split; [| apply hierarchy_mono].
  unfold hierarchy, category_dirs. rewrite !elem_of_union, elem_of_singleton.
  intros [H | [H | H]]; [| done | done].
  apply elem_of_list_to_set, list_elem_of_fmap in H as (c & H & _). discriminate H.
Qed.

Section RoundTrip.

Variable E : environment.

Lemma OpSnippet_get_from_repo_run (s : snippet) (w : world) (z data : string) :
  fs w !! snippet_file_of (Snippet.category s) (Snippet.uuid s) = Some z →
  gzip_decompress E z = Some data →
  Py.plain_name (Snippet.uuid s) = true →
  HoudiniTemp ∈ dirs w →
  ∃ w', OpSnippet_get_from_repo E s w = (Ok tt, w')
    ∧ fs w' = <[cpio_of (Snippet.prefix s) := data]> (bootstrap (fs w))
    ∧ same_heap w w'.
Proof.
  intros Hsrc Hz Hu Hd. unfold OpSnippet_get_from_repo.
  destruct (Config_run E w) as (w1 & J & R1 & F1 & D1 & _ & _ & SH1).
  rewrite (bind_ok _ _ _ _ _ R1).
  assert (fs w1 !! snippet_file_of (Snippet.category s) (Snippet.uuid s) = Some z) as H1.
  { rewrite F1. by apply bootstrap_lookup_Some. }
  unfold bind at 1. unfold exists_at. rewrite (locate_plain _ _ _ Hu).
  unfold exists_, gets. rewrite H1.
  rewrite bool_decide_eq_true_2 by (by eexists).
  unfold bind at 1. unfold ret at 1.
  unfold bind at 1. unfold read_at. rewrite (locate_plain _ _ _ Hu).
  unfold read_file. rewrite H1, Hz.
  destruct (create_run (cpio_of (Snippet.prefix s)) (path_str E (cpio_of (Snippet.prefix s)))
              data w1) as (w2 & R2 & F2 & _ & _ & SH2 & _).
  { right. unfold dir_exists. apply bool_decide_eq_true. cbn [fst cpio_of].
    rewrite D1. by apply hierarchy_mono. }
  exists w2. split; [exact R2 |]. split; [by rewrite F2, F1 |].
  by eapply same_heap_trans.
Qed.

(** Without the host's temporary directory there is nowhere to write
    to. *)
Lemma OpSnippet_get_from_repo_nowhere (s : snippet) (w : world) (z : string) :
  fs w !! snippet_file_of (Snippet.category s) (Snippet.uuid s) = Some z →
  Py.plain_name (Snippet.uuid s) = true →
  HoudiniTemp ∉ dirs w →
  fs w !! cpio_of (Snippet.prefix s) = None →
  ∃ w', OpSnippet_get_from_repo E s w
        = (Raise (FileNotFoundError (path_str E (cpio_of (Snippet.prefix s)))), w')
    ∧ fs w' = bootstrap (fs w).
Proof.
  intros Hsrc Hu Hd Hnone. unfold OpSnippet_get_from_repo.
  destruct (Config_run E w) as (w1 & J & R1 & F1 & D1 & _ & _ & SH1).
  rewrite (bind_ok _ _ _ _ _ R1).
  assert (fs w1 !! snippet_file_of (Snippet.category s) (Snippet.uuid s) = Some z) as H1.
  { rewrite F1. by apply bootstrap_lookup_Some. }
  unfold bind at 1. unfold exists_at. rewrite (locate_plain _ _ _ Hu).
  unfold exists_, gets. rewrite H1.
  rewrite bool_decide_eq_true_2 by (by eexists).
  unfold bind at 1. unfold ret at 1.
  unfold bind at 1. unfold read_at. rewrite (locate_plain _ _ _ Hu).
  unfold read_file. rewrite H1.
  assert (open_w (cpio_of (Snippet.prefix s)) (path_str E (cpio_of (Snippet.prefix s))) w1
          = (Raise (FileNotFoundError (path_str E (cpio_of (Snippet.prefix s)))), w1)) as R2.
  { apply open_w_missing.
    - rewrite F1, bootstrap_only_indexes by done. exact Hnone.
    - unfold dir_exists. apply bool_decide_eq_false. cbn [fst cpio_of].
      rewrite D1. by rewrite hierarchy_HoudiniTemp. }
  rewrite (bind_raise _ _ _ _ _ R2). by exists w1.
Qed.

Lemma CodeSnippet_store_in_repo_run (s : snippet) (code : string) (w : world) :
  Snippet.category s ∈ CATEGORIES ++ LANGUAGES →
  Py.plain_name (Snippet.uuid s) = true →
  ∃ w', CodeSnippet_store_in_repo E s code w = (Ok tt, w')
    ∧ fs w' = <[snippet_file_of (Snippet.category s) (Snippet.uuid s) := code]>
                (bootstrap (fs w))
    ∧ dirs w' = hierarchy (dirs w)
    ∧ same_heap w w'.
Proof.
  intros Hc Hu. unfold CodeSnippet_store_in_repo.
  destruct (Config_run E w) as (w1 & J & R1 & F1 & D1 & _ & _ & SH1).
  rewrite (bind_ok _ _ _ _ _ R1).
  destruct (create_at_run (Snippet.category s) (Snippet.uuid s)
              (Path_str E (Snippet.category s) (Snippet.uuid s)) code w1 Hu)
    as (w2 & R2 & F2 & D2 & _ & SH2 & _).
  { by eapply hierarchy_dir_exists. }
  exists w2. split; [exact R2 |]. split; [by rewrite F2, F1 |].
  split; [by rewrite D2 |]. by eapply same_heap_trans.
Qed.

Lemma CodeSnippet_get_from_repo_run (s : snippet) (w : world) (data : string) :
  fs w !! snippet_file_of (Snippet.category s) (Snippet.uuid s) = Some data →
  Py.plain_name (Snippet.uuid s) = true →
  quiet E (Clipboard_cmd E (Snippet.category s) (Snippet.uuid s)) →
  ∃ w', CodeSnippet_get_from_repo E s w = (Ok tt, w')
    ∧ clipboard w' = data
    ∧ fs w' = bootstrap (fs w).
Proof.
  intros Hsrc Hu [Hsh Hp]. unfold CodeSnippet_get_from_repo.
  destruct (Config_run E w) as (w1 & J & R1 & F1 & D1 & _ & _ & SH1).
  rewrite (bind_ok _ _ _ _ _ R1).
  assert (fs w1 !! snippet_file_of (Snippet.category s) (Snippet.uuid s) = Some data) as H1.
  { rewrite F1. by apply bootstrap_lookup_Some. }
  unfold bind at 1. unfold exists_at. rewrite (locate_plain _ _ _ Hu).
  unfold exists_, gets. rewrite H1.
  rewrite bool_decide_eq_true_2 by (by eexists).
  unfold bind at 1. unfold ret at 1.
  unfold Clipboard_fetch, bind. rewrite Broadcast_run_checked_run, Hsh. cbn [checked].
  rewrite Hp, (shell_run_plain _ _ _ Hp), (locate_plain _ _ _ Hu), H1.
  eexists. split; [reflexivity |]. by split.
Qed.

(** X5: a structural payload stored by [store_in_repo] (gzip while
    writing) comes back from [get_from_repo] as the bytes stored, and a
    textual payload written verbatim comes back verbatim on the
    clipboard.  This holds for a snippet of a registered category whose
    identifier is a plain file name, for any snippet object with its
    category, identifier and prefix, as List+Fetch rebuilds it from the
    index row, and in any later world in which the content file is as
    the store left it -- provided the host's temporary directory
    exists, respectively [xclip] runs with success on a command line
    without expansions.  Where that directory is missing, fetching a
    structural payload raises [FileNotFoundError]. *)
Theorem store_fetch_round_trip (s s' : snippet) (w : world) :
  (∀ b, gzip_decompress E (gzip_compress E b) = Some b) →
  Snippet.category s' = Snippet.category s →
  Snippet.uuid s' = Snippet.uuid s →
  Snippet.prefix s' = Snippet.prefix s →
  Snippet.category s ∈ CATEGORIES ++ LANGUAGES →
  Py.plain_name (Snippet.uuid s) = true →
  let file := snippet_file_of (Snippet.category s) (Snippet.uuid s) in
  let cpio := cpio_of (Snippet.prefix s) in
  (∀ payload w2,
     fs w !! cpio = Some payload →
     fst (OpSnippet_store_in_repo E s w) = Ok tt
     ∧ (fs w2 !! file = fs (snd (OpSnippet_store_in_repo E s w)) !! file →
        (HoudiniTemp ∈ dirs w2 →
           fst (OpSnippet_get_from_repo E s' w2) = Ok tt
           ∧ fs (snd (OpSnippet_get_from_repo E s' w2)) !! cpio = Some payload)
        ∧ (HoudiniTemp ∉ dirs w2 → fs w2 !! cpio = None →
             fst (OpSnippet_get_from_repo E s' w2)
             = Raise (FileNotFoundError (path_str E cpio)))))
  ∧ (∀ code w2,
       fst (CodeSnippet_store_in_repo E s code w) = Ok tt
       ∧ (fs w2 !! file = fs (snd (CodeSnippet_store_in_repo E s code w)) !! file →
          quiet E (Clipboard_cmd E (Snippet.category s) (Snippet.uuid s)) →
          fst (CodeSnippet_get_from_repo E s' w2) = Ok tt
          ∧ clipboard (snd (CodeSnippet_get_from_repo E s' w2)) = code)).
Proof.
  intros Hgz Hc Hu Hp Hcat Hplain file cpio. split.
  - intros payload w2 Hsrc.
    destruct (OpSnippet_store_in_repo_run E s w payload Hsrc Hcat Hplain) as (w1 & R1 & F1 & _).
    rewrite R1. wsimpl. split; [done |].
    rewrite F1. unfold file. rewrite lookup_insert_eq. intros Hfile. split.
    + intros Hd.
      destruct (OpSnippet_get_from_repo_run s' w2 (gzip_compress E payload) payload)
        as (w3 & R3 & F3 & _).
      * by rewrite Hc, Hu.
      * apply Hgz.
      * by rewrite Hu.
      * exact Hd.
      * rewrite R3. cbn [fst snd]. split; [done |]. rewrite F3, Hp. apply lookup_insert_eq.
    + intros Hd Hnone.
      destruct (OpSnippet_get_from_repo_nowhere s' w2 (gzip_compress E payload))
        as (w3 & R3 & _).
      * by rewrite Hc, Hu.
      * by rewrite Hu.
      * exact Hd.
      * by rewrite Hp.
      * rewrite R3. cbn [fst]. unfold cpio. by rewrite Hp.
  - intros code w2.
    destruct (CodeSnippet_store_in_repo_run s code w Hcat Hplain) as (w1 & R1 & F1 & _).
    rewrite R1. wsimpl. split; [done |].
    rewrite F1. unfold file. rewrite lookup_insert_eq. intros Hfile Hsh.
    destruct (CodeSnippet_get_from_repo_run s' w2 code) as (w3 & R3 & C3 & _).
    + by rewrite Hc, Hu.
    + by rewrite Hu.
    + by rewrite Hc, Hu.
    + rewrite R3. by split.
Qed.

End RoundTrip.

Lemma demo_gzip_law (b : string) : Demo.decompress (Demo.compress b) = Some b.
Proof. reflexivity. Qed.

(** A payload stored under [Sop/id0] and fetched after the host's
    clipboard file was overwritten; the same fetch on a machine without
    the host's temporary directory. *)
Lemma store_fetch_round_trip_witness :
  let E := Demo.env 8 "Sop" "" "" "" Demo.sh_ok None in
  let s := Demo.op 0 "blur" ["x"] "id0" in
  let w := Demo.world_in [HoudiniTemp] [((HoudiniTemp, "SOP_copy.cpio"), "PAYLOAD")] in
  let w1 := snd (OpSnippet_store_in_repo E s w) in
  let w2 := set_fs (insert (HoudiniTemp, "SOP_copy.cpio") "OTHER") w1 in
  let w3 := Demo.world_of [((Category "Sop", "id0"), Demo.compress "PAYLOAD")] in
  fs (snd (OpSnippet_get_from_repo E (Demo.op 7 "blur" ["x"] "id0") w2))
    !! (HoudiniTemp, "SOP_copy.cpio") = Some "PAYLOAD"
  ∧ fst (OpSnippet_get_from_repo E (Demo.op 7 "blur" ["x"] "id0") w3)
    = Raise (FileNotFoundError "/tmp/houdini_temp/SOP_copy.cpio").
Proof.
  intros E s w w1 w2 w3.
  assert ("Sop" ∈ CATEGORIES ++ LANGUAGES) as HSop by (by apply (bool_decide_unpack _)).
  destruct (store_fetch_round_trip E s (Demo.op 7 "blur" ["x"] "id0") w
              demo_gzip_law eq_refl eq_refl eq_refl HSop eq_refl) as (H & _).
  split.
  - destruct (H "PAYLOAD" w2 eq_refl) as (_ & H2).
    destruct H2 as ((_ & H3) & _); [vm_compute; reflexivity | | exact H3].
    apply (bool_decide_unpack _). vm_compute. exact I.
  - destruct (H "PAYLOAD" w3 eq_refl) as (_ & H2).
    destruct H2 as (_ & H3); [vm_compute; reflexivity |].
    apply H3; [| reflexivity].
    apply (bool_decide_unpack _). vm_compute. exact I.
Defined.

(** ** Delete on a missing index *)

Lemma touch_all_new (l : list string) (m : gmap path string) (p : path) :
  m !! p = None → is_Some (touch_all l m !! p) →
  touch_all l m !! p = Some "" ∧ ∃ c, c ∈ l ∧ p = list_file_of c.
Proof.
  revert m; induction l as [|c l IH]; intros m Hnone Hsome; cbn [touch_all foldl] in *.
  { rewrite Hnone in Hsome. by destruct Hsome. }
  fold (touch_all l (touch (list_file_of c) m)) in *.
  destruct (decide (p = list_file_of c)) as [-> | Hne].
  - split; [| exists c; split; [left | done]].
    apply touch_all_lookup_Some. unfold touch. rewrite Hnone. apply lookup_insert_eq.
  - destruct (IH (touch (list_file_of c) m)) as (H1 & c' & Hc' & ->); [| done |].
    + unfold touch. destruct (m !! list_file_of c); [done |]. by rewrite lookup_insert_ne.
    + split; [done |]. exists c'. split; [by right | done].
Qed.

Lemma bootstrap_new (m : gmap path string) (p : path) :
  m !! p = None → is_Some (bootstrap m !! p) →
  bootstrap m !! p = Some "" ∧ ∃ c, c ∈ CATEGORIES ++ LANGUAGES ∧ p = list_file_of c.
Proof. unfold bootstrap. apply touch_all_new. Qed.

Section MissingIndex.

Variable E : environment.

Lemma del_snippet_body_missing (code : bool) (w : world) :
  chosen_category E code ∈ CATEGORIES ++ LANGUAGES →
  fs w !! list_file_of (chosen_category E code) = None →
  ∃ w', del_snippet_body E code w
        = (checked (shell_status E (notify_cmd_of messages.CSV_MISSING 4)), w')
    ∧ fs w' = fs w ∧ journal w' = journal w
    ∧ (Stdout, stdout_line messages.CSV_MISSING 4, 4) ∈ log w'.
Proof.
  intros Hc Hnone. unfold del_snippet_body. fold (chosen_category E code).
  rewrite (valid_category_nonempty _ Hc). cbv iota.
  unfold in_tuple. rewrite bool_decide_eq_true_2 by done. cbn [negb].
  unfold bind at 1. unfold purge, modify.
  unfold bind at 1. unfold exists_, gets. wsimpl. rewrite Hnone.
  rewrite bool_decide_eq_false_2 by (by intros [? ?]). cbn [negb].
  destruct (Broadcast_all_plain E messages.CSV_MISSING 4 (set_instances (λ _, []) w))
    as (w' & R & (F & _ & J & _) & G); [lia | reflexivity |].
  exists w'. by rewrite R.
Qed.

Lemma del_snippet_empty (code : bool) (w : world) :
  chosen_category E code ∈ CATEGORIES ++ LANGUAGES →
  default "" (fs w !! list_file_of (chosen_category E code)) = "" →
  csv_reader E "" = [] →
  ∃ w', del_snippet E code w
        = (checked (shell_status E (notify_cmd_of messages.CAT_EMPTY 0)), w')
    ∧ fs w' = bootstrap (fs w)
    ∧ (Stdout, stdout_line messages.CAT_EMPTY 0, 0) ∈ log w'.
Proof.
  intros Hc Hnone Hcsv. unfold del_snippet.
  destruct (Config_run E w) as (w1 & J1 & R1 & F1 & _ & _ & _ & SH1).
  rewrite (bind_ok _ _ _ _ _ R1).
  assert (fs w1 !! list_file_of (chosen_category E code) = Some "") as Hidx.
  { rewrite F1, (bootstrap_index _ _ Hc). by rewrite Hnone. }
  unfold del_snippet_body. fold (chosen_category E code).
  rewrite (valid_category_nonempty _ Hc). cbv iota.
  unfold in_tuple. rewrite bool_decide_eq_true_2 by done. cbn [negb].
  unfold bind at 1. unfold purge, modify.
  unfold bind at 1. unfold exists_, gets. wsimpl. rewrite Hidx.
  rewrite bool_decide_eq_true_2 by (by eexists). cbn [negb].
  unfold bind at 1. unfold read_file. wsimpl. rewrite Hidx, Hcsv.
  unfold load_rows_for. cbn [for_each]. rewrite bind_ret.
  unfold pick_snippet. unfold bind at 1. unfold gets at 1. wsimpl.
  cbn [strs]. rewrite bind_ret. cbn [length Nat.eqb].
  destruct (Broadcast_all_plain E messages.CAT_EMPTY 0 (set_instances (λ _, []) w1))
    as (w' & R & (F & _ & J & _) & G); [lia | reflexivity |].
  exists w'. rewrite R. split; [done |]. split; [| done]. by rewrite F.
Qed.

(** X6 (and C8, as the code has it): [del_snippet] constructs [Config()] first,
    and that creates every missing index file.  On a category whose
    index file does not exist the workflow therefore finds an empty
    index: it reports that the category has no snippets and stops, the
    file system being the old one with the missing index files added --
    no index is rewritten, no content file removed.  The workflow's own
    check, reached with the index file absent, reports the missing CSV
    file at severity 4 and stops with the file system untouched. *)
Theorem delete_on_missing_index (code : bool) (w : world) :
  chosen_category E code ∈ CATEGORIES ++ LANGUAGES →
  fs w !! list_file_of (chosen_category E code) = None →
  csv_reader E "" = [] →
  (∃ w', del_snippet E code w
         = (checked (shell_status E (notify_cmd_of messages.CAT_EMPTY 0)), w')
     ∧ fs w' = bootstrap (fs w)
     ∧ fs w' !! list_file_of (chosen_category E code) = Some ""
     ∧ (Stdout, stdout_line messages.CAT_EMPTY 0, 0) ∈ log w')
  ∧ (∃ w', del_snippet_body E code w
           = (checked (shell_status E (notify_cmd_of messages.CSV_MISSING 4)), w')
       ∧ fs w' = fs w ∧ journal w' = journal w
       ∧ (Stdout, stdout_line messages.CSV_MISSING 4, 4) ∈ log w').
Proof.
  intros Hc Hnone Hcsv. split.
  - destruct (del_snippet_empty code w Hc) as (w' & R & F & G); [by rewrite Hnone | done |].
    exists w'. split; [exact R |]. split; [exact F |]. split; [| exact G].
    rewrite F, (bootstrap_index _ _ Hc). by rewrite Hnone.
  - by apply del_snippet_body_missing.
Qed.

(** C8, as the code has it.  The Delete workflow run on a category
    whose index file does not exist does not fail with the missing-index
    error: [Config()] creates the index, empty, and the workflow reports
    that the category has no snippets; its outcome is the one of that
    notification.  Every file that was there is still there with the
    content it had, and every file that is new is an empty index
    file. *)
Theorem delete_missing_index_frame (code : bool) (w : world) :
  chosen_category E code ∈ CATEGORIES ++ LANGUAGES →
  fs w !! list_file_of (chosen_category E code) = None →
  let r := del_snippet E code w in
  fst r = checked (shell_status E (notify_cmd_of messages.CAT_EMPTY 0))
  ∧ (Stdout, stdout_line messages.CAT_EMPTY 0, 0) ∈ log (snd r)
  ∧ fs (snd r) !! list_file_of (chosen_category E code) = Some ""
  ∧ (∀ p c, fs w !! p = Some c → fs (snd r) !! p = Some c)
  ∧ (∀ p, fs w !! p = None → is_Some (fs (snd r) !! p) →
       fs (snd r) !! p = Some "" ∧ ∃ c, c ∈ CATEGORIES ++ LANGUAGES ∧ p = list_file_of c).
Proof.
  intros Hc Hnone r.
  destruct (del_snippet_empty code w Hc) as (w' & R & F & G).
  { by rewrite Hnone. }
  { apply csv_reader_empty. }
  unfold r. rewrite R. cbn [fst snd]. rewrite F.
  split; [done |]. split; [exact G |]. split.
  { rewrite (bootstrap_index _ _ Hc). by rewrite Hnone. }
  split.
  - intros p c Hp. by apply bootstrap_lookup_Some.
  - intros p Hp Hs. by apply bootstrap_new.
Qed.

End MissingIndex.

(** Delete in category [Sop] of a repository without any file. *)
Lemma delete_on_missing_index_witness :
  let E := Demo.env 8 "Sop" "" "" "" Demo.sh_ok None in
  fst (del_snippet_body E false (Demo.world_of [])) = Ok tt
  ∧ fs (snd (del_snippet_body E false (Demo.world_of []))) = ∅.
Proof.
  intros E.
  destruct (delete_on_missing_index E false (Demo.world_of []))
    as (_ & w' & R & F & _).
  - assert ("Sop" ∈ CATEGORIES ++ LANGUAGES) as H by (by apply (bool_decide_unpack _)).
    exact H.
  - reflexivity.
  - reflexivity.
  - rewrite R. split; [reflexivity | exact F].
Defined.

(** Delete in category [Sop] of a repository that holds the content
    file of a snippet but no index: the content file stays, the index
    appears. *)
Lemma delete_missing_index_frame_witness :
  let E := Demo.env 8 "Sop" "" "" "" Demo.sh_ok None in
  let w := Demo.world_of [((Category "Sop", "id0"), "DATA")] in
  fs (snd (del_snippet E false w)) !! (Category "Sop", "id0") = Some "DATA"
  ∧ fs (snd (del_snippet E false w)) !! (Repo, "Sop.csv") = Some "".
Proof.
  intros E w.
  destruct (delete_missing_index_frame E false w) as (_ & _ & H1 & H2 & _).
  - assert ("Sop" ∈ CATEGORIES ++ LANGUAGES) as H by (by apply (bool_decide_unpack _)).
    exact H.
  - reflexivity.
  - split; [| exact H1]. apply H2. reflexivity.
Defined.

(** C8 fails on the code: run on a repository whose [Sop] index does not
    exist, the Delete workflow returns normally, its last message is
    that the category has no snippets, and the index file is there
    afterwards. *)
Lemma delete_creates_missing_index :
  let E := Demo.env 8 "Sop" "" "" "" Demo.sh_ok None in
  let w := Demo.world_of [] in
  let r := del_snippet E false w in
  fs w !! (Repo, "Sop.csv") = None
  ∧ fst r = Ok tt
  ∧ fs (snd r) !! (Repo, "Sop.csv") = Some ""
  ∧ fs (snd r) ≠ fs w
  ∧ last (log (snd r)) = Some (NotifySend, messages.CAT_EMPTY, 0).
Proof.
  intros E w r. split; [reflexivity |]. split; [vm_compute; reflexivity |].
  assert (fs (snd r) !! (Repo, "Sop.csv") = Some "") as H by (vm_compute; reflexivity).
  split; [exact H |]. split; [| vm_compute; reflexivity].
  intros Heq. rewrite Heq in H. discriminate H.
Qed.

(** ** Deleting a snippet *)

Section Delete.

Variable E : environment.

Lemma kept_cons_keep id row rows :
  row !! 4 ≠ Some id → kept id (row :: rows) = row :: kept id rows.
Proof. intros H. unfold kept. by rewrite filter_cons_True. Qed.

Lemma kept_cons_drop id row rows :
  row !! 4 = Some id → kept id (row :: rows) = kept id rows.
Proof. intros H. unfold kept. rewrite filter_cons_False; [done | by intros ?]. Qed.

Lemma delete_loop_cons (s : snippet) (temp : path) (row : list string)
    (rows : list (list string)) :
  delete_loop E s temp (row :: rows)
  = bind (id <- index row 4 ;;
          if negb (String.eqb id (Snippet.uuid s)) then
            r0 <- index row 0 ;; r1 <- index row 1 ;; r2 <- index row 2 ;;
            r3 <- index row 3 ;; r4 <- index row 4 ;;
            write temp (csv_writerow E [r0; r1; r2; r3; r4])
          else ret tt)
         (λ _, delete_loop E s temp rows).
Proof. reflexivity. Qed.

Lemma index_cons {A} (x : A) (l : list A) (n : nat) : index (x :: l) (S n) = index l n.
Proof. reflexivity. Qed.

Lemma index_here {A} (x : A) (l : list A) : index (x :: l) 0 = ret x.
Proof. reflexivity. Qed.

(** The loop over the rows touches the temporary file only; it ends
    normally exactly when every row has its five fields, and it has then
    written the rows kept. *)
Lemma delete_loop_run (s : snippet) (temp : path) (rows : list (list string))
    (w : world) (t : string) :
  fs w !! temp = Some t →
  ∃ r w' t' J, delete_loop E s temp rows w = (r, w')
    ∧ fs w' = <[temp := t']> (fs w)
    ∧ dirs w' = dirs w
    ∧ journal w' = journal w ++ J
    ∧ Forall (λ m, ∃ t'', m = <[temp := t'']> (fs w)) J
    ∧ same_heap w w' ∧ log w' = log w
    ∧ (r = Ok tt ∨ r = Raise IndexError)
    ∧ (r = Ok tt ↔ Forall (λ row, 5 ≤ length row) rows)
    ∧ (r = Ok tt → t' = t +:+ rewritten E (Snippet.uuid s) rows).
Proof.
  revert w t. induction rows as [|row rows IH]; intros w t Ht.
  { exists (Ok tt), w, t, []. rewrite app_nil_r, insert_id by done.
    unfold rewritten, kept. cbn [filter list_filter fmap list_fmap csv_lines].
    rewrite string_app_nil_r.
    split; [done |]. split; [done |]. split; [done |]. split; [done |].
    split; [constructor |].
    split; [by repeat split |]. split; [done |]. split; [by left |].
    split; [| done]. split; [constructor | done]. }
  rewrite delete_loop_cons.
  destruct (decide (5 ≤ length row)) as [Hlen | Hlen].
  - destruct row as [|r0 [|r1 [|r2 [|r3 [|r4 row]]]]]; simpl in Hlen; try lia.
    rewrite bind_assoc, !index_cons, !index_here, !bind_ret_fn.
    destruct (String.eqb_spec r4 (Snippet.uuid s)) as [Heq | Hne]; cbn [negb].
    + rewrite bind_ret.
      destruct (IH w t Ht)
        as (r & w' & t' & J & R & F & D & Jn & HJ & SH & L & Hr & Hiff & Ht').
      exists r, w', t', J. rewrite R.
      split; [done |]. split; [exact F |]. split; [exact D |]. split; [exact Jn |].
      split; [exact HJ |].
      split; [exact SH |]. split; [exact L |]. split; [exact Hr |]. split.
      { split.
        - intros Hok. constructor; [simpl; lia | by apply Hiff].
        - intros Hall. apply Hiff. by apply Forall_cons in Hall as [_ ?]. }
      intros Hok. rewrite (Ht' Hok). unfold rewritten.
      rewrite kept_cons_drop; [done | by rewrite Heq].
    + set (line := csv_writerow E [r0; r1; r2; r3; r4]).
      unfold bind at 1. unfold write at 1, modify at 1.
      set (w1 := set_fs _ w).
      assert (fs w1 = <[temp := t +:+ line]> (fs w)) as F1.
      { unfold w1. wsimpl. by rewrite Ht. }
      destruct (IH w1 (t +:+ line))
        as (r & w' & t' & J & R & F & D & Jn & HJ & SH & L & Hr & Hiff & Ht').
      { rewrite F1. apply lookup_insert_eq. }
      exists r, w', t', (<[temp := t +:+ line]> (fs w) :: J). rewrite R.
      split; [done |]. split.
      { rewrite F, F1. apply insert_insert_eq. }
      split; [exact D |].
      split.
      { rewrite Jn. unfold w1. wsimpl. rewrite Ht. by rewrite <- app_assoc. }
      split.
      { constructor; [by eexists |].
        eapply Forall_impl; [exact HJ |]. simpl. intros m [t'' ->].
        exists t''. apply insert_insert_eq. }
      split; [exact SH |]. split; [exact L |]. split; [exact Hr |]. split.
      { split.
        - intros Hok. constructor; [simpl; lia | by apply Hiff].
        - intros Hall. apply Hiff. by apply Forall_cons in Hall as [_ ?]. }
      intros Hok. rewrite (Ht' Hok). unfold rewritten.
      rewrite kept_cons_keep by (simpl; congruence).
      rewrite fmap_cons. simpl csv_lines. fold line.
      by rewrite string_app_assoc.
  - assert (row !! 4 = None) as Hnone by (apply lookup_ge_None; lia).
    assert (index row 4 w = (Raise IndexError, w)) as Ri.
    { unfold index. by rewrite Hnone. }
    rewrite bind_assoc, (bind_raise _ _ _ _ _ Ri).
    exists (Raise IndexError), w, t, []. rewrite app_nil_r, insert_id by done.
    split; [done |]. split; [done |]. split; [done |]. split; [done |].
    split; [constructor |].
    split; [by repeat split |]. split; [done |]. split; [by right |]. split.
    + split; [done |]. intros Hall. apply Forall_cons in Hall as [? _]. lia.
    + done.
Qed.

End Delete.

(** ** One run of [Snippet.delete] *)

Section DeleteRun.

Variable E : environment.

Lemma read_file_ok (p : path) (what c : string) (w : world) :
  fs w !! p = Some c → read_file p what w = (Ok c, w).
Proof. unfold read_file. by intros ->. Qed.

Lemma exists_true (p : path) (c : string) (w : world) :
  fs w !! p = Some c → exists_ p w = (Ok true, w).
Proof.
  intros H. unfold exists_, gets. rewrite H.
  by rewrite bool_decide_eq_true_2 by (by eexists).
Qed.

Lemma exists_false (p : path) (w : world) :
  fs w !! p = None → exists_ p w = (Ok false, w).
Proof.
  intros H. unfold exists_, gets. rewrite H.
  by rewrite bool_decide_eq_false_2 by (by intros [? ?]).
Qed.

Lemma unlink_ok (p : path) (what c : string) (w : world) :
  fs w !! p = Some c → unlink p what w = (Ok tt, set_fs (base.delete p) w).
Proof. unfold unlink. by intros ->. Qed.

Lemma unlink_missing (p : path) (what : string) (w : world) :
  fs w !! p = None → unlink p what w = (Raise (FileNotFoundError what), w).
Proof. unfold unlink. by intros ->. Qed.

(** The run of [Snippet.delete] through the loop and the copy: the
    index is read, the rows kept are written to the temporary file, and
    the temporary file is copied over the index.  [Jb] are the states
    before the copy. *)
Lemma delete_run (s : snippet) (w : world) (old : string) :
  let idx := list_file_of (Snippet.category s) in
  let temp := temp_file_of E (clock w) in
  let rows := csv_reader E old in
  let new := rewritten E (Snippet.uuid s) rows in
  let m1 := bootstrap (fs w) in
  let mt := <[temp := new]> m1 in
  let mi := <[idx := new]> mt in
  fs w !! idx = Some old →
  (old = "" → quiet E (notify_cmd_of (empty_warning E s) 4)) →
  ∃ w5 Jb t,
    journal w5 = journal w ++ Jb
    ∧ Forall (λ m, m !! idx = Some old) Jb
    ∧ fs w5 = <[temp := t]> m1
    ∧ dirs w5 = hierarchy (dirs w)
    ∧ instances w5 = instances w
    ∧ clock w5 = S (clock w)
    ∧ (¬ Forall (λ row, 5 ≤ length row) rows → delete E s w = (Raise IndexError, w5))
    ∧ (Forall (λ row, 5 ≤ length row) rows →
         ∃ w6, delete E s w
               = (unlink_at (Snippet.category s) (Snippet.uuid s)
                    (Path_str E (Snippet.category s) (Snippet.uuid s)) ;;
                  unlink temp (path_str E temp) ;;
                  modify (set_instances (remove_obj s))) w6
           ∧ fs w6 = mi
           ∧ journal w6 = journal w5 ++ [<[idx := ""]> mt; mi]
           ∧ dirs w6 = hierarchy (dirs w)
           ∧ instances w6 = instances w
           ∧ clock w6 = S (clock w)).
Proof.
  intros idx temp rows new m1 mt mi Hidx Hsh.
  assert (temp ≠ idx) as Hti by done.
  destruct (Config_run E w) as (w1 & J1 & R1 & F1 & D1 & Jn1 & HJ1 & SH1).
  assert (fs w1 !! idx = Some old) as H1.
  { rewrite F1. by apply bootstrap_lookup_Some. }
  assert (∃ w2, (if (String.length old =? 0)%nat
                 then Broadcast_all E (messages.CSV_EMPTY +:+ " " +:+ path_str E idx) 4
                 else ret tt) w1 = (Ok tt, w2)
                ∧ fs w2 = fs w1 ∧ dirs w2 = dirs w1
                ∧ journal w2 = journal w1 ∧ same_heap w1 w2)
    as (w2 & R2 & F2 & D2 & Jn2 & SH2).
  { destruct old as [|c old]; cbn [String.length Nat.eqb].
    - destruct (Hsh eq_refl) as [Hst Hpl].
      destruct (Broadcast_all_plain E (messages.CSV_EMPTY +:+ " " +:+ path_str E idx) 4 w1)
        as (w2 & R & (F & D & J & SH & _) & _); [lia | exact Hpl |].
      exists w2. rewrite R. unfold empty_warning in Hst. fold idx in Hst.
      by rewrite Hst.
    - exists w1. split; [done |]. split; [done |]. split; [done |]. split; [done |].
      apply same_heap_refl. }
  destruct (uuid1_run E w2) as (w3 & R3 & F3 & D3 & Jn3 & I3 & O3 & B3 & L3 & C3).
  assert (clock w2 = clock w) as Hclock.
  { destruct SH1 as (_ & _ & ? & _), SH2 as (_ & _ & ? & _). congruence. }
  rewrite Hclock in R3.
  assert (fs w3 !! idx = Some old) as H3 by (by rewrite F3, F2).
  set (w4 := set_fs (insert temp "") w3).
  assert (delete E s w
          = (delete_loop E s temp rows ;;
             copyfile temp idx (path_str E temp) ;;
             unlink_at (Snippet.category s) (Snippet.uuid s)
               (Path_str E (Snippet.category s) (Snippet.uuid s)) ;;
             unlink temp (path_str E temp) ;;
             modify (set_instances (remove_obj s))) w4) as Hrun.
  { unfold delete. fold idx.
    rewrite (bind_ok _ _ _ _ _ R1).
    rewrite (bind_ok _ _ _ _ _ (read_file_ok idx _ old w1 H1)).
    rewrite (bind_ok _ _ _ _ _ R2).
    rewrite (bind_ok _ _ _ _ _ R3).
    fold (temp_file_of E (clock w)). fold temp.
    rewrite (bind_ok _ _ _ _ _ (exists_true idx old w3 H3)). rewrite bind_ret.
    rewrite (bind_ok _ _ _ _ _ (read_file_ok idx _ old w3 H3)).
    unfold bind at 1. unfold open_w at 1.
    assert (dir_exists w3 temp.1 = true) as -> by reflexivity.
    by rewrite orb_true_r. }
  rewrite Hrun. clear Hrun.
  assert (fs w4 = <[temp := ""]> m1) as F4.
  { unfold w4. wsimpl. by rewrite F3, F2, F1. }
  destruct (delete_loop_run E s temp rows w4 "") as
    (r & w5 & t' & J5 & R5 & F5 & D5 & Jn5 & HJ5 & SH5 & L5 & Hr5 & Hiff & Ht').
  { rewrite F4. apply lookup_insert_eq. }
  rewrite F4, insert_insert_eq in F5.
  assert (instances w5 = instances w) as Hinst.
  { destruct SH5 as (H5 & _), SH2 as (H2 & _), SH1 as (H1' & _).
    rewrite H5. unfold w4. wsimpl. congruence. }
  assert (clock w5 = S (clock w)) as Hclk.
  { destruct SH5 as (_ & _ & H5 & _). rewrite H5. unfold w4. wsimpl. by rewrite C3, Hclock. }
  assert (dirs w5 = hierarchy (dirs w)) as Hdirs.
  { rewrite D5. unfold w4. wsimpl. by rewrite D3, D2, D1. }
  assert (journal w5 = journal w ++ (J1 ++ <[temp := ""]> m1 :: J5)) as Jn.
  { rewrite Jn5. unfold w4. wsimpl. rewrite Jn3, Jn2, Jn1, F3, F2, F1.
    by rewrite <- !app_assoc. }
  assert (Forall (λ m, m !! idx = Some old) (J1 ++ <[temp := ""]> m1 :: J5)) as HJb.
  { apply Forall_app. split.
    - eapply Forall_impl; [exact HJ1 |]. cbv beta. intros m Hm.
      eapply lookup_weaken; [exact Hidx | exact Hm].
    - constructor.
      + rewrite lookup_insert_ne by done. by apply bootstrap_lookup_Some.
      + eapply Forall_impl; [exact HJ5 |]. cbv beta. intros m [t'' ->].
        rewrite F4, insert_insert_eq. rewrite lookup_insert_ne by done.
        by apply bootstrap_lookup_Some. }
  exists w5, (J1 ++ <[temp := ""]> m1 :: J5), t'.
  split; [exact Jn |]. split; [exact HJb |]. split; [exact F5 |].
  split; [exact Hdirs |]. split; [exact Hinst |]. split; [exact Hclk |].
  destruct Hr5 as [-> | ->].
  - (* the loop ended normally *)
    assert (Forall (λ row, 5 ≤ length row) rows) as Hall by (by apply Hiff).
    split; [intros Hnot; by destruct Hnot |]. intros _.
    rewrite (Ht' eq_refl), string_app_nil_l in F5. fold new in F5. fold mt in F5.
    rewrite (bind_ok _ _ _ _ _ R5).
    unfold copyfile. rewrite bind_assoc.
    assert (fs w5 !! temp = Some new) as H5 by (rewrite F5; apply lookup_insert_eq).
    rewrite (bind_ok _ _ _ _ _ (read_file_ok temp _ new w5 H5)).
    destruct (create_run idx (path_str E temp) new w5) as (w6 & R6 & F6 & D6 & Jn6 & SH6 & L6).
    { left. rewrite F5. unfold mt. rewrite lookup_insert_ne by done.
      exists old. by apply bootstrap_lookup_Some. }
    rewrite (bind_ok _ _ _ _ _ R6).
    rewrite F5 in F6, Jn6. fold mi in F6, Jn6.
    exists w6. split; [reflexivity |]. split; [exact F6 |]. split; [exact Jn6 |].
    split; [by rewrite D6 |].
    destruct SH6 as (I6 & _ & C6 & _). split; congruence.
  - (* a row is too short *)
    assert (¬ Forall (λ row, 5 ≤ length row) rows) as Hnot.
    { intros Hall. apply Hiff in Hall. discriminate Hall. }
    split; [| intros Hall; by destruct Hnot].
    intros _. by rewrite (bind_raise _ _ _ _ _ R5).
Qed.

End DeleteRun.

(** ** The small CSV dialect reads back what it wrote *)

Lemma demo_read_escape (f rest fld : string) (row : list string) acc :
  Demo.read_rows (Demo.escape f +:+ rest) fld row acc
  = Demo.read_rows rest (fld +:+ f) row acc.
Proof.
  revert fld; induction f as [|c f IH]; intros fld; simpl Demo.escape; sapp.
  - by rewrite string_app_nil_r.
  - simpl. rewrite IH. by rewrite string_app_assoc.
Qed.

Lemma demo_read_fields (r : list string) (rest : string) (row : list string) acc :
  Demo.read_rows (Demo.writerow_fields r +:+ rest) "" row acc
  = Demo.read_rows rest "" (row ++ r) acc.
Proof.
  revert row; induction r as [|f r IH]; intros row; simpl Demo.writerow_fields; sapp.
  - by rewrite app_nil_r.
  - rewrite string_app_assoc, demo_read_escape. sapp. simpl.
    rewrite IH. by rewrite <- app_assoc.
Qed.

Lemma demo_read_lines (rows : list (list string)) acc :
  Demo.read_rows (Demo.lines rows) "" [] acc = acc ++ rows.
Proof.
  revert acc; induction rows as [|r rows IH]; intros acc; simpl Demo.lines.
  - by rewrite app_nil_r.
  - unfold Demo.writerow. rewrite string_app_assoc, demo_read_fields.
    unfold Py.nl. sapp. simpl. rewrite IH. by rewrite <- app_assoc.
Qed.

Lemma demo_csv_law (E : environment) (rows : list (list string)) :
  csv_writerow E = Demo.writerow → csv_reader E = Demo.reader →
  csv_reader E (csv_lines E rows) = rows.
Proof.
  intros Hw Hr. rewrite Hr.
  assert (csv_lines E rows = Demo.lines rows) as ->.
  { induction rows as [|r rows IH]; simpl; [done |]. by rewrite Hw, IH. }
  apply demo_read_lines.
Qed.

(** ** What [Snippet.delete] leaves behind *)

Lemma remove_obj_split (s : snippet) (l1 l2 : list snippet) :
  Forall (λ x, Snippet.oid x ≠ Snippet.oid s) l1 →
  remove_obj s (l1 ++ s :: l2) = l1 ++ l2.
Proof.
  induction l1 as [|a l1 IH]; intros H; cbn [app remove_obj].
  - by rewrite Nat.eqb_refl.
  - apply Forall_cons in H as [Ha H].
    destruct (Nat.eqb_spec (Snippet.oid a) (Snippet.oid s)); [done |].
    by rewrite IH.
Qed.

Lemma remove_obj_absent (s : snippet) (l : list snippet) :
  Forall (λ x, Snippet.oid x ≠ Snippet.oid s) l → remove_obj s l = l.
Proof.
  induction l as [|a l IH]; intros H; cbn [remove_obj]; [done |].
  apply Forall_cons in H as [Ha H].
  destruct (Nat.eqb_spec (Snippet.oid a) (Snippet.oid s)); [done |].
  by rewrite IH.
Qed.




Section DeleteOutcomes.

Variable E : environment.

(** The end of [Snippet.delete], from the removal of the content
    file on *)
Lemma delete_tail_at (s : snippet) (w6 : world) (p temp : path) (new what what' : string) :
  locate w6 (Snippet.category s) (Snippet.uuid s) = At p →
  p ≠ temp →
  fs w6 !! temp = Some new →
  let tail := (unlink_at (Snippet.category s) (Snippet.uuid s) what ;;
               unlink temp what' ;;
               modify (set_instances (remove_obj s))) in
  (is_Some (fs w6 !! p) →
     ∃ w', tail w6 = (Ok tt, w')
       ∧ fs w' = base.delete temp (base.delete p (fs w6))
       ∧ journal w' = journal w6
                      ++ [base.delete p (fs w6); base.delete temp (base.delete p (fs w6))]
       ∧ instances w' = remove_obj s (instances w6)
       ∧ dirs w' = dirs w6)
  ∧ (fs w6 !! p = None → tail w6 = (Raise (FileNotFoundError what), w6)).
Proof.
  intros Hloc Hne Htemp tail. unfold tail. split.
  - intros [c Hc]. unfold bind at 1. unfold unlink_at. rewrite Hloc.
    rewrite (unlink_ok p what c w6 Hc).
    assert (fs (set_fs (base.delete p) w6) !! temp = Some new) as H7.
    { wsimpl. by rewrite lookup_delete_ne. }
    rewrite (bind_ok _ _ _ _ _ (unlink_ok temp what' new _ H7)).
    eexists. split; [reflexivity |]. wsimpl.
    split; [done |]. split; [by rewrite <- app_assoc | done].
  - intros Hc. unfold bind at 1. unfold unlink_at. rewrite Hloc.
    by rewrite (unlink_missing p what w6 Hc).
Qed.


(** X1: a run of [Snippet.delete] for a snippet whose identifier is a
    plain file name, on an index whose rows all have five fields, with
    the content file present -- and, where the index is empty, with a
    notification that succeeds -- returns normally.  Afterwards the
    index holds the first five fields of the rows whose identifier
    differs, in their order, the content file and the temporary file are
    gone, every other file is as [Config()] left it, and the catalog has
    lost the snippet and nothing else: the objects before it and after
    it are there in their order. *)
Theorem delete_completes (s : snippet) (w : world) (old c : string) :
  let idx := list_file_of (Snippet.category s) in
  let file := snippet_file_of (Snippet.category s) (Snippet.uuid s) in
  let temp := temp_file_of E (clock w) in
  fs w !! idx = Some old →
  fs w !! file = Some c →
  Py.plain_name (Snippet.uuid s) = true →
  (old = "" → quiet E (notify_cmd_of (empty_warning E s) 4)) →
  Forall (λ row, 5 ≤ length row) (csv_reader E old) →
  ∃ w', delete E s w = (Ok tt, w')
    ∧ fs w' !! idx = Some (rewritten E (Snippet.uuid s) (csv_reader E old))
    ∧ fs w' !! file = None
    ∧ fs w' !! temp = None
    ∧ (∀ p, p ≠ idx → p ≠ file → p ≠ temp → fs w' !! p = bootstrap (fs w) !! p)
    ∧ (∀ l1 l2, instances w = l1 ++ s :: l2 →
         Forall (λ x, Snippet.oid x ≠ Snippet.oid s) l1 →
         instances w' = l1 ++ l2)
    ∧ (Forall (λ x, Snippet.oid x ≠ Snippet.oid s) (instances w) →
         instances w' = instances w).
Proof.
  intros idx file temp Hidx Hfile Hplain Hsh Hall.
  destruct (delete_run E s w old Hidx Hsh)
    as (w5 & Jb & t & _ & _ & _ & _ & _ & _ & _ & Hok).
  destruct (Hok Hall) as (w6 & R & F6 & _ & _ & I6 & _). fold idx temp in F6.
  assert (temp ≠ idx) as Hti by done.
  assert (file ≠ temp) as Hft by done.
  assert (file ≠ idx) as Hfi by done.
  destruct (delete_tail_at s w6 file temp (rewritten E (Snippet.uuid s) (csv_reader E old))
              (Path_str E (Snippet.category s) (Snippet.uuid s)) (path_str E temp))
    as (Hpresent & _).
  { by apply locate_plain. }
  { exact Hft. }
  { rewrite F6. rewrite lookup_insert_ne by done. apply lookup_insert_eq. }
  destruct Hpresent as (w' & R' & F & _ & I & _).
  { rewrite F6. rewrite !lookup_insert_ne by done. exists c. by apply bootstrap_lookup_Some. }
  exists w'. split; [by rewrite R |]. rewrite F, F6. split.
  { rewrite !lookup_delete_ne by done. apply lookup_insert_eq. }
  split; [rewrite lookup_delete_ne by done; apply lookup_delete_eq |].
  split; [apply lookup_delete_eq |]. split.
  { intros p H1 H2 H3. by rewrite !lookup_delete_ne, !lookup_insert_ne. }
  rewrite I, I6. split.
  - intros l1 l2 -> Hl1. by apply remove_obj_split.
  - apply remove_obj_absent.
Qed.

(** X2: when a row of the index has fewer than five fields,
    [Snippet.delete] raises [IndexError]: the index and every other file
    of the repository are untouched and the catalog is unchanged, but
    the temporary file stays behind in [/dev/shm]. *)
Theorem delete_short_row (s : snippet) (w : world) (old : string) :
  let idx := list_file_of (Snippet.category s) in
  let temp := temp_file_of E (clock w) in
  fs w !! idx = Some old →
  (old = "" → shell_status E (notify_cmd_of (empty_warning E s) 4) = 0) →
  ¬ Forall (λ row, 5 ≤ length row) (csv_reader E old) →
  ∃ w', delete E s w = (Raise IndexError, w')
    ∧ fs w' !! idx = Some old
    ∧ is_Some (fs w' !! temp)
    ∧ (∀ p, p ≠ temp → fs w' !! p = bootstrap (fs w) !! p)
    ∧ instances w' = instances w.
Proof.
  intros idx temp Hidx Hsh Hnot.
  assert (old ≠ "") as Hold.
  { intros ->. apply Hnot. rewrite csv_reader_empty. constructor. }
  destruct (delete_run E s w old Hidx)
    as (w' & Jb & t & _ & _ & F & _ & I & _ & Hshort & _); [done |].
  fold temp in F.
  exists w'. split; [by apply Hshort |]. rewrite F.
  split; [rewrite lookup_insert_ne by done; by apply bootstrap_lookup_Some |].
  split; [rewrite lookup_insert_eq; by eexists |].
  split; [| exact I]. intros p Hp. by rewrite lookup_insert_ne.
Qed.

(** X3: when the content file of a snippet whose identifier is a plain
    file name is missing, [Snippet.delete] raises [FileNotFoundError]
    only after it has rewritten the index: the snippet's rows are gone
    from the index, the temporary file stays behind holding a copy of
    the new index, every other file is as [Config()] left it, and the
    catalog is unchanged, the object still in it. *)
Theorem delete_content_missing (s : snippet) (w : world) (old : string) :
  let idx := list_file_of (Snippet.category s) in
  let file := snippet_file_of (Snippet.category s) (Snippet.uuid s) in
  let temp := temp_file_of E (clock w) in
  let new := rewritten E (Snippet.uuid s) (csv_reader E old) in
  fs w !! idx = Some old →
  fs w !! file = None →
  Py.plain_name (Snippet.uuid s) = true →
  (old = "" → quiet E (notify_cmd_of (empty_warning E s) 4)) →
  Forall (λ row, 5 ≤ length row) (csv_reader E old) →
  ∃ w', delete E s w = (Raise (FileNotFoundError (path_str E file)), w')
    ∧ fs w' !! idx = Some new
    ∧ fs w' !! temp = Some new
    ∧ (∀ p, p ≠ idx → p ≠ temp → fs w' !! p = bootstrap (fs w) !! p)
    ∧ instances w' = instances w.
Proof.
  intros idx file temp new Hidx Hfile Hplain Hsh Hall.
  destruct (delete_run E s w old Hidx Hsh)
    as (w5 & Jb & t & _ & _ & _ & _ & _ & _ & _ & Hok).
  destruct (Hok Hall) as (w6 & R & F6 & _ & _ & I6 & _). fold idx temp new in F6.
  assert (temp ≠ idx) as Hti by done.
  assert (file ≠ temp) as Hft by done.
  assert (file ≠ idx) as Hfi by done.
  destruct (delete_tail_at s w6 file temp new
              (Path_str E (Snippet.category s) (Snippet.uuid s)) (path_str E temp))
    as (_ & Hmissing).
  { by apply locate_plain. }
  { exact Hft. }
  { rewrite F6. rewrite lookup_insert_ne by done. apply lookup_insert_eq. }
  exists w6. split.
  { rewrite R. unfold file. rewrite <- (Path_str_plain E _ _ Hplain). apply Hmissing.
    rewrite F6. rewrite !lookup_insert_ne by done.
    by rewrite bootstrap_only_indexes. }
  rewrite F6. split; [apply lookup_insert_eq |]. split.
  { rewrite lookup_insert_ne by done. apply lookup_insert_eq. }
  split; [| exact I6]. intros p H1 H2. by rewrite !lookup_insert_ne.
Qed.


End DeleteOutcomes.

(** A [Sop] index of two snippets and a catalog of three objects; the
    one in the middle is deleted. *)
Lemma delete_completes_witness :
  let s := Demo.op 1 "a" ["x"] "id0" in
  let w := Demo.with_catalog [Demo.op 0 "b" ["y"] "id1"; s; Demo.op 2 "c" [] "id2"]
             (Demo.sop_repo [Demo.sop_row "a" "x" "id0"; Demo.sop_row "b" "y" "id1"]
                [("id0", "A"); ("id1", "B")]) in
  fst (delete Demo.plain s w) = Ok tt
  ∧ fs (snd (delete Demo.plain s w)) !! (Repo, "Sop.csv")
    = Some (Demo.lines [Demo.sop_row "b" "y" "id1"])
  ∧ fs (snd (delete Demo.plain s w)) !! (Category "Sop", "id0") = None
  ∧ instances (snd (delete Demo.plain s w))
    = [Demo.op 0 "b" ["y"] "id1"; Demo.op 2 "c" [] "id2"].
Proof.
  intros s w.
  destruct (delete_completes Demo.plain s w
              (Demo.lines [Demo.sop_row "a" "x" "id0"; Demo.sop_row "b" "y" "id1"]) "A")
    as (w' & R & H1 & H2 & _ & _ & H5 & _).
  - reflexivity.
  - reflexivity.
  - reflexivity.
  - intros H. discriminate H.
  - vm_compute. repeat constructor.
  - rewrite R. split; [reflexivity |]. split; [exact H1 |]. split; [exact H2 |].
    apply (H5 [Demo.op 0 "b" ["y"] "id1"] [Demo.op 2 "c" [] "id2"]); [reflexivity |].
    repeat constructor. vm_compute. lia.
Defined.

(** An index whose second row lacks its identifier. *)
Lemma delete_short_row_witness :
  let s := Demo.op 0 "a" ["x"] "id0" in
  let w := Demo.sop_repo [Demo.sop_row "a" "x" "id0"; ["b"; "y"; "Sop"; "SOP"]]
             [("id0", "A")] in
  fst (delete Demo.plain s w) = Raise IndexError
  ∧ is_Some (fs (snd (delete Demo.plain s w)) !! (Shm, "houclip_id0.csv")).
Proof.
  intros s w.
  destruct (delete_short_row Demo.plain s w
              (Demo.lines [Demo.sop_row "a" "x" "id0"; ["b"; "y"; "Sop"; "SOP"]]))
    as (w' & R & _ & H2 & _).
  - reflexivity.
  - reflexivity.
  - vm_compute. intros H. apply Forall_cons in H as [_ H].
    apply Forall_cons in H as [H _]. lia.
  - rewrite R. split; [reflexivity | exact H2].
Defined.

(** An index that lists a snippet whose content file is not there; the
    object is in the catalog before and after. *)
Lemma delete_content_missing_witness :
  let s := Demo.op 0 "a" ["x"] "id0" in
  let w := Demo.with_catalog [s; Demo.op 1 "b" ["y"] "id1"]
             (Demo.sop_repo [Demo.sop_row "a" "x" "id0"; Demo.sop_row "b" "y" "id1"]
                [("id1", "B")]) in
  fs (snd (delete Demo.plain s w)) !! (Repo, "Sop.csv")
    = Some (Demo.lines [Demo.sop_row "b" "y" "id1"])
  ∧ instances (snd (delete Demo.plain s w)) = [s; Demo.op 1 "b" ["y"] "id1"].
Proof.
  intros s w.
  destruct (delete_content_missing Demo.plain s w
              (Demo.lines [Demo.sop_row "a" "x" "id0"; Demo.sop_row "b" "y" "id1"]))
    as (w' & R & H1 & _ & _ & H3).
  - reflexivity.
  - reflexivity.
  - reflexivity.
  - intros H. discriminate H.
  - vm_compute. repeat constructor.
  - rewrite R. split; [exact H1 | exact H3].
Defined.


(** ** The index rewrite *)

Section Rewrite.

Variable E : environment.

(** One run of [Snippet.delete] for an identifier that is a plain file
    name: the outcome, the files, the catalog and the states passed
    through, [Jb] before the copy and [Jt] from the copy on. *)
Lemma delete_plain_run (s : snippet) (w : world) (old : string) :
  let idx := list_file_of (Snippet.category s) in
  let file := snippet_file_of (Snippet.category s) (Snippet.uuid s) in
  let temp := temp_file_of E (clock w) in
  let rows := csv_reader E old in
  let new := rewritten E (Snippet.uuid s) rows in
  let m1 := bootstrap (fs w) in
  let mt := <[temp := new]> m1 in
  let mi := <[idx := new]> mt in
  fs w !! idx = Some old →
  Py.plain_name (Snippet.uuid s) = true →
  (old = "" → quiet E (notify_cmd_of (empty_warning E s) 4)) →
  ∃ r w' Jb Jt,
    delete E s w = (r, w')
    ∧ journal w' = journal w ++ Jb ++ Jt
    ∧ Forall (λ m, m !! idx = Some old) Jb
    ∧ (¬ Forall (λ row, 5 ≤ length row) rows →
         r = Raise IndexError ∧ Jt = [] ∧ instances w' = instances w
         ∧ ∃ t, fs w' = <[temp := t]> m1)
    ∧ (Forall (λ row, 5 ≤ length row) rows → fs w !! file = None →
         r = Raise (FileNotFoundError (path_str E file))
         ∧ Jt = [<[idx := ""]> mt; mi] ∧ instances w' = instances w
         ∧ fs w' = mi)
    ∧ (Forall (λ row, 5 ≤ length row) rows → is_Some (fs w !! file) →
         r = Ok tt
         ∧ Jt = [<[idx := ""]> mt; mi; base.delete file mi;
                 base.delete temp (base.delete file mi)]
         ∧ instances w' = remove_obj s (instances w)
         ∧ fs w' = base.delete temp (base.delete file mi)).
Proof.
  intros idx file temp rows new m1 mt mi Hidx Hplain Hsh.
  assert (temp ≠ idx) as Hti by done.
  assert (file ≠ temp) as Hft by done.
  assert (file ≠ idx) as Hfi by done.
  destruct (delete_run E s w old Hidx Hsh)
    as (w5 & Jb & t & Jn5 & HJb & F5 & _ & I5 & _ & Hshort & Hok).
  fold idx temp rows new m1 in F5, Hok, HJb.
  destruct (decide (Forall (λ row, 5 ≤ length row) rows)) as [Hall | Hnot].
  - destruct (Hok Hall) as (w6 & R & F6 & Jn6 & _ & I6 & _).
    fold mt mi in F6, Jn6.
    destruct (delete_tail_at s w6 file temp new
                (Path_str E (Snippet.category s) (Snippet.uuid s)) (path_str E temp))
      as (Hpresent & Hmissing).
    { by apply locate_plain. }
    { exact Hft. }
    { rewrite F6. unfold mi, mt. rewrite lookup_insert_ne by done. apply lookup_insert_eq. }
    assert (fs w6 !! file = fs w !! file) as Hfile.
    { rewrite F6. unfold mi, mt, m1. rewrite !lookup_insert_ne by done.
      by apply bootstrap_only_indexes. }
    destruct (fs w !! file) as [c|] eqn:Hc.
    + destruct Hpresent as (w' & R' & F' & Jn' & I' & _); [by rewrite Hfile |].
      exists (Ok tt), w', Jb, [<[idx := ""]> mt; mi; base.delete file mi;
                             base.delete temp (base.delete file mi)].
      split; [by rewrite R |]. split.
      { rewrite Jn', Jn6, Jn5, F6. by rewrite <- !app_assoc. }
      split; [exact HJb |]. split; [intros Hn; by destruct Hn |].
      split; [intros _ Hn; discriminate Hn |]. intros _ _.
      split; [done |]. split; [done |]. split; [by rewrite I', I6 | by rewrite F', F6].
    + exists (Raise (FileNotFoundError (path_str E file))), w6, Jb, [<[idx := ""]> mt; mi].
      split.
      { rewrite R. unfold file. rewrite <- (Path_str_plain E _ _ Hplain).
        apply Hmissing. by rewrite Hfile. }
      split; [rewrite Jn6, Jn5; by rewrite <- !app_assoc |].
      split; [exact HJb |]. split; [intros Hn; by destruct Hn |].
      split; [| intros _ [? Hn]; discriminate Hn]. intros _ _.
      by repeat split.
  - exists (Raise IndexError), w5, Jb, [].
    split; [by apply Hshort |]. split; [by rewrite Jn5, app_nil_r |].
    split; [exact HJb |]. split.
    + intros _. split; [done |]. split; [done |]. split; [exact I5 |]. by exists t.
    + split; intros Hall; by destruct Hnot.
Qed.

Lemma length_filter_split {A} (P : A → Prop) `{∀ x, Decision (P x)} (l : list A) :
  length (filter P l) + length (filter (λ x, ¬ P x) l) = length l.
Proof.
  induction l as [|x l IH]; [done |].
  destruct (decide (P x)) as [Hx | Hx].
  - rewrite (filter_cons_True P) by done.
    rewrite (filter_cons_False (λ x, ¬ P x)) by (by intros Hn). simpl. lia.
  - rewrite (filter_cons_False P) by done.
    rewrite (filter_cons_True (λ x, ¬ P x)) by done. simpl. lia.
Qed.

Lemma take_all_rows (rows : list (list string)) :
  Forall (λ row, length row = 5) rows → take 5 <$> rows = rows.
Proof.
  induction rows as [|row rows IH]; intros H; [done |].
  apply Forall_cons in H as [Hrow H]. rewrite fmap_cons, IH by done.
  f_equal. apply take_ge. lia.
Qed.


(** C2, as the code has it.  A run of [Snippet.delete] that completes
    leaves in the index the rows whose identifier differs from the
    snippet's, in the order of the file, each cut to its first five
    fields.  Every row that carries the identifier is dropped, so the
    row count decreases by the number of such rows; rows of exactly five
    fields are kept as they are. *)
Theorem index_rewrite_keeps_other_rows (s : snippet) (w : world) (old c : string) :
  let idx := list_file_of (Snippet.category s) in
  let file := snippet_file_of (Snippet.category s) (Snippet.uuid s) in
  let rows := csv_reader E old in
  let others := filter (λ row, row !! 4 ≠ Some (Snippet.uuid s)) rows in
  fs w !! idx = Some old →
  fs w !! file = Some c →
  Py.plain_name (Snippet.uuid s) = true →
  (old = "" → quiet E (notify_cmd_of (empty_warning E s) 4)) →
  Forall (λ row, 5 ≤ length row) rows →
  fst (delete E s w) = Ok tt
  ∧ fs (snd (delete E s w)) !! idx = Some (csv_lines E (take 5 <$> others))
  ∧ others `sublist_of` rows
  ∧ length (take 5 <$> others)
    + length (filter (λ row, ¬ row !! 4 ≠ Some (Snippet.uuid s)) rows) = length rows
  ∧ (Forall (λ row, length row = 5) rows → take 5 <$> others = others)
  ∧ (csv_reader E (csv_lines E (take 5 <$> others)) = take 5 <$> others →
       csv_reader E (default "" (fs (snd (delete E s w)) !! idx)) = take 5 <$> others).
Proof.
  intros idx file rows others Hidx Hfile Hplain Hsh Hall.
  destruct (delete_plain_run s w old Hidx Hplain Hsh)
    as (r & w' & Jb & Jt & R & _ & _ & _ & _ & Hok).
  destruct (Hok Hall) as (-> & _ & _ & F); [by eexists |].
  fold idx file in F.
  assert (temp_file_of E (clock w) ≠ idx) as Hti by done.
  assert (file ≠ idx) as Hfi by done.
  assert (fs w' !! idx = Some (csv_lines E (take 5 <$> others))) as Hnew.
  { rewrite F. rewrite !lookup_delete_ne by done. apply lookup_insert_eq. }
  rewrite R. cbn [fst snd]. split; [done |]. split; [exact Hnew |].
  split; [apply sublist_filter |]. split.
  { rewrite length_fmap. apply length_filter_split. }
  split.
  { intros H5. apply take_all_rows.
    apply Forall_forall. intros row Hrow.
    apply list_elem_of_filter in Hrow as [_ Hrow].
    rewrite Forall_forall in H5. by apply H5. }
  intros Hread. by rewrite Hnew.
Qed.

(** C4, as the code has it.  After a run of [Snippet.delete] that
    completes, for a snippet [s] of a catalog of distinct objects, the
    catalog is the old one without [s], and the index has no row with
    the identifier of [s].  A lookup of the description of [s] finds no
    object only when no other snippet of the catalog has that
    description; else it finds another snippet, never [s]. *)
Theorem delete_then_lookup (s : snippet) (w : world) (old c : string) :
  let idx := list_file_of (Snippet.category s) in
  let file := snippet_file_of (Snippet.category s) (Snippet.uuid s) in
  let rows := csv_reader E old in
  let others := take 5 <$> filter (λ row, row !! 4 ≠ Some (Snippet.uuid s)) rows in
  let w' := snd (delete E s w) in
  fs w !! idx = Some old →
  fs w !! file = Some c →
  Py.plain_name (Snippet.uuid s) = true →
  (old = "" → quiet E (notify_cmd_of (empty_warning E s) 4)) →
  Forall (λ row, 5 ≤ length row) rows →
  s ∈ instances w →
  NoDup (Snippet.oid <$> instances w) →
  fst (delete E s w) = Ok tt
  ∧ (∀ x, x ∈ instances w' ↔ x ∈ instances w ∧ x ≠ s)
  ∧ (∀ y, fst (get_by_description (Snippet.description s) w') = Ok (Some y) →
       y ∈ instances w ∧ y ≠ s ∧ Snippet.description y = Snippet.description s)
  ∧ ((∀ x, x ∈ instances w → Snippet.description x = Snippet.description s → x = s) ↔
       fst (get_by_description (Snippet.description s) w') = Ok None)
  ∧ fs w' !! idx = Some (csv_lines E others)
  ∧ (∀ row, row ∈ others → row !! 4 ≠ Some (Snippet.uuid s)).
Proof.
  intros idx file rows others w' Hidx Hfile Hplain Hsh Hall Hin Hnd.
  destruct (delete_plain_run s w old Hidx Hplain Hsh)
    as (r & w1 & Jb & Jt & R & _ & _ & _ & _ & Hok).
  destruct (Hok Hall) as (-> & _ & I & F); [by eexists |].
  fold idx file in F. unfold w'. rewrite R. cbn [fst snd].
  assert (temp_file_of E (clock w) ≠ idx) as Hti by done.
  assert (file ≠ idx) as Hfi by done.
  apply list_elem_of_split in Hin as (l1 & l2 & Hl).
  rewrite Hl in Hnd. rewrite fmap_app, fmap_cons in Hnd.
  apply NoDup_app in Hnd as (_ & Hl1 & Hnd). apply NoDup_cons in Hnd as [Hl2 _].
  assert (Forall (λ x, Snippet.oid x ≠ Snippet.oid s) l1) as Hl1'.
  { apply Forall_forall. intros x Hx Heq. apply (Hl1 (Snippet.oid x)).
    - apply list_elem_of_fmap. by exists x.
    - rewrite Heq. left. }
  assert (Forall (λ x, Snippet.oid x ≠ Snippet.oid s) l2) as Hl2'.
  { apply Forall_forall. intros x Hx Heq. apply Hl2.
    apply list_elem_of_fmap. by exists x. }
  assert (instances w1 = l1 ++ l2) as I'.
  { rewrite I, Hl. by apply remove_obj_split. }
  assert (∀ x, x ∈ instances w1 ↔ x ∈ instances w ∧ x ≠ s) as Hcat.
  { intros x. rewrite I', Hl, !elem_of_app, elem_of_cons. split.
    - intros [Hx | Hx].
      + split; [by left |]. intros ->.
        rewrite Forall_forall in Hl1'. by apply (Hl1' s Hx).
      + split; [by right; right |]. intros ->.
        rewrite Forall_forall in Hl2'. by apply (Hl2' s Hx).
    - intros [[Hx | [-> | Hx]] Hne]; [by left | done | by right]. }
  split; [done |]. split; [exact Hcat |].
  unfold get_by_description, gets. cbn [fst].
  split.
  { intros y [= Hy]. apply find_some in Hy as [Hy Hd].
    apply list_elem_of_In, Hcat in Hy as [Hy Hne].
    apply String.eqb_eq in Hd. by repeat split. }
  split.
  { split.
    - intros Honly.
      destruct (find _ (instances w1)) as [y|] eqn:Hy; [| done].
      apply find_some in Hy as [Hy Hd].
      apply list_elem_of_In, Hcat in Hy as [Hy Hne]. apply String.eqb_eq in Hd.
      destruct Hne. by apply Honly.
    - intros [= Hnone] x Hx Hd.
      rewrite Hl in Hx. apply elem_of_app in Hx as [Hx | Hx];
        [| apply elem_of_cons in Hx as [-> | Hx]; [done |]].
      all: assert (x ∈ instances w1) as Hx'
             by (rewrite I'; apply elem_of_app; first [by left | by right]).
      all: apply list_elem_of_In in Hx'.
      all: pose proof (find_none _ _ Hnone x Hx') as Hf; cbv beta in Hf.
      all: apply String.eqb_neq in Hf; done. }
  split.
  { rewrite F. rewrite !lookup_delete_ne by done. apply lookup_insert_eq. }
  intros row Hrow. unfold others in Hrow.
  apply list_elem_of_fmap in Hrow as (row' & -> & Hrow').
  apply list_elem_of_filter in Hrow' as [Hne Hrow'].
  rewrite Forall_forall in Hall. specialize (Hall row' Hrow').
  rewrite lookup_take_lt by lia. exact Hne.
Qed.

End Rewrite.



(** An index of three rows of five fields; the second is deleted. *)
Lemma index_rewrite_keeps_other_rows_witness :
  let s := Demo.op 0 "b" ["y"] "id1" in
  let rows := [Demo.sop_row "a" "x" "id0"; Demo.sop_row "b" "y" "id1";
               Demo.sop_row "c" "z" "id2"] in
  let w := Demo.sop_repo rows [("id1", "B")] in
  csv_reader Demo.plain (default "" (fs (snd (delete Demo.plain s w)) !! (Repo, "Sop.csv")))
  = [Demo.sop_row "a" "x" "id0"; Demo.sop_row "c" "z" "id2"].
Proof.
  intros s rows w.
  destruct (index_rewrite_keeps_other_rows Demo.plain s w (Demo.lines rows) "B")
    as (_ & _ & _ & _ & _ & H).
  - reflexivity.
  - reflexivity.
  - reflexivity.
  - intros H. discriminate H.
  - vm_compute. repeat constructor.
  - etrans; [apply H |]; vm_compute; reflexivity.
Defined.

(** C2 fails on the code: of four rows, two carry the identifier and
    one has a sixth field; after the deletion two rows are left, not
    three, and the sixth field is gone. *)
Lemma index_rewrite_drops_duplicates :
  let s := Demo.op 0 "a" ["x"] "id0" in
  let rows := [Demo.sop_row "a" "x" "id0"; Demo.sop_row "b" "y" "id1";
               Demo.sop_row "a2" "z" "id0"; ["c"; "t"; "Sop"; "SOP"; "id2"; "extra"]] in
  let w := Demo.sop_repo rows [("id0", "A"); ("id1", "B")] in
  csv_reader Demo.plain (default "" (fs w !! (Repo, "Sop.csv"))) = rows
  ∧ fst (delete Demo.plain s w) = Ok tt
  ∧ csv_reader Demo.plain (default "" (fs (snd (delete Demo.plain s w)) !! (Repo, "Sop.csv")))
    = [Demo.sop_row "b" "y" "id1"; ["c"; "t"; "Sop"; "SOP"; "id2"]].
Proof. vm_compute. done. Qed.

(** A catalog of two snippets with different descriptions; the first
    is deleted and looked up. *)
Lemma delete_then_lookup_witness :
  let s := Demo.op 0 "a" ["x"] "id0" in
  let w := Demo.with_catalog [s; Demo.op 1 "b" ["y"] "id1"]
             (Demo.sop_repo [Demo.sop_row "a" "x" "id0"; Demo.sop_row "b" "y" "id1"]
                [("id0", "A"); ("id1", "B")]) in
  fst (get_by_description "a" (snd (delete Demo.plain s w))) = Ok None.
Proof.
  intros s w.
  destruct (delete_then_lookup Demo.plain s w
              (Demo.lines [Demo.sop_row "a" "x" "id0"; Demo.sop_row "b" "y" "id1"]) "A")
    as (_ & _ & _ & H & _).
  - reflexivity.
  - reflexivity.
  - reflexivity.
  - intros H. discriminate H.
  - vm_compute. repeat constructor.
  - left.
  - apply (bool_decide_unpack _). vm_compute. exact I.
  - apply H. intros x Hx Hd.
    apply elem_of_cons in Hx as [-> | Hx]; [done |].
    apply list_elem_of_singleton in Hx as ->. discriminate Hd.
Defined.

(** C4 fails on the code: two snippets of the catalog have the
    description [a]; after the first is deleted, the lookup of [a]
    returns the second. *)
Lemma delete_leaves_namesake :
  let s := Demo.op 0 "a" ["x"] "id0" in
  let w := Demo.with_catalog [s; Demo.op 1 "a" ["y"] "id1"]
             (Demo.sop_repo [Demo.sop_row "a" "x" "id0"; Demo.sop_row "a" "y" "id1"]
                [("id0", "A"); ("id1", "B")]) in
  fst (delete Demo.plain s w) = Ok tt
  ∧ fst (get_by_description (Snippet.description s) (snd (delete Demo.plain s w)))
    = Ok (Some (Demo.op 1 "a" ["y"] "id1")).
Proof. vm_compute. done. Qed.

(** Identifiers are file names only by habit: [Path(repo, category,
    uuid)] follows the identifier wherever it leads.  A snippet whose
    identifier is [../Sop.csv] has the index of its category for content
    file, and [Snippet.delete] for it returns normally after it has
    rewritten that index and then removed it, the content files of the
    other snippets staying behind; a snippet whose identifier is empty
    has the category's directory for content file, and the deletion
    stops with [IsADirectoryError] after the index was rewritten, the
    temporary file left in /dev/shm and the object still catalogued. *)
Theorem delete_follows_identifier_path :
  let s1 := Demo.op 0 "a" ["x"] "../Sop.csv" in
  let w1 := Demo.with_catalog [s1]
              (Demo.sop_repo [Demo.sop_row "a" "x" "../Sop.csv"; Demo.sop_row "b" "y" "id1"]
                 [("id1", "B")]) in
  let s2 := Demo.op 0 "a" ["x"] "" in
  let w2 := Demo.with_catalog [s2]
              (Demo.sop_repo [Demo.sop_row "a" "x" ""; Demo.sop_row "b" "y" "id1"]
                 [("id1", "B")]) in
  let new := Demo.lines [Demo.sop_row "b" "y" "id1"] in
  (fst (delete Demo.plain s1 w1) = Ok tt
   ∧ fs (snd (delete Demo.plain s1 w1)) !! list_file_of "Sop" = None
   ∧ fs (snd (delete Demo.plain s1 w1)) !! snippet_file_of "Sop" "id1" = Some "B"
   ∧ instances (snd (delete Demo.plain s1 w1)) = [])
  ∧ (fst (delete Demo.plain s2 w2)
     = Raise (IsADirectoryError "/home/user/.local/share/houclip/Sop")
     ∧ fs (snd (delete Demo.plain s2 w2)) !! list_file_of "Sop" = Some new
     ∧ fs (snd (delete Demo.plain s2 w2)) !! temp_file_of Demo.plain (clock w2) = Some new
     ∧ instances (snd (delete Demo.plain s2 w2)) = [s2]).
Proof. vm_compute. repeat split; reflexivity. Qed.

(** ** Create, then List+Fetch *)

Section CreateFetch.

Variable E : environment.

Lemma for_each_app {A} (l1 l2 : list A) (body : A → M unit) (w : world) :
  for_each (l1 ++ l2) body w = (for_each l1 body ;; for_each l2 body) w.
Proof.
  revert w. induction l1 as [|x l1 IH]; intros w; cbn [app for_each].
  - reflexivity.
  - unfold bind. destruct (body x w) as [[[]|e|] w1]; [| done | done].
    by rewrite IH.
Qed.

Lemma Snippet_init_inv (v : variant) (d t c : string) (p : option string) (u : string)
    (w w' : world) (s : snippet) :
  Snippet_init v d t c p u w = (Ok s, w') →
  s = {| Snippet.oid := next_oid w; Snippet.kind := v;
         Snippet.description := d; Snippet.tags := set_tags t;
         Snippet.category := c; Snippet.prefix := default "" p;
         Snippet.uuid := u |}
  ∧ instances w' = instances w ++ [s]
  ∧ fs w' = fs w ∧ dirs w' = dirs w ∧ clipboard w' = clipboard w.
Proof.
  unfold Snippet_init, bind, set_description, set_category, set_prefix, raise, ret.
  destruct (String.eqb d ""); [intros H; discriminate H |].
  destruct v; destruct (_ || _); try (intros H; discriminate H);
    destruct p as [p|]; try destruct (negb _); intros H; try discriminate H;
    injection H as <- <-; by repeat split.
Qed.

(** The loop of [get_snippet], when it comes to its end, has added one
    object for every row, in the order of the rows. *)
Lemma load_rows_run (rows : list (list string)) (w w' : world) :
  load_rows rows w = (Ok tt, w') →
  ∃ l, instances w' = instances w ++ l
    ∧ Forall2 loaded_from rows l
    ∧ fs w' = fs w ∧ dirs w' = dirs w ∧ clipboard w' = clipboard w.
Proof.
  revert w. induction rows as [|item rows IH]; intros w; unfold load_rows; cbn [for_each].
  - intros [= <-]. exists []. rewrite app_nil_r. by repeat split; constructor.
  - unfold bind at 1.
    match goal with
    | |- match ?m with _ => _ end = _ → _ => destruct m as [[[]|e|] w1] eqn:Hstep
    end; intros H; try discriminate H.
    destruct (IH _ H) as (l & I & F2 & Hfs & Hd & Hc).
    unfold bind, index, ret, raise in Hstep.
    destruct (item !! 0) as [d|] eqn:H0; [| discriminate Hstep].
    destruct (item !! 1) as [t|] eqn:H1; [| discriminate Hstep].
    destruct (item !! 2) as [c|] eqn:H2; [| discriminate Hstep].
    destruct (item !! 3) as [p|] eqn:H3; [| discriminate Hstep].
    destruct (item !! 4) as [u|] eqn:H4; [| discriminate Hstep].
    destruct (in_tuple c CATEGORIES) eqn:Hcat.
    + unfold OpSnippet_new in Hstep.
      destruct (Snippet_init OpSnippet d t c (Some p) u w) as [[s|e|] w2] eqn:Hinit;
        try discriminate Hstep.
      injection Hstep as ->.
      apply Snippet_init_inv in Hinit as (Hs & I' & Hfs' & Hd' & Hc').
      exists (s :: l). split; [rewrite I, I'; by rewrite <- app_assoc |].
      split; [| split; [congruence | split; congruence]].
      constructor; [| exact F2]. unfold loaded_from. rewrite Hs.
      cbn [Snippet.description Snippet.category Snippet.uuid Snippet.kind Snippet.prefix].
      rewrite Hcat. by repeat split.
    + unfold CodeSnippet_new in Hstep.
      destruct (Snippet_init CodeSnippet d t c None u w) as [[s|e|] w2] eqn:Hinit;
        try discriminate Hstep.
      injection Hstep as ->.
      apply Snippet_init_inv in Hinit as (Hs & I' & Hfs' & Hd' & Hc').
      exists (s :: l). split; [rewrite I, I'; by rewrite <- app_assoc |].
      split; [| split; [congruence | split; congruence]].
      constructor; [| exact F2]. unfold loaded_from. rewrite Hs.
      cbn [Snippet.description Snippet.category Snippet.uuid Snippet.kind Snippet.prefix].
      rewrite Hcat. by repeat split.
Qed.

(** A row of a registered category with a description and, for a
    structural category, a prefix of the registry, is loaded. *)
Lemma load_rows_last (d t c p u : string) (w : world) :
  d ≠ "" →
  c ∈ CATEGORIES ++ LANGUAGES →
  (c ∈ CATEGORIES → in_values (Some p) = true) →
  ∃ s w', load_rows [[d; t; c; p; u]] w = (Ok tt, w')
    ∧ instances w' = instances w ++ [s]
    ∧ fs w' = fs w ∧ dirs w' = dirs w ∧ clipboard w' = clipboard w
    ∧ loaded_from [d; t; c; p; u] s.
Proof.
  intros Hd Hc Hp. unfold load_rows. cbn [for_each].
  unfold index. cbn [lookup list_lookup]. rewrite !bind_ret_fn.
  destruct (in_tuple c CATEGORIES) eqn:Hcat.
  - assert (c ∈ CATEGORIES) as Hc' by (by apply bool_decide_eq_true in Hcat).
    destruct (registry_table c Hc') as (v' & _ & _ & _ & _ & Hcat').
    unfold OpSnippet_new.
    destruct (Snippet_init_ok OpSnippet d t c (Some p) u w Hd (Hcat' w) (Hp Hc'))
      as (s & w' & R & Hs & I & F & D & _ & _ & _ & C & _).
    exists s, w'. rewrite bind_assoc, (bind_ok _ _ _ _ _ R).
    split; [reflexivity |]. split; [exact I |]. split; [exact F |].
    split; [exact D |]. split; [exact C |].
    unfold loaded_from. rewrite Hs.
      cbn [Snippet.description Snippet.category Snippet.uuid Snippet.kind Snippet.prefix].
      rewrite Hcat. by repeat split.
  - assert (c ∈ LANGUAGES) as Hc'.
    { apply elem_of_app in Hc as [Hc | Hc]; [| exact Hc].
      apply bool_decide_eq_false in Hcat. by destruct Hcat. }
    unfold CodeSnippet_new.
    destruct (Snippet_init_ok CodeSnippet d t c None u w Hd (language_category c w Hc') eq_refl)
      as (s & w' & R & Hs & I & F & D & _ & _ & _ & C & _).
    exists s, w'. rewrite bind_assoc, (bind_ok _ _ _ _ _ R).
    split; [reflexivity |]. split; [exact I |]. split; [exact F |].
    split; [exact D |]. split; [exact C |].
    unfold loaded_from. rewrite Hs.
      cbn [Snippet.description Snippet.category Snippet.uuid Snippet.kind Snippet.prefix].
      rewrite Hcat. by repeat split.
Qed.

Lemma find_after {A} (f : A → bool) (l1 l2 : list A) :
  Forall (λ x, f x = false) l1 → find f (l1 ++ l2) = find f l2.
Proof.
  induction 1 as [|x l1 Hx _ IH]; [done |]. cbn. by rewrite Hx.
Qed.

(** The part of List+Fetch that follows the loading of the catalog,
    when the chosen line maps to the description of a snippet *)
Lemma pick_snippet_found (w : world) (s : snippet) :
  let line := menu_select E (map (Snippet_str E) (instances w)) (Some messages.SNIPPET) in
  line ≠ "" →
  find (λ i, String.eqb (Snippet.description i) (Py.rstrip (Py.partition_head "|" line)))
    (instances w) = Some s →
  ∃ w', same_heap w w'
    ∧ fs w' = bootstrap (fs w) ∧ dirs w' = hierarchy (dirs w)
    ∧ ∀ k, pick_snippet E k w = k (Some s) w'.
Proof.
  intros line Hline Hfind.
  destruct (strs_run E (instances w) w) as (w' & R & SH & _ & Hne).
  assert (instances w ≠ []) as Hnil.
  { intros Hl. rewrite Hl in Hfind. discriminate Hfind. }
  destruct (Hne Hnil) as [F' D'].
  exists w'. split; [exact SH |]. split; [exact F' |]. split; [exact D' |].
  intros k. unfold pick_snippet.
  unfold bind at 1. unfold gets at 1.
  rewrite (bind_ok _ _ _ _ _ R). rewrite length_map.
  assert ((length (instances w) =? 0)%nat = false) as ->.
  { destruct (instances w); [done | reflexivity]. }
  fold line. destruct (String.eqb_spec line "") as [|_]; [done |].
  unfold bind at 1. unfold get_by_description, gets.
  destruct SH as (HI & _). by rewrite HI, Hfind.
Qed.

Lemma fetched_plain (c : string) :
  c ∈ CATEGORIES ++ LANGUAGES → Sh.plain (notify_cmd_of (fetched_msg c) 0) = true.
Proof.
  intros Hc. unfold CATEGORIES, LANGUAGES in Hc. simpl in Hc.
  each_member Hc; vm_compute; reflexivity.
Qed.

Lemma language_not_category (l : string) : l ∈ LANGUAGES → in_tuple l CATEGORIES = false.
Proof.
  intros Hl. unfold LANGUAGES in Hl. each_member Hl; vm_compute; reflexivity.
Qed.

(** List+Fetch on an index whose last row is the first with its
    description, the user choosing a line that maps to that
    description: the snippet of that row is fetched. *)
Lemma get_snippet_last_row (categories : list string) (w2 : world) (items : string)
    (rows : list (list string)) (d t c p u : string) :
  let purged := set_instances (λ _, []) (snd (Config E w2)) in
  let row := [d; t; c; p; u] in
  let loaded := snd (load_rows (rows ++ [row]) purged) in
  Py.rstrip (menu_select E categories (Some "Which category?")) = c →
  c ∈ CATEGORIES ++ LANGUAGES →
  d ≠ "" →
  (c ∈ CATEGORIES → in_values (Some p) = true) →
  fs w2 !! list_file_of c = Some items →
  csv_reader E items = rows ++ [row] →
  fst (load_rows rows purged) = Ok tt →
  Forall (λ r, r !! 0 ≠ Some d) rows →
  Py.rstrip (Py.partition_head "|"
      (menu_select E (map (Snippet_str E) (instances loaded)) (Some messages.SNIPPET))) = d →
  ∃ s w3, loaded_from row s
    ∧ fs w3 = bootstrap (fs w2) ∧ dirs w3 = hierarchy (dirs w2)
    ∧ get_snippet E categories w2
      = (get_from_repo E s ;; Broadcast_all E (fetched_msg (Snippet.category s)) 0) w3.
Proof.
  intros purged row loaded Hmenu Hc Hd Hp Hidx Hread Hold Huniq Hpick.
  destruct (Config_run E w2) as (w1 & J1 & R1 & F1 & D1 & _).
  assert (purged = set_instances (λ _, []) w1) as Hwp by (unfold purged; by rewrite R1).
  destruct (load_rows rows purged) as [r wm] eqn:Rm. cbn [fst] in Hold. subst r.
  destruct (load_rows_run _ _ _ Rm) as (l1 & I1 & L1 & Fm & Dm & _).
  destruct (load_rows_last d t c p u wm Hd Hc Hp) as (s & wl & Rl & Il & Fl & Dl & _ & Ls).
  assert (load_rows (rows ++ [row]) purged = (Ok tt, wl)) as Rall.
  { unfold load_rows in Rm, Rl |- *. by rewrite for_each_app, (bind_ok _ _ _ _ _ Rm). }
  assert (loaded = wl) as Hwl by (unfold loaded; by rewrite Rall).
  rewrite Hwl in Hpick.
  assert (find (λ i, String.eqb (Snippet.description i) d) (instances wl) = Some s) as Hfind.
  { rewrite Il, I1, Hwp. wsimpl. cbn [app]. rewrite find_after.
    - cbn [find]. destruct Ls as (H0 & _). cbn in H0. injection H0 as <-.
      by rewrite String.eqb_refl.
    - eapply Forall2_Forall_r; [exact L1 |]. eapply Forall_impl; [exact Huniq |].
      cbv beta. intros r Hr y (Hy & _). apply String.eqb_neq. intros Heq.
      apply Hr. by rewrite Hy, Heq. }
  set (line := menu_select E (map (Snippet_str E) (instances wl)) (Some messages.SNIPPET)) in *.
  assert (line ≠ "") as Hline.
  { intros Heq. rewrite Heq in Hpick. apply Hd. by rewrite <- Hpick. }
  rewrite <- Hpick in Hfind.
  destruct (pick_snippet_found wl s Hline Hfind) as (w3 & _ & F3 & D3 & Hk).
  exists s, w3. split; [exact Ls |]. split.
  { rewrite F3, Fl, Fm, Hwp. wsimpl. by rewrite F1, bootstrap_idem. }
  split.
  { rewrite D3, Dl, Dm, Hwp. wsimpl. by rewrite D1, hierarchy_idem. }
  pose proof (get_snippet_loaded E categories w2 wl items) as L.
  cbv zeta in L. rewrite Hmenu in L. rewrite L.
  - apply Hk.
  - pose proof (valid_category_nonempty _ Hc) as Hne. intros ->. discriminate Hne.
  - by apply bootstrap_lookup_Some.
  - rewrite Hread. exact Rall.
Qed.

(** [add_code_snippet] with a language of the registry chosen *)
Lemma add_code_snippet_run (w : world) :
  let l := Py.rstrip (menu_select E LANGUAGES None) in
  let s := {| Snippet.oid := next_oid w; Snippet.kind := CodeSnippet;
              Snippet.description := menu_enter E messages.DESC;
              Snippet.tags := set_tags (menu_enter E messages.TAGS);
              Snippet.category := l; Snippet.prefix := "";
              Snippet.uuid := uuid_hex E (clock w) |} in
  l ∈ LANGUAGES →
  menu_enter E messages.DESC ≠ "" →
  Py.plain_name (uuid_hex E (clock w)) = true →
  ∃ w', add_code_snippet E w
        = (checked (shell_status E (notify_cmd_of messages.SNIPPET_ADDED 0)), w')
    ∧ instances w' = instances w ++ [s]
    ∧ fs w' = <[list_file_of l
                := default "" (fs w !! list_file_of l) +:+ csv_writerow E (row_of s)]>
               (<[snippet_file_of l (uuid_hex E (clock w)) := clipboard w]>
                  (bootstrap (fs w))).
Proof.
  intros l s Hl Hdesc Hid. unfold add_code_snippet. fold l.
  destruct (Config_run E w) as (w1 & J1 & R1 & F1 & D1 & _ & _ & SH1).
  rewrite (bind_ok _ _ _ _ _ R1).
  unfold in_tuple. rewrite bool_decide_eq_true_2 by done. cbn [negb].
  destruct (String.eqb_spec (menu_enter E messages.DESC) "") as [|_]; [done |].
  destruct (uuid1_run E w1) as (w2 & R2 & F2 & D2 & _ & I2 & O2 & B2 & _ & C2).
  rewrite (bind_ok _ _ _ _ _ R2).
  unfold bind at 1. unfold Clipboard_get, gets.
  destruct SH1 as (I1 & O1 & C1 & B1).
  unfold CodeSnippet_new.
  destruct (Snippet_init_ok CodeSnippet (menu_enter E messages.DESC)
              (menu_enter E messages.TAGS) l None (uuid_hex E (clock w1)) w2 Hdesc
              (language_category l w2 Hl) eq_refl)
    as (s' & w3 & R3 & Hs & I3 & F3 & D3 & _ & _ & _ & B3 & _).
  rewrite O2, O1, C1 in Hs. change (default "" None) with "" in Hs. fold s in Hs. subst s'.
  rewrite (bind_ok _ _ _ _ _ R3).
  destruct (CodeSnippet_store_in_repo_run E s (clipboard w2) w3) as (w4 & R4 & F4 & D4 & SH4).
  { by apply language_is_valid. }
  { exact Hid. }
  rewrite (bind_ok _ _ _ _ _ R4).
  destruct (add_to_list_run E s w4) as (w5 & R5 & F5 & D5 & SH5).
  rewrite (bind_ok _ _ _ _ _ R5).
  destruct (Broadcast_all_plain E messages.SNIPPET_ADDED 0 w5)
    as (w6 & R6 & (F6 & _ & _ & SH6 & _) & _); [lia | reflexivity |].
  exists w6. split; [exact R6 |]. split.
  { destruct SH6 as (-> & _), SH5 as (-> & _), SH4 as (-> & _). by rewrite I3, I2, I1. }
  rewrite F6, F5, F4, F3, F2, F1, B2, B1. cbn [Snippet.category Snippet.uuid s].
  set (m1 := <[snippet_file_of l (uuid_hex E (clock w)) := clipboard w]> (bootstrap (fs w))).
  assert (indexed m1) as Hm1 by apply indexed_insert, indexed_bootstrap.
  rewrite (indexed_fixed (bootstrap (fs w)) (indexed_bootstrap _)).
  fold m1. rewrite (indexed_fixed m1 Hm1).
  assert (m1 !! list_file_of l = Some (default "" (fs w !! list_file_of l))) as ->.
  { unfold m1. rewrite lookup_insert_ne by done.
    by apply bootstrap_index, language_is_valid. }
  reflexivity.
Qed.

(** C3, as the code has it.  A snippet made by a Create workflow and
    then fetched by List+Fetch through its description comes back with
    the payload that was stored, provided no earlier row of its
    category's index has the same description: the lookup by
    description returns the first snippet that has it.  The fetch may
    run in any later world in which the index and the content file are
    as Create left them, whatever else has changed, if the rows before
    the new one still load and the reader gives back the row written.
    A structural payload, stored as a gzip stream, is written
    decompressed to the host's [<prefix>_copy.cpio], whose directory
    must exist; a textual payload, stored verbatim, is put on the
    clipboard by [xclip], which must succeed. *)
Theorem create_then_fetch (w w2 : world) :
  let desc := menu_enter E messages.DESC in
  let tags := Py.join "," (set_tags (menu_enter E messages.TAGS)) in
  let id := uuid_hex E (clock w) in
  let purged := set_instances (λ _, []) (snd (Config E w2)) in
  desc ≠ "" →
  Py.plain_name id = true →
  (∀ h c p rows,
     let idx := list_file_of c in
     let file := snippet_file_of c id in
     let row := [desc; tags; c; p; id] in
     let w1 := snd (add_op_snippet E w) in
     hou E = Some h →
     type_category <$> find is_node (selectedItems h) = Some c →
     dict_get PREFIXES c = Some (Some p) →
     clip_name h = p +:+ "_copy.cpio" →
     gzip_decompress E (gzip_compress E (clip_payload h)) = Some (clip_payload h) →
     fs w2 !! idx = fs w1 !! idx →
     fs w2 !! file = fs w1 !! file →
     HoudiniTemp ∈ dirs w2 →
     csv_reader E (default "" (fs w !! idx) +:+ csv_writerow E row) = rows ++ [row] →
     fst (load_rows rows purged) = Ok tt →
     Forall (λ r, r !! 0 ≠ Some desc) rows →
     Py.rstrip (menu_select E CATEGORIES (Some "Which category?")) = c →
     Py.rstrip (Py.partition_head "|"
         (menu_select E
            (map (Snippet_str E) (instances (snd (load_rows (rows ++ [row]) purged))))
            (Some messages.SNIPPET))) = desc →
     fst (get_snippet E CATEGORIES w2)
       = checked (shell_status E (notify_cmd_of (fetched_msg c) 0))
     ∧ fs (snd (get_snippet E CATEGORIES w2)) !! cpio_of p = Some (clip_payload h))
  ∧ (∀ rows,
       let l := Py.rstrip (menu_select E LANGUAGES None) in
       let idx := list_file_of l in
       let file := snippet_file_of l id in
       let row := [desc; tags; l; ""; id] in
       let w1 := snd (add_code_snippet E w) in
       l ∈ LANGUAGES →
       quiet E (Clipboard_cmd E l id) →
       fs w2 !! idx = fs w1 !! idx →
       fs w2 !! file = fs w1 !! file →
       csv_reader E (default "" (fs w !! idx) +:+ csv_writerow E row) = rows ++ [row] →
       fst (load_rows rows purged) = Ok tt →
       Forall (λ r, r !! 0 ≠ Some desc) rows →
       Py.rstrip (menu_select E LANGUAGES (Some "Which category?")) = l →
       Py.rstrip (Py.partition_head "|"
           (menu_select E
              (map (Snippet_str E) (instances (snd (load_rows (rows ++ [row]) purged))))
              (Some messages.SNIPPET))) = desc →
       fst (get_code_snippet E w2)
         = checked (shell_status E (notify_cmd_of (fetched_msg l) 0))
       ∧ clipboard (snd (get_code_snippet E w2)) = clipboard w).
Proof.
  intros desc tags id purged Hdesc Hid. split.
  - intros h c p rows idx file row w1 Hh Hsel Hv Hclip Hgz Hidx Hfile Htemp Hread Hold
      Huniq Hmenu Hpick.
    destruct (registered c _ Hv) as [Hc Hin].
    destruct (add_op_snippet_mapped E h w c p Hh Hsel Hv Hclip Hdesc Hid)
      as (w1' & R1 & _ & F1).
    assert (w1 = w1') as Hw1 by (unfold w1; by rewrite R1). rewrite Hw1 in Hidx, Hfile.
    rewrite F1 in Hidx, Hfile.
    rewrite lookup_insert_eq in Hidx.
    rewrite lookup_insert_ne, lookup_insert_eq in Hfile by done.
    destruct (get_snippet_last_row CATEGORIES w2 _ rows desc tags c p id Hmenu
                (category_is_valid c Hc) Hdesc (λ _, Hin) Hidx Hread Hold Huniq Hpick)
      as (s & w3 & (_ & H2 & H4 & Hk) & F3 & D3 & Rg).
    cbn in H2, H4. injection H2 as H2. injection H4 as H4. rewrite <- H2 in Hk.
    unfold in_tuple in Hk. rewrite bool_decide_eq_true_2 in Hk by done.
    destruct Hk as [Hkind H3]. cbn in H3. injection H3 as H3.
    rewrite Rg. unfold get_from_repo. rewrite Hkind.
    destruct (OpSnippet_get_from_repo_run E s w3 (gzip_compress E (clip_payload h))
                (clip_payload h)) as (w4 & R4 & F4 & _).
    { rewrite <- H2, <- H4, F3. by apply bootstrap_lookup_Some. }
    { exact Hgz. }
    { by rewrite <- H4. }
    { rewrite D3. by apply hierarchy_mono. }
    rewrite (bind_ok _ _ _ _ _ R4), <- H2.
    destruct (Broadcast_all_plain E (fetched_msg c) 0 w4) as (w5 & R5 & (F5 & _) & _);
      [lia | by apply fetched_plain, category_is_valid |].
    rewrite R5. cbn [fst snd]. split; [done |].
    rewrite F5, F4, <- H3. apply lookup_insert_eq.
  - intros rows l idx file row w1 Hl [Hsh Hp] Hidx Hfile Hread Hold Huniq Hmenu Hpick.
    destruct (add_code_snippet_run w Hl Hdesc Hid) as (w1' & R1 & _ & F1).
    assert (w1 = w1') as Hw1 by (unfold w1; by rewrite R1). rewrite Hw1 in Hidx, Hfile.
    rewrite F1 in Hidx, Hfile.
    rewrite lookup_insert_eq in Hidx.
    rewrite lookup_insert_ne, lookup_insert_eq in Hfile by done.
    assert (in_tuple l CATEGORIES = false) as Hnc by (by apply language_not_category).
    assert (l ∈ CATEGORIES → in_values (Some "") = true) as Hpv.
    { intros Hn. apply bool_decide_eq_false in Hnc. by destruct Hnc. }
    destruct (get_snippet_last_row LANGUAGES w2 _ rows desc tags l "" id Hmenu
                (language_is_valid l Hl) Hdesc Hpv Hidx Hread Hold Huniq Hpick)
      as (s & w3 & (_ & H2 & H4 & Hk) & F3 & D3 & Rg).
    cbn in H2, H4. injection H2 as H2. injection H4 as H4. rewrite <- H2 in Hk.
    fold l in Hnc. rewrite Hnc in Hk. destruct Hk as [Hkind _].
    unfold get_code_snippet. rewrite Rg. unfold get_from_repo. rewrite Hkind.
    destruct (CodeSnippet_get_from_repo_run E s w3 (clipboard w)) as (w4 & R4 & C4 & _).
    { rewrite <- H2, <- H4, F3. by apply bootstrap_lookup_Some. }
    { by rewrite <- H4. }
    { rewrite <- H2, <- H4. by split. }
    rewrite (bind_ok _ _ _ _ _ R4), <- H2.
    destruct (Broadcast_all_plain E (fetched_msg l) 0 w4)
      as (w5 & R5 & (_ & _ & _ & (_ & _ & _ & C5) & _) & _);
      [lia | by apply fetched_plain, language_is_valid |].
    rewrite R5. cbn [fst snd]. split; [done |]. by rewrite C5.
Qed.

End CreateFetch.

(** A premise about a concrete run is settled by running it. *)
Ltac premise :=
  lazymatch goal with
  | |- _ ∈ _ => apply (bool_decide_unpack _); vm_compute; exact I
  | |- Forall _ _ => repeat constructor; done
  | |- quiet _ _ => split; vm_compute; reflexivity
  | |- _ => vm_compute; reflexivity
  end.

(** Create in a [Sop] index that holds another snippet, then List+Fetch
    in a world in which the host's clipboard file holds something else;
    and a text put on the clipboard, stored, and fetched after the
    clipboard was emptied. *)
Lemma create_then_fetch_witness :
  let h := Demo.houdini [{| is_node := true; type_category := "Sop" |}]
             "SOP_copy.cpio" "PAYLOAD" in
  let E := Demo.env 8 "Sop" "blur      |blur,util" "blur" "util, blur" Demo.sh_ok (Some h) in
  let w := Demo.sop_repo [Demo.sop_row "bevel" "x" "idz"] [("idz", Demo.compress "OLD")] in
  let w2 := set_fs (insert (HoudiniTemp, "SOP_copy.cpio") "STALE") (snd (add_op_snippet E w)) in
  let E' := Demo.env 8 "Python" "loop      |util" "loop" "util" Demo.sh_ok None in
  let w' := set_clipboard "for x in y:" (Demo.world_of []) in
  let w2' := set_clipboard "" (snd (add_code_snippet E' w')) in
  fs (snd (get_snippet E CATEGORIES w2)) !! (HoudiniTemp, "SOP_copy.cpio") = Some "PAYLOAD"
  ∧ clipboard (snd (get_code_snippet E' w2')) = "for x in y:".
Proof.
  intros h E w w2 E' w' w2'. split.
  - destruct (create_then_fetch E w w2) as [H _]; [done | reflexivity |].
    destruct (H h "Sop" "SOP" [Demo.sop_row "bevel" "x" "idz"]) as [_ H2];
      [premise .. | exact H2].
  - destruct (create_then_fetch E' w' w2') as [_ H]; [done | reflexivity |].
    destruct (H []) as [_ H2]; [premise .. | exact H2].
Defined.

(** C3 fails on the code: the [Sop] index holds a snippet described
    [blur]; another snippet with that description is created and the
    user picks its line; List+Fetch hands the payload of the older one
    to the host. *)
Lemma fetch_returns_namesake :
  let h := Demo.houdini [{| is_node := true; type_category := "Sop" |}]
             "SOP_copy.cpio" "NEW" in
  let E := Demo.env 8 "Sop" "blur      |util" "blur" "util" Demo.sh_ok (Some h) in
  let w := Demo.sop_repo [Demo.sop_row "blur" "x" "idz"] [("idz", Demo.compress "OLD")] in
  let w1 := snd (add_op_snippet E w) in
  fst (add_op_snippet E w) = Ok tt
  ∧ fs w1 !! (Category "Sop", "id0") = Some (Demo.compress "NEW")
  ∧ fs w1 !! (HoudiniTemp, "SOP_copy.cpio") = Some "NEW"
  ∧ fst (get_snippet E CATEGORIES w1) = Ok tt
  ∧ map (Snippet_str E) (instances (snd (get_snippet E CATEGORIES w1)))
    = ["blur      |x"; "blur      |util"]
  ∧ fs (snd (get_snippet E CATEGORIES w1)) !! (HoudiniTemp, "SOP_copy.cpio") = Some "OLD".
Proof. vm_compute. done. Qed.
